(** * HydroCare frontend: a shallow embedding of the page scripts

    The development follows the four scripts of [frontend/js]:
    - [Auth]       : the login / register forms of [app.js];
    - [Chat]       : the chatbot page (second script of [app.js]);
    - [Detection]  : the disease-detection page (second script of [dashboard.js]);
    - [Parametres] : the measurement analysis of [parametres.js].

    Page state is threaded explicitly.  An [async] handler is cut at each
    [await]: the part before it runs when the user event is handled and
    leaves a pending continuation in the state; the part after it runs when
    the browser delivers the outcome of the awaited promise. *)

From Stdlib Require Import QArith ZArith NArith List Bool Ascii String Lia.
From Stdlib Require DecimalString.
From stdpp Require Import gmap strings list fin_maps.
Import ListNotations.

Set Default Proof Using "Type".

(** ** JavaScript strings

    A JS string is a sequence of UTF-16 code units; [length], [trim] and a
    regular expression without the [u] flag all work on code units. *)

Abbreviation JSString := (list N).

(** UTF-8 bytes to UTF-16 code units: one unit for a sequence of one to
    three bytes, a surrogate pair for a sequence of four. *)
Fixpoint utf16_of_utf8 (fuel : nat) (bs : list N) : JSString :=
  match fuel with
  | O => []
  | S fuel' =>
      match bs with
      | [] => []
      | b0 :: r0 =>
          if (b0 <? 192)%N then b0 :: utf16_of_utf8 fuel' r0
          else
            match r0 with
            | [] => [b0]
            | b1 :: r1 =>
                if (b0 <? 224)%N then
                  ((b0 - 192) * 64 + (b1 - 128))%N :: utf16_of_utf8 fuel' r1
                else
                  match r1 with
                  | [] => [b0; b1]
                  | b2 :: r2 =>
                      if (b0 <? 240)%N then
                        ((b0 - 224) * 4096 + (b1 - 128) * 64 + (b2 - 128))%N
                          :: utf16_of_utf8 fuel' r2
                      else
                        match r2 with
                        | [] => [b0; b1; b2]
                        | b3 :: r3 =>
                            let cp := ((b0 - 240) * 262144 + (b1 - 128) * 4096
                                       + (b2 - 128) * 64 + (b3 - 128) - 65536)%N in
                            (55296 + cp / 1024)%N :: (56320 + cp mod 1024)%N
                              :: utf16_of_utf8 fuel' r3
                        end
                  end
            end
      end
  end.

(** A string literal of the scripts. *)
Definition lit (s : string) : JSString :=
  let bs := map N_of_ascii (list_ascii_of_string s) in
  utf16_of_utf8 (length bs) bs.

(** [String(n)] for a non-negative integer. *)
Definition decimal (n : N) : JSString :=
  match n with
  | N0 => lit "0"
  | _ => lit (DecimalString.NilEmpty.string_of_uint (N.to_uint n))
  end.

(** WhiteSpace and LineTerminator of ECMAScript: what [String.prototype.trim]
    strips and what [\s] matches. *)
Definition isWhiteSpace (c : N) : bool :=
  ((c =? 9) || (c =? 10) || (c =? 11) || (c =? 12) || (c =? 13) || (c =? 32)
   || (c =? 160) || (c =? 5760) || ((8192 <=? c) && (c <=? 8202))
   || (c =? 8232) || (c =? 8233) || (c =? 8239) || (c =? 8287)
   || (c =? 12288) || (c =? 65279))%N.

Fixpoint trimStart (s : JSString) : JSString :=
  match s with
  | c :: r => if isWhiteSpace c then trimStart r else s
  | [] => []
  end.

Definition trimEnd (s : JSString) : JSString := rev (trimStart (rev s)).

Definition trim (s : JSString) : JSString := trimEnd (trimStart s).

(** [s.startsWith(p)] *)
Fixpoint startsWith (s p : JSString) : bool :=
  match p, s with
  | [], _ => true
  | _ :: _, [] => false
  | a :: p', b :: s' => (a =? b)%N && startsWith s' p'
  end.

(** [s.includes(p)] *)
Fixpoint includes (s p : JSString) : bool :=
  startsWith s p ||
  match s with
  | [] => false
  | _ :: s' => includes s' p
  end.

(** ** JavaScript numbers

    Only comparisons and truthiness are used by the scripts.  A Number is
    NaN, an infinity or a finite value; a finite double is a rational and
    [<], [>], [<=], [>=] compare the exact values, every comparison with NaN
    being false. *)

Inductive JSNumber : Type :=
| NaN
| NegInfinity
| Finite (q : Q)
| PosInfinity.

Definition num_lt (a b : JSNumber) : bool :=
  match a, b with
  | NaN, _ | _, NaN => false
  | Finite x, Finite y => negb (Qle_bool y x)
  | _, NegInfinity => false
  | NegInfinity, _ => true
  | PosInfinity, _ => false
  | _, PosInfinity => true
  end.

Definition num_gt (a b : JSNumber) : bool := num_lt b a.

Definition num_le (a b : JSNumber) : bool :=
  match a, b with
  | NaN, _ | _, NaN => false
  | Finite x, Finite y => Qle_bool x y
  | NegInfinity, _ => true
  | _, PosInfinity => true
  | _, NegInfinity => false
  | PosInfinity, _ => false
  end.

Definition num_ge (a b : JSNumber) : bool := num_le b a.

(** ToBoolean on a Number: [0] and [NaN] are falsy. *)
Definition num_truthy (a : JSNumber) : bool :=
  match a with
  | NaN => false
  | Finite q => negb (Qeq_bool q 0)
  | _ => true
  end.

(** The double that a decimal literal of a script denotes: the nearest
    value with a 53-bit significand, ties to the even significand (the
    literals of the scripts are far from the subnormal and the overflow
    range, which are left out).  A value that is a double is returned as
    written. *)
Definition double (q : Q) : Q :=
  let n := Z.abs (Qnum q) in
  let d := Zpos (Qden q) in
  if (n =? 0)%Z then q
  else
    let quotient e := ((n * 2 ^ Z.max 0 (- e)) / (d * 2 ^ Z.max 0 e))%Z in
    let e0 := (Z.log2 n - Z.log2 d - 52)%Z in
    let e := if (quotient e0 <? 2 ^ 52)%Z then (e0 - 1)%Z else e0 in
    let num := (n * 2 ^ Z.max 0 (- e))%Z in
    let den := (d * 2 ^ Z.max 0 e)%Z in
    let k := (num / den)%Z in
    let r := (num mod den)%Z in
    let m :=
      if (den <? 2 * r)%Z then (k + 1)%Z
      else if (2 * r =? den)%Z && Z.odd k then (k + 1)%Z
      else k in
    let v := (Z.sgn (Qnum q) * m * 2 ^ Z.max 0 e # Z.to_pos (2 ^ Z.max 0 (- e)))%Q in
    if Qeq_bool v q then q else v.

(** ** JSON values and awaited results *)

(** A scalar of a parsed JSON body; [VUndefined] is an absent property. *)
Inductive JSVal : Type :=
| VUndefined
| VNull
| VBool (b : bool)
| VNum (n : JSNumber)
| VStr (s : JSString).

(** ToBoolean *)
Definition truthy (v : JSVal) : bool :=
  match v with
  | VUndefined | VNull => false
  | VBool b => b
  | VNum n => num_truthy n
  | VStr s => negb (bool_decide (s = []))
  end.

(** [v !== undefined] *)
Definition isDefined (v : JSVal) : bool :=
  match v with
  | VUndefined => false
  | _ => true
  end.

(** How [fetch(...)] settles: rejected with an error, or a response. *)
Inductive FetchResult :=
| FetchRejected (message : JSString)
| FetchResponse (ok : bool) (status : N).

(** How [res.json()] settles; [JsonNull] is the body [null], on which the
    first property access raises a TypeError with the engine's message. *)
Inductive JsonResult (A : Type) :=
| JsonRejected (message : JSString)
| JsonNull (message : JSString)
| JsonData (d : A).

Arguments JsonRejected {A} message.
Arguments JsonNull {A} message.
Arguments JsonData {A} d.

(** How [res.text()] settles. *)
Inductive TextResult :=
| TextRejected (message : JSString)
| TextBody (body : JSString).

(** The value of a template literal, kept as its pieces: a number stands
    for the characters of [String(n)]. *)
Inductive Piece :=
| Chars (s : JSString)
| Num (n : JSNumber).

Definition Text := list Piece.

(** ** Regular expressions

    The one pattern of the scripts is anchored at both ends and has no
    capture: [re.test(s)] asks whether the whole of [s] is in its language.
    The pattern is a term, matched by derivatives. *)

Inductive RegExp : Type :=
| RNone
| REps
| RClass (p : N -> bool)
| RCat (r1 r2 : RegExp)
| RAlt (r1 r2 : RegExp)
| RStar (r : RegExp).

(** [r+] *)
Definition RPlus (r : RegExp) : RegExp := RCat r (RStar r).

Fixpoint nullable (r : RegExp) : bool :=
  match r with
  | RNone => false
  | REps => true
  | RClass _ => false
  | RCat r1 r2 => nullable r1 && nullable r2
  | RAlt r1 r2 => nullable r1 || nullable r2
  | RStar _ => true
  end.

Fixpoint deriv (c : N) (r : RegExp) : RegExp :=
  match r with
  | RNone => RNone
  | REps => RNone
  | RClass p => if p c then REps else RNone
  | RCat r1 r2 =>
      if nullable r1 then RAlt (RCat (deriv c r1) r2) (deriv c r2)
      else RCat (deriv c r1) r2
  | RAlt r1 r2 => RAlt (deriv c r1) (deriv c r2)
  | RStar r1 => RCat (deriv c r1) (RStar r1)
  end.

(** [/^r$/.test(s)] *)
Fixpoint test (r : RegExp) (s : JSString) : bool :=
  match s with
  | [] => nullable r
  | c :: s' => test (deriv c r) s'
  end.

(** The language of a pattern, as the definition of a match. *)
Inductive matches : RegExp -> JSString -> Prop :=
| MEps : matches REps []
| MClass p c : p c = true -> matches (RClass p) [c]
| MCat r1 r2 s1 s2 :
    matches r1 s1 -> matches r2 s2 -> matches (RCat r1 r2) (s1 ++ s2)
| MAltL r1 r2 s : matches r1 s -> matches (RAlt r1 r2) s
| MAltR r1 r2 s : matches r2 s -> matches (RAlt r1 r2) s
| MStarNil r : matches (RStar r) []
| MStarCons r s1 s2 :
    matches r s1 -> matches (RStar r) s2 -> matches (RStar r) (s1 ++ s2).

(** ** app.js, first script: the login and register forms *)

Module Auth.

(** An [<input>] of a form, as far as the handlers read it. *)
Record Input := {
  name : string;
  value : JSString;
  required : bool;
  checkbox : bool;
  checked : bool
}.

Definition Form := list Input.

(** [[^@\s]] *)
Definition notAtNorSpace (c : N) : bool :=
  negb (c =? 64)%N && negb (isWhiteSpace c).

Definition isAt (c : N) : bool := (c =? 64)%N.
Definition isDot (c : N) : bool := (c =? 46)%N.

(** [/^[^@\s]+@[^@\s]+\.[^@\s]+$/] *)
Definition emailPattern : RegExp :=
  RCat (RPlus (RClass notAtNorSpace))
    (RCat (RClass isAt)
       (RCat (RPlus (RClass notAtNorSpace))
          (RCat (RClass isDot) (RPlus (RClass notAtNorSpace))))).

(** [validateField(input)]: [None] when the field is valid (its error is
    cleared), [Some message] when [showError(input, message)] is called. *)
Definition validateField (input : Input) : option string :=
  let value := trim (value input) in
  if bool_decide (value = []) then
    Some "Ce champ est requis"%string
  else if bool_decide (name input = "email"%string) && negb (test emailPattern value) then
    Some "Adresse email invalide"%string
  else if bool_decide (name input = "password"%string) && (length value <? 6)%nat then
    Some "Le mot de passe doit contenir au moins 6 caractères"%string
  else if bool_decide (name input = "username"%string) && (length value <? 3)%nat then
    Some "Le nom d'utilisateur doit contenir au moins 3 caractères"%string
  else None.

(** [form.querySelector('input[name="terms"][required]')] *)
Definition termsInput (form : Form) : option Input :=
  find (fun i => bool_decide (name i = "terms"%string) && required i) form.

(** The loop of [validateForm] over [input[required]]: the flag [valid]
    and the [showError] calls made, in order. *)
Fixpoint validateInputs (inputs : list Input) (valid : bool)
    (shown : list (Input * string)) : bool * list (Input * string) :=
  match inputs with
  | [] => (valid, shown)
  | inp :: rest =>
      match validateField inp with
      | Some message => validateInputs rest false (shown ++ [(inp, message)])
      | None => validateInputs rest valid shown
      end
  end.

Definition validateForm (form : Form) : bool * list (Input * string) :=
  let inputs := filter (fun i => required i = true) form in
  let '(valid, shown) := validateInputs inputs true [] in
  match termsInput form with
  | Some terms =>
      if negb (checked terms) then
        (false,
         shown ++ [(terms, "Vous devez accepter les conditions pour continuer"%string)])
      else (valid, shown)
  | None => (valid, shown)
  end.

(** [Object.fromEntries(new FormData(form))[key]]: the value of the last
    successful control of that name; an unchecked checkbox is not one. *)
Definition formData (form : Form) (key : string) : option JSString :=
  match
    filter (fun i => bool_decide (name i = key) && (negb (checkbox i) || checked i) = true)
      form
  with
  | [] => None
  | l => Some (value (List.last l {| name := key; value := []; required := false;
                                     checkbox := false; checked := false |}))
  end.

(** [email.split('@')[0]] *)
Fixpoint beforeAt (s : JSString) : JSString :=
  match s with
  | [] => []
  | c :: r => if isAt c then [] else c :: beforeAt r
  end.

(** What the page holds around a submission: the local storage, the
    redirection armed by [setTimeout], the inline messages shown by this
    submission and the network requests made. *)
Record Page := {
  localStorage : gmap string JSString;
  redirect : option string;
  shown : list (Input * string);
  requests : list string
}.

Definition handleFormSubmit (form : Form) (pg : Page) : Page :=
  let '(valid, errors) := validateForm form in
  if negb valid then
    {| localStorage := localStorage pg; redirect := redirect pg;
       shown := errors; requests := requests pg |}
  else
    let ls := <["hydrocare_auth"%string := lit "1"]> (localStorage pg) in
    let ls :=
      match formData form "username" with
      | Some (c :: username) => <["hydrocare_user"%string := c :: username]> ls
      | _ =>
          match formData form "email" with
          | Some (c :: email) =>
              <["hydrocare_user"%string := beforeAt (c :: email)]> ls
          | _ => ls
          end
      end in
    {| localStorage := ls; redirect := Some "dashboard.html"%string;
       shown := errors; requests := requests pg |}.

End Auth.

(** ** app.js, second script: the chatbot page *)

Module Chat.

(** The body of a chat response with the documented shape: [answer] and
    [session_id] are strings, [sources] an array of page numbers, each
    possibly absent ([None]); the scores and the decision are any scalar. *)
Record ChatData := {
  answer : option JSString;
  session_id : option JSString;
  faithfulness : JSVal;
  completeness : JSVal;
  decision : JSVal;
  sources : option (list JSNumber)
}.

(** The [metadata] argument of [appendMessage]. *)
Record Metadata := {
  m_faithfulness : JSVal;
  m_completeness : JSVal;
  m_decision : JSVal;
  m_sources : option (list JSNumber)
}.

(** The default [metadata = {}]. *)
Definition noMetadata : Metadata :=
  {| m_faithfulness := VUndefined; m_completeness := VUndefined;
     m_decision := VUndefined; m_sources := None |}.

Inductive Role := user | bot | error.

(** [${score || 'N/A'}] *)
Inductive ScoreText :=
| NA
| Shown (v : JSVal).

Definition scoreText (v : JSVal) : ScoreText :=
  if truthy v then Shown v else NA.

(** A rendered message: the pieces interpolated in the template (the
    avatar and the sender follow from the role; the time of day is left
    out). *)
Record Message := {
  role : Role;
  text : JSString;
  metrics : option (ScoreText * ScoreText);
  sourcePages : option (list JSNumber)
}.

Inductive NodeKind :=
| Msg (m : Message)
| Typing.

(** A child of [chatBox]; [node_id] is the identity of the DOM element. *)
Record Node := { node_id : nat; kind : NodeKind }.

Inductive Request :=
| ChatRequest (question : JSString) (session_id : JSString)
| ResetRequest (session_id : JSString).

(** A handler suspended at an [await]. *)
Inductive Pending :=
| AwaitChatFetch (typingEl : nat)
| AwaitChatJson (typingEl : nat)
| AwaitResetFetch.

(** The page: the variables of the script ([sessionId],
    [isWaitingForResponse] and the constant [API_BASE]), the input, the
    transcript, the storage, the handlers parked and the requests issued. *)
Record State := {
  sessionId : JSString;
  isWaitingForResponse : bool;
  inputValue : JSString;
  inputDisabled : bool;
  chatBox : list Node;
  localStorage : gmap string JSString;
  fresh : nat;
  pending : list Pending;
  network : list Request;
  location : option string;
  API_BASE : JSString
}.

Definition set_sessionId (v : JSString) (s : State) : State :=
  {| sessionId := v; isWaitingForResponse := isWaitingForResponse s;
     inputValue := inputValue s; inputDisabled := inputDisabled s;
     chatBox := chatBox s; localStorage := localStorage s; fresh := fresh s;
     pending := pending s; network := network s; location := location s;
     API_BASE := API_BASE s |}.

(** [isWaitingForResponse = b; input.disabled = b] *)
Definition set_waiting (b : bool) (s : State) : State :=
  {| sessionId := sessionId s; isWaitingForResponse := b;
     inputValue := inputValue s; inputDisabled := b;
     chatBox := chatBox s; localStorage := localStorage s; fresh := fresh s;
     pending := pending s; network := network s; location := location s;
     API_BASE := API_BASE s |}.

Definition set_inputValue (v : JSString) (s : State) : State :=
  {| sessionId := sessionId s; isWaitingForResponse := isWaitingForResponse s;
     inputValue := v; inputDisabled := inputDisabled s;
     chatBox := chatBox s; localStorage := localStorage s; fresh := fresh s;
     pending := pending s; network := network s; location := location s;
     API_BASE := API_BASE s |}.

Definition set_chatBox (v : list Node) (s : State) : State :=
  {| sessionId := sessionId s; isWaitingForResponse := isWaitingForResponse s;
     inputValue := inputValue s; inputDisabled := inputDisabled s;
     chatBox := v; localStorage := localStorage s; fresh := fresh s;
     pending := pending s; network := network s; location := location s;
     API_BASE := API_BASE s |}.

Definition set_localStorage (v : gmap string JSString) (s : State) : State :=
  {| sessionId := sessionId s; isWaitingForResponse := isWaitingForResponse s;
     inputValue := inputValue s; inputDisabled := inputDisabled s;
     chatBox := chatBox s; localStorage := v; fresh := fresh s;
     pending := pending s; network := network s; location := location s;
     API_BASE := API_BASE s |}.

Definition set_fresh (v : nat) (s : State) : State :=
  {| sessionId := sessionId s; isWaitingForResponse := isWaitingForResponse s;
     inputValue := inputValue s; inputDisabled := inputDisabled s;
     chatBox := chatBox s; localStorage := localStorage s; fresh := v;
     pending := pending s; network := network s; location := location s;
     API_BASE := API_BASE s |}.

Definition set_pending (v : list Pending) (s : State) : State :=
  {| sessionId := sessionId s; isWaitingForResponse := isWaitingForResponse s;
     inputValue := inputValue s; inputDisabled := inputDisabled s;
     chatBox := chatBox s; localStorage := localStorage s; fresh := fresh s;
     pending := v; network := network s; location := location s;
     API_BASE := API_BASE s |}.

Definition set_network (v : list Request) (s : State) : State :=
  {| sessionId := sessionId s; isWaitingForResponse := isWaitingForResponse s;
     inputValue := inputValue s; inputDisabled := inputDisabled s;
     chatBox := chatBox s; localStorage := localStorage s; fresh := fresh s;
     pending := pending s; network := v; location := location s;
     API_BASE := API_BASE s |}.

Definition set_location (v : option string) (s : State) : State :=
  {| sessionId := sessionId s; isWaitingForResponse := isWaitingForResponse s;
     inputValue := inputValue s; inputDisabled := inputDisabled s;
     chatBox := chatBox s; localStorage := localStorage s; fresh := fresh s;
     pending := pending s; network := network s; location := v;
     API_BASE := API_BASE s |}.

(** [fetch(url, ...)] followed by [await]: the request goes out and the
    rest of the handler is parked. *)
Definition await (r : Request) (k : Pending) (s : State) : State :=
  set_pending (pending s ++ [k]) (set_network (network s ++ [r]) s).

(** [chatBox.appendChild(el)] of a new element. *)
Definition appendChild (k : NodeKind) (s : State) : nat * State :=
  (fresh s,
   set_fresh (S (fresh s))
     (set_chatBox (chatBox s ++ [{| node_id := fresh s; kind := k |}]) s)).

(** [el.remove()] *)
Definition removeNode (el : nat) (s : State) : State :=
  set_chatBox (filter (fun n => node_id n ≠ el) (chatBox s)) s.

(** The message element built by [appendMessage]. *)
Definition renderMessage (r : Role) (t : JSString) (metadata : Metadata) : Message :=
  {| role := r;
     text := t;
     metrics :=
       if isDefined (m_faithfulness metadata) || isDefined (m_completeness metadata)
       then Some (scoreText (m_faithfulness metadata),
                  scoreText (m_completeness metadata))
       else None;
     sourcePages :=
       match m_sources metadata with
       | Some (p :: ps) => Some (p :: ps)
       | _ => None
       end |}.

Definition appendMessage (r : Role) (t : JSString) (metadata : Metadata)
    (s : State) : State :=
  snd (appendChild (Msg (renderMessage r t metadata)) s).

Definition showTypingIndicator (s : State) : nat * State :=
  appendChild Typing s.

(** The text chosen by the [catch] block of [sendMessage]. *)
Definition errorMsg (API_BASE : JSString) (message : JSString) : JSString :=
  lit "Désolé, une erreur est survenue. " ++
  (if includes message (lit "Failed to fetch") || includes message (lit "Network")
   then lit "Vérifiez que le serveur API est démarré sur " ++ API_BASE
   else if includes message (lit "500") then lit "Erreur interne du serveur."
   else lit "Veuillez réessayer.").

(** [sendMessage] up to its first [await]. *)
Definition sendMessage (question : JSString) (s : State) : State :=
  if bool_decide (trim question = []) || isWaitingForResponse s then s
  else
    let s := set_waiting true s in
    let s := appendMessage user question noMetadata s in
    let '(typingEl, s) := showTypingIndicator s in
    await (ChatRequest question (sessionId s)) (AwaitChatFetch typingEl) s.

(** The [catch] block followed by the [finally] block. *)
Definition sendMessage_catch (typingEl : nat) (message : JSString) (s : State)
  : State :=
  let s := removeNode typingEl s in
  let s := appendMessage error (errorMsg (API_BASE s) message) noMetadata s in
  set_waiting false s.

(** [sendMessage] from the settlement of [fetch] to [await res.json()]. *)
Definition sendMessage_fetched (typingEl : nat) (r : FetchResult) (s : State)
  : State :=
  match r with
  | FetchRejected message => sendMessage_catch typingEl message s
  | FetchResponse ok status =>
      if negb ok then
        sendMessage_catch typingEl (lit "Erreur HTTP: " ++ decimal status) s
      else set_pending (pending s ++ [AwaitChatJson typingEl]) s
  end.

(** [sendMessage] from the settlement of [res.json()] to its end. *)
Definition sendMessage_parsed (typingEl : nat) (r : JsonResult ChatData)
    (s : State)
  : State :=
  match r with
  | JsonRejected message => sendMessage_catch typingEl message s
  | JsonNull message => sendMessage_catch typingEl message s
  | JsonData data =>
      let sid :=
        match session_id data with
        | Some (c :: cs) => c :: cs
        | _ => sessionId s
        end in
      let s := set_sessionId sid s in
      let s := set_localStorage (<["hc_session_id"%string := sid]> (localStorage s)) s in
      let answer :=
        match answer data with
        | Some (c :: cs) => c :: cs
        | _ => lit "Désolé, je n'ai pas pu traiter votre demande."
        end in
      let metadata :=
        {| m_faithfulness := faithfulness data;
           m_completeness := completeness data;
           m_decision := decision data;
           m_sources := Some (default [] (sources data)) |} in
      let s := removeNode typingEl s in
      let s := appendMessage bot answer metadata s in
      set_waiting false s
  end.

(** The [submit] listener of the form. *)
Definition onSubmit (s : State) : State :=
  let question := trim (inputValue s) in
  if bool_decide (question = []) then s
  else sendMessage question (set_inputValue [] s).

(** The [click] listener of a suggestion button; the argument is its
    [data-question] attribute. *)
Definition onSuggestion (question : option JSString) (s : State) : State :=
  match question with
  | Some (c :: cs) => sendMessage (c :: cs) s
  | _ => s
  end.

(** The local part of the reset: what follows the [if (sessionId)] block
    (the welcome banner and the focus are left out). *)
Definition resetLocally (s : State) : State :=
  let s := set_sessionId [] s in
  let s := set_localStorage (delete "hc_session_id"%string (localStorage s)) s in
  set_chatBox [] s.

(** The [click] listener of [resetBtn] up to its [await]. *)
Definition onReset (s : State) : State :=
  match sessionId s with
  | _ :: _ => await (ResetRequest (sessionId s)) AwaitResetFetch s
  | [] => resetLocally s
  end.

(** The reset listener after its [await]: a rejection is caught, a
    response is not looked at. *)
Definition onReset_fetched (r : FetchResult) (s : State) : State :=
  resetLocally s.

(** The [click] listener of [logoutBtn]. *)
Definition onLogout (s : State) : State :=
  let ls := delete "hydrocare_auth"%string (localStorage s) in
  let ls := delete "hydrocare_user"%string ls in
  let ls := delete "hc_session_id"%string ls in
  set_location (Some "./index.html"%string) (set_localStorage ls s).

(** The [keydown] listener of the input. *)
Definition onKeyDown (key : string) (ctrlKey shiftKey : bool) (s : State) : State :=
  if (ctrlKey && bool_decide (key = "Enter"%string))
     || (bool_decide (key = "Enter"%string) && negb shiftKey)
  then onSubmit s
  else s.

(** What can happen to the page: the user acts, or the browser settles
    the promise awaited by the [i]-th parked handler. *)
Inductive Event :=
| Edit (v : JSString)
| Submit
| KeyDown (key : string) (ctrlKey shiftKey : bool)
| ClickSuggestion (question : option JSString)
| ClickReset
| ClickLogout
| FetchSettled (i : nat) (r : FetchResult)
| JsonSettled (i : nat) (r : JsonResult ChatData).

Definition step (s : State) (e : Event) : State :=
  match e with
  | Edit v => set_inputValue v s
  | Submit => onSubmit s
  | KeyDown key ctrlKey shiftKey => onKeyDown key ctrlKey shiftKey s
  | ClickSuggestion q => onSuggestion q s
  | ClickReset => onReset s
  | ClickLogout => onLogout s
  | FetchSettled i r =>
      match pending s !! i with
      | Some (AwaitChatFetch typingEl) =>
          sendMessage_fetched typingEl r (set_pending (delete i (pending s)) s)
      | Some AwaitResetFetch =>
          onReset_fetched r (set_pending (delete i (pending s)) s)
      | _ => s
      end
  | JsonSettled i r =>
      match pending s !! i with
      | Some (AwaitChatJson typingEl) =>
          sendMessage_parsed typingEl r (set_pending (delete i (pending s)) s)
      | _ => s
      end
  end.

Definition run (s : State) (evs : list Event) : State := fold_left step evs s.

(** The page when the script has run:
    [API_BASE = window.HC_API_BASE || 'http://localhost:8000'], where
    [HC_API_BASE] is the string the page has set, if any;
    [sessionId = localStorage.getItem('hc_session_id') || ''], an empty
    transcript and nothing in flight. *)
Definition init (HC_API_BASE : option JSString) (ls : gmap string JSString)
  : State :=
  {| sessionId := default [] (ls !! "hc_session_id"%string);
     isWaitingForResponse := false;
     inputValue := []; inputDisabled := false;
     chatBox := []; localStorage := ls; fresh := 0;
     pending := []; network := []; location := None;
     API_BASE :=
       match HC_API_BASE with
       | Some (c :: base) => c :: base
       | _ => lit "http://localhost:8000"
       end |}.

End Chat.

(** ** dashboard.js, second script: the disease-detection page *)

Module Detection.

(** A [File] of an input or of a drop. *)
Record File := { name : JSString; size : N; type : JSString }.

(** The body of an analysis response with the documented shape. *)
Record AnalysisResult := {
  disease : option JSString;
  confidence : option JSNumber;
  description : option JSString;
  severity : option JSString;
  recommendations : option (list JSString)
}.

(** The body of a health response. *)
Record HealthData := { model_loaded : JSVal }.

(** A saved report. *)
Record Report := {
  r_date : JSString;
  r_disease : JSString;
  r_confidence : Text;
  r_image : JSString;
  r_timestamp : N
}.

(** An element of the stored history array: a report, or any other JSON
    value, kept as its text. *)
Inductive Entry :=
| Saved (r : Report)
| Foreign (json : JSString).

(** A value of the local storage.  The storage holds strings; a string
    that is the JSON text of an array is kept as the array it parses to
    ([JSON.parse] after [JSON.stringify] gives back such an array), any
    other string as [Plain]. *)
Inductive Stored :=
| Plain (s : JSString)
| JsonArray (items : list Entry).

Inductive Request :=
| HealthRequest
| AnalyzeRequest (image : File).

Inductive Pending :=
| AwaitHealthFetch
| AwaitHealthJson
| AwaitReader (file : File)
| AwaitAnalyzeFetch
| AwaitAnalyzeText (status : N)
| AwaitAnalyzeJson.

Inductive ButtonLabel :=
| LabelOfPage
| LabelUnavailable
| LabelBusy
| LabelAnalyze.

(** The results panel, as far as the script writes and reads it. *)
Record Panel := {
  resultsVisible : bool;
  diseaseName : JSString;
  diseaseDescription : JSString;
  diagnosisTitle : JSString;
  confidenceValue : Text;
  recommendationsList : list JSString
}.

Record State := {
  currentImageFile : option File;
  analyzeBtn_disabled : bool;
  analyzeBtn_label : ButtonLabel;
  uploadPreview : option JSString;
  panel : Panel;
  localStorage : gmap string Stored;
  pending : list Pending;
  network : list Request;
  location : option string
}.

Definition set_currentImageFile (v : option File) (s : State) : State :=
  {| currentImageFile := v; analyzeBtn_disabled := analyzeBtn_disabled s;
     analyzeBtn_label := analyzeBtn_label s; uploadPreview := uploadPreview s;
     panel := panel s; localStorage := localStorage s; pending := pending s;
     network := network s; location := location s |}.

Definition set_analyzeBtn_disabled (v : bool) (s : State) : State :=
  {| currentImageFile := currentImageFile s; analyzeBtn_disabled := v;
     analyzeBtn_label := analyzeBtn_label s; uploadPreview := uploadPreview s;
     panel := panel s; localStorage := localStorage s; pending := pending s;
     network := network s; location := location s |}.

Definition set_analyzeBtn_label (v : ButtonLabel) (s : State) : State :=
  {| currentImageFile := currentImageFile s;
     analyzeBtn_disabled := analyzeBtn_disabled s;
     analyzeBtn_label := v; uploadPreview := uploadPreview s;
     panel := panel s; localStorage := localStorage s; pending := pending s;
     network := network s; location := location s |}.

Definition set_uploadPreview (v : option JSString) (s : State) : State :=
  {| currentImageFile := currentImageFile s;
     analyzeBtn_disabled := analyzeBtn_disabled s;
     analyzeBtn_label := analyzeBtn_label s; uploadPreview := v;
     panel := panel s; localStorage := localStorage s; pending := pending s;
     network := network s; location := location s |}.

Definition set_panel (v : Panel) (s : State) : State :=
  {| currentImageFile := currentImageFile s;
     analyzeBtn_disabled := analyzeBtn_disabled s;
     analyzeBtn_label := analyzeBtn_label s; uploadPreview := uploadPreview s;
     panel := v; localStorage := localStorage s; pending := pending s;
     network := network s; location := location s |}.

Definition set_localStorage (v : gmap string Stored) (s : State) : State :=
  {| currentImageFile := currentImageFile s;
     analyzeBtn_disabled := analyzeBtn_disabled s;
     analyzeBtn_label := analyzeBtn_label s; uploadPreview := uploadPreview s;
     panel := panel s; localStorage := v; pending := pending s;
     network := network s; location := location s |}.

Definition set_pending (v : list Pending) (s : State) : State :=
  {| currentImageFile := currentImageFile s;
     analyzeBtn_disabled := analyzeBtn_disabled s;
     analyzeBtn_label := analyzeBtn_label s; uploadPreview := uploadPreview s;
     panel := panel s; localStorage := localStorage s; pending := v;
     network := network s; location := location s |}.

Definition set_network (v : list Request) (s : State) : State :=
  {| currentImageFile := currentImageFile s;
     analyzeBtn_disabled := analyzeBtn_disabled s;
     analyzeBtn_label := analyzeBtn_label s; uploadPreview := uploadPreview s;
     panel := panel s; localStorage := localStorage s; pending := pending s;
     network := v; location := location s |}.

Definition set_location (v : option string) (s : State) : State :=
  {| currentImageFile := currentImageFile s;
     analyzeBtn_disabled := analyzeBtn_disabled s;
     analyzeBtn_label := analyzeBtn_label s; uploadPreview := uploadPreview s;
     panel := panel s; localStorage := localStorage s; pending := pending s;
     network := network s; location := v |}.

Definition park (k : Pending) (s : State) : State :=
  set_pending (pending s ++ [k]) s.

(** [fetch(url, ...)] followed by [await]. *)
Definition await (r : Request) (k : Pending) (s : State) : State :=
  park k (set_network (network s ++ [r]) s).

(** [showError(message)] *)
Definition showError (message : JSString) (s : State) : State :=
  set_panel
    {| resultsVisible := true;
       diseaseName := lit "Erreur";
       diseaseDescription := message;
       diagnosisTitle := lit "Erreur";
       confidenceValue := [Chars (lit "0%")];
       recommendationsList := [lit "Veuillez réessayer avec une autre image"] |}
    s.

(** The [catch] block of [checkBackendHealth]. *)
Definition checkBackendHealth_catch (s : State) : State :=
  let s := set_analyzeBtn_disabled true s in
  let s := set_analyzeBtn_label LabelUnavailable s in
  showError
    (lit "Le backend de détection est indisponible. Vérifiez qu'il est lancé sur le port 8003.")
    s.

(** [checkBackendHealth] up to [await fetch]. *)
Definition checkBackendHealth (s : State) : State :=
  await HealthRequest AwaitHealthFetch s.

Definition checkBackendHealth_fetched (r : FetchResult) (s : State) : State :=
  match r with
  | FetchRejected _ => checkBackendHealth_catch s
  | FetchResponse ok _ =>
      if negb ok then checkBackendHealth_catch s else park AwaitHealthJson s
  end.

Definition checkBackendHealth_parsed (r : JsonResult HealthData) (s : State)
  : State :=
  match r with
  | JsonRejected _ | JsonNull _ => checkBackendHealth_catch s
  | JsonData data =>
      if negb (truthy (model_loaded data)) then checkBackendHealth_catch s
      else s
  end.

(** [10 * 1024 * 1024] *)
Definition maxImageSize : N := 10 * 1024 * 1024.

(** [handleImageFile(file)] up to the start of the read. *)
Definition handleImageFile (file : File) (s : State) : State :=
  if (maxImageSize <? size file)%N then
    showError (lit "L'image est trop volumineuse. Maximum 10MB.") s
  else
    park (AwaitReader file) (set_currentImageFile (Some file) s).

(** [reader.onload] *)
Definition reader_onload (result : JSString) (s : State) : State :=
  set_analyzeBtn_disabled false (set_uploadPreview (Some result) s).

Definition isImage (f : File) : bool := startsWith (type f) (lit "image/").

(** [handleImageSelect]; the argument is [e.target.files[0]]. *)
Definition handleImageSelect (file : option File) (s : State) : State :=
  match file with
  | Some f => if isImage f then handleImageFile f s else s
  | None => s
  end.

(** [handleDrop]; the argument is [e.dataTransfer.files]. *)
Definition handleDrop (files : list File) (s : State) : State :=
  match files with
  | f :: _ => if isImage f then handleImageFile f s else s
  | [] => s
  end.

(** [.replace(/bell/g, 'bell ')]; [k] counts the code units of the current
    match still to copy. *)
Fixpoint spaceAfterBell (k : nat) (s : JSString) : JSString :=
  match s with
  | [] => []
  | c :: r =>
      match k with
      | O => if startsWith s (lit "bell") then c :: spaceAfterBell 3 r
             else c :: spaceAfterBell 0 r
      | S O => c :: 32%N :: spaceAfterBell 0 r
      | S k' => c :: spaceAfterBell k' r
      end
  end.

Definition formatDiseaseName (disease : JSString) : JSString :=
  let s := map (fun c => if (c =? 95)%N then 32%N else c) disease in
  let s := flat_map (fun c => if ((65 <=? c) && (c <=? 90))%N then [32%N; c] else [c]) s in
  trim (spaceAfterBell 0 s).

(** The title set by [updateDiagnosisStyle]. *)
Definition diagnosisTitleOf (severity : JSString) : JSString :=
  if bool_decide (severity = lit "healthy") then lit "Plante Saine"
  else if bool_decide (severity = lit "warning") then lit "Attention Requise"
  else if bool_decide (severity = lit "danger") then lit "Maladie Détectée"
  else lit "Diagnostic".

Definition orElse (o : option JSString) (d : JSString) : JSString :=
  match o with
  | Some (c :: cs) => c :: cs
  | _ => d
  end.

(** [displayResults(result)] *)
Definition displayResults (result : AnalysisResult) (s : State) : State :=
  let confidence :=
    match confidence result with
    | Some n => if num_truthy n then n else Finite 0
    | None => Finite 0
    end in
  set_panel
    {| resultsVisible := true;
       diseaseName := formatDiseaseName (orElse (disease result) (lit "Inconnu"));
       diseaseDescription :=
         orElse (description result) (lit "Aucune description disponible.");
       diagnosisTitle := diagnosisTitleOf (orElse (severity result) (lit "healthy"));
       confidenceValue := [Num confidence; Chars (lit "%")];
       recommendationsList :=
         match recommendations result with
         | Some (r :: rs) => r :: rs
         | _ => [lit "Continuez les bonnes pratiques de culture"]
         end |}
    s.

(** The [catch] block of [analyzeImage] followed by its [finally] block. *)
Definition analyzeImage_finally (s : State) : State :=
  set_analyzeBtn_disabled false (set_analyzeBtn_label LabelAnalyze s).

Definition analyzeImage_catch (message : JSString) (s : State) : State :=
  analyzeImage_finally (showError (lit "Erreur lors de l'analyse: " ++ message) s).

(** [analyzeImage] up to [await fetch]. *)
Definition analyzeImage (s : State) : State :=
  match currentImageFile s with
  | None => showError (lit "Veuillez d'abord sélectionner une image.") s
  | Some file =>
      let s := set_analyzeBtn_label LabelBusy s in
      let s := set_analyzeBtn_disabled true s in
      await (AnalyzeRequest file) AwaitAnalyzeFetch s
  end.

Definition analyzeImage_fetched (r : FetchResult) (s : State) : State :=
  match r with
  | FetchRejected message => analyzeImage_catch message s
  | FetchResponse ok status =>
      if negb ok then park (AwaitAnalyzeText status) s
      else park AwaitAnalyzeJson s
  end.

Definition analyzeImage_text (status : N) (r : TextResult) (s : State) : State :=
  match r with
  | TextRejected message => analyzeImage_catch message s
  | TextBody errorText =>
      analyzeImage_catch
        (lit "Erreur API: " ++ decimal status ++ lit " - " ++ errorText) s
  end.

Definition analyzeImage_parsed (r : JsonResult AnalysisResult) (s : State)
  : State :=
  match r with
  | JsonRejected message | JsonNull message => analyzeImage_catch message s
  | JsonData result => analyzeImage_finally (displayResults result s)
  end.

(** [JSON.parse(localStorage.getItem('hc_analysis_history') || '[]')];
    [None] when the call throws or does not yield an array. *)
Definition loadHistory (ls : gmap string Stored) : option (list Entry) :=
  match ls !! "hc_analysis_history"%string with
  | None => Some []
  | Some (Plain []) => Some []
  | Some (Plain (_ :: _)) => None
  | Some (JsonArray items) => Some items
  end.

(** [history.slice(0, 10)] *)
Definition slice10 (history : list Entry) : list Entry := firstn 10 history.

(** [saveReport()]; [date] and [timestamp] are what the clock gives. *)
Definition saveReport (date : JSString) (timestamp : N) (s : State) : State :=
  match currentImageFile s with
  | None => s
  | Some file =>
      let report :=
        {| r_date := date;
           r_disease := diseaseName (panel s);
           r_confidence := confidenceValue (panel s);
           r_image := name file;
           r_timestamp := timestamp |} in
      match loadHistory (localStorage s) with
      | None => s
      | Some history =>
          let history := Saved report :: history in
          set_localStorage
            (<["hc_analysis_history"%string := JsonArray (slice10 history)]>
               (localStorage s))
            s
      end
  end.

(** [handleLogout] *)
Definition handleLogout (s : State) : State :=
  let ls := delete "hydrocare_auth"%string (localStorage s) in
  let ls := delete "hydrocare_user"%string ls in
  let ls := delete "hc_session_id"%string ls in
  set_location (Some "./index.html"%string) (set_localStorage ls s).

(** What can happen to the page.  A click on [analyzeBtn] reaches its
    listener only while the button is enabled.  [ClickShare] and
    [ClickHistory] only open dialogs. *)
Inductive Event :=
| SelectImage (file : option File)
| DropFiles (files : list File)
| ReaderLoaded (i : nat) (result : JSString)
| ReaderFailed (i : nat)
| ClickAnalyze
| ClickSave (date : JSString) (timestamp : N)
| ClickShare
| ClickHistory
| ClickLogout
| FetchSettled (i : nat) (r : FetchResult)
| HealthParsed (i : nat) (r : JsonResult HealthData)
| AnalyzeText (i : nat) (r : TextResult)
| AnalyzeParsed (i : nat) (r : JsonResult AnalysisResult).

Definition unpark (i : nat) (s : State) : State :=
  set_pending (delete i (pending s)) s.

Definition step (s : State) (e : Event) : State :=
  match e with
  | SelectImage file => handleImageSelect file s
  | DropFiles files => handleDrop files s
  | ReaderLoaded i result =>
      match pending s !! i with
      | Some (AwaitReader _) => reader_onload result (unpark i s)
      | _ => s
      end
  | ReaderFailed i =>
      match pending s !! i with
      | Some (AwaitReader _) => unpark i s
      | _ => s
      end
  | ClickAnalyze => if analyzeBtn_disabled s then s else analyzeImage s
  | ClickSave date timestamp => saveReport date timestamp s
  | ClickShare => s
  | ClickHistory => s
  | ClickLogout => handleLogout s
  | FetchSettled i r =>
      match pending s !! i with
      | Some AwaitHealthFetch => checkBackendHealth_fetched r (unpark i s)
      | Some AwaitAnalyzeFetch => analyzeImage_fetched r (unpark i s)
      | _ => s
      end
  | HealthParsed i r =>
      match pending s !! i with
      | Some AwaitHealthJson => checkBackendHealth_parsed r (unpark i s)
      | _ => s
      end
  | AnalyzeText i r =>
      match pending s !! i with
      | Some (AwaitAnalyzeText status) => analyzeImage_text status r (unpark i s)
      | _ => s
      end
  | AnalyzeParsed i r =>
      match pending s !! i with
      | Some AwaitAnalyzeJson => analyzeImage_parsed r (unpark i s)
      | _ => s
      end
  end.

Definition run (s : State) (evs : list Event) : State := fold_left step evs s.

(** [verifierAuthentification] *)
Definition verifierAuthentification (s : State) : State :=
  match localStorage s !! "hydrocare_auth"%string with
  | Some (Plain v) =>
      if bool_decide (v = lit "1") then s
      else set_location (Some "./index.html"%string) s
  | _ => set_location (Some "./index.html"%string) s
  end.

(** The page after [init()]: what the document gives ([disabled0], the
    [disabled] attribute of the button, and [panel0]), then the
    authentication check and the start of the health check. *)
Definition init (ls : gmap string Stored) (disabled0 : bool) (panel0 : Panel)
  : State :=
  checkBackendHealth
    (verifierAuthentification
       {| currentImageFile := None; analyzeBtn_disabled := disabled0;
          analyzeBtn_label := LabelOfPage; uploadPreview := None;
          panel := panel0; localStorage := ls; pending := [];
          network := []; location := None |}).

End Detection.

(** ** parametres.js *)

Module Parametres.

Record Range := { min : Q; max : Q }.

Record Plant := {
  nom : string;
  pH_optimal : Range;
  ec_optimal : Range;
  ppm_optimal : Range;
  temperature_optimal : Range
}.

(** The bounds are the doubles that the literals of the script denote. *)
Definition PLANT_DATABASE : gmap string Plant :=
  list_to_map [
    ("basilic"%string,
      {| nom := "Basilic";
         pH_optimal := {| min := double 5.5; max := double 6.5 |};
         ec_optimal := {| min := double 1.0; max := double 1.6 |};
         ppm_optimal := {| min := double 500; max := double 800 |};
         temperature_optimal := {| min := double 20; max := double 25 |} |});
    ("laitue"%string,
      {| nom := "Laitue";
         pH_optimal := {| min := double 5.5; max := double 6.5 |};
         ec_optimal := {| min := double 0.8; max := double 1.2 |};
         ppm_optimal := {| min := double 400; max := double 600 |};
         temperature_optimal := {| min := double 16; max := double 20 |} |});
    ("tomate"%string,
      {| nom := "Tomate";
         pH_optimal := {| min := double 5.5; max := double 6.5 |};
         ec_optimal := {| min := double 2.0; max := double 5.0 |};
         ppm_optimal := {| min := double 1000; max := double 2500 |};
         temperature_optimal := {| min := double 18; max := double 24 |} |});
    ("fraisier"%string,
      {| nom := "Fraisier";
         pH_optimal := {| min := double 5.5; max := double 6.5 |};
         ec_optimal := {| min := double 1.8; max := double 2.2 |};
         ppm_optimal := {| min := double 900; max := double 1100 |};
         temperature_optimal := {| min := double 18; max := double 22 |} |});
    ("concombre"%string,
      {| nom := "Concombre";
         pH_optimal := {| min := double 5.5; max := double 6.0 |};
         ec_optimal := {| min := double 1.7; max := double 2.5 |};
         ppm_optimal := {| min := double 850; max := double 1250 |};
         temperature_optimal := {| min := double 20; max := double 25 |} |});
    ("poivron"%string,
      {| nom := "Poivron";
         pH_optimal := {| min := double 5.8; max := double 6.3 |};
         ec_optimal := {| min := double 2.0; max := double 3.0 |};
         ppm_optimal := {| min := double 1000; max := double 1500 |};
         temperature_optimal := {| min := double 20; max := double 25 |} |});
    ("epinard"%string,
      {| nom := "Épinard";
         pH_optimal := {| min := double 5.5; max := double 6.6 |};
         ec_optimal := {| min := double 1.8; max := double 2.3 |};
         ppm_optimal := {| min := double 900; max := double 1150 |};
         temperature_optimal := {| min := double 15; max := double 20 |} |})
  ].

(** The object built by [analyserParametres] from the form. *)
Record Mesure := {
  systemeNom : JSString;
  planteType : string;
  tailleBac : JSNumber;
  nombrePlantes : JSNumber;
  phMesure : JSNumber;
  oxygeneMesure : JSNumber;
  temperatureEau : JSNumber;
  notes : JSString
}.

Inductive AlertType := success | warning | critical.

Inductive Statut := optimal | alerte | critique.

(** An alert; its [description] is display text built from the same values
    and is left out. *)
Record Alerte := {
  type : AlertType;
  titre : string;
  parametre : string
}.

(** A recommendation, by the branch that pushes it. *)
Inductive Recommandation :=
| AugmenterPH | DiminuerPH
| AugmenterOxygenation | SurveillerOxygenation
| AugmenterTemperature | RefroidirEau.

Record Analyse := {
  alertes : list Alerte;
  recommandations : list Recommandation;
  statutGlobal : Statut;
  plante : Plant
}.

Definition oxygeneOptimal : Range := {| min := 5.0; max := 8.0 |}.

Definition is_type (t : AlertType) (a : Alerte) : bool :=
  match t, type a with
  | success, success | warning, warning | critical, critical => true
  | _, _ => false
  end.

Definition analysePH (m : Mesure) (p : Plant) : Alerte * list Recommandation :=
  if num_lt (phMesure m) (Finite (min (pH_optimal p))) then
    ({| type := warning; titre := "pH Trop Bas"; parametre := "pH" |},
     [AugmenterPH])
  else if num_gt (phMesure m) (Finite (max (pH_optimal p))) then
    ({| type := warning; titre := "pH Trop Élevé"; parametre := "pH" |},
     [DiminuerPH])
  else
    ({| type := success; titre := "pH Optimal"; parametre := "pH" |}, []).

Definition analyseOxygene (m : Mesure) : Alerte * list Recommandation :=
  if num_lt (oxygeneMesure m) (Finite (min oxygeneOptimal)) then
    ({| type := critical; titre := "Oxygène Insuffisant";
        parametre := "oxygene" |}, [AugmenterOxygenation])
  else if num_gt (oxygeneMesure m) (Finite (max oxygeneOptimal)) then
    ({| type := warning; titre := "Oxygène Élevé"; parametre := "oxygene" |},
     [SurveillerOxygenation])
  else
    ({| type := success; titre := "Oxygène Optimal"; parametre := "oxygene" |},
     []).

Definition analyseTemperature (m : Mesure) (p : Plant)
  : Alerte * list Recommandation :=
  if num_lt (temperatureEau m) (Finite (min (temperature_optimal p))) then
    ({| type := warning; titre := "Température Trop Basse";
        parametre := "temperature" |}, [AugmenterTemperature])
  else if num_gt (temperatureEau m) (Finite (max (temperature_optimal p))) then
    ({| type := critical; titre := "Température Trop Élevée";
        parametre := "temperature" |}, [RefroidirEau])
  else
    ({| type := success; titre := "Température Optimale";
        parametre := "temperature" |}, []).

(** [analyserParametresPlante(mesure)]; [None] is the TypeError raised when
    [PLANT_DATABASE[mesure.planteType]] is undefined. *)
Definition analyserParametresPlante (m : Mesure) : option Analyse :=
  match PLANT_DATABASE !! planteType m with
  | None => None
  | Some p =>
      let '(a1, r1) := analysePH m p in
      let '(a2, r2) := analyseOxygene m in
      let '(a3, r3) := analyseTemperature m p in
      let alertes := [a1; a2; a3] in
      let alertesCritiques := length (filter (fun a => is_type critical a = true) alertes) in
      let alertesWarning := length (filter (fun a => is_type warning a = true) alertes) in
      let statut :=
        if (0 <? alertesCritiques)%nat then critique
        else if (0 <? alertesWarning)%nat then alerte
        else optimal in
      Some {| alertes := alertes;
              recommandations := r1 ++ r2 ++ r3;
              statutGlobal := statut;
              plante := p |}
  end.

End Parametres.

(** ** The guard of the pages and the notice of the index page

    Each page behind the login runs its [verifierAuthentification] when it
    loads; the index page ([app.js], first script) shows the notice the
    guard left. *)

Module Access.

Record Browser := {
  localStorage : gmap string JSString;
  sessionStorage : gmap string JSString;
  location : string
}.

(** The notices of the chatbot, detection and measurement pages. *)
Definition noticeChatbot : JSString :=
  lit "Veuillez vous connecter pour accéder au chatbot.".
Definition noticeDetection : JSString :=
  lit "Veuillez vous connecter pour accéder à la détection de maladies.".
Definition noticeParametres : JSString :=
  lit "Veuillez vous connecter pour accéder au suivi des paramètres.".

(** [verifierAuthentification()], with the notice of the page. *)
Definition verifierAuthentification (notice : JSString) (b : Browser) : Browser :=
  if bool_decide (localStorage b !! "hydrocare_auth"%string = Some (lit "1")) then b
  else
    {| localStorage := localStorage b;
       sessionStorage :=
         <["hydrocare_redirect_msg"%string := notice]> (sessionStorage b);
       location := "./index.html" |}.

(** [showRedirectMessage()]: the browser afterwards and the text of the
    bar put at the top of the page, if any. *)
Definition showRedirectMessage (b : Browser) : Browser * option JSString :=
  match sessionStorage b !! "hydrocare_redirect_msg"%string with
  | Some (c :: cs) =>
      ({| localStorage := localStorage b;
          sessionStorage := delete "hydrocare_redirect_msg"%string (sessionStorage b);
          location := location b |},
       Some (c :: cs))
  | _ => (b, None)
  end.

(** The [click] listener of [logoutBtn] on the dashboard home
    ([dashboard.js], first script): two keys go. *)
Definition logout (b : Browser) : Browser :=
  {| localStorage :=
       delete "hydrocare_user"%string
         (delete "hydrocare_auth"%string (localStorage b));
     sessionStorage := sessionStorage b;
     location := "./index.html" |}.

End Access.

(** ** The index page: the mobile menu and the password fields *)

Module Accueil.









(** A password field and its reveal button. *)
Record PasswordField := {
  inputType : option JSString;
  revealText : JSString;
  revealLabel : JSString
}.

(** The [click] listener of the modal, on a reveal button. *)
Definition onRevealClick (f : PasswordField) : PasswordField :=
  let type :=
    if bool_decide (inputType f = Some (lit "password")) then lit "text"
    else lit "password" in
  {| inputType := Some type;
     revealText :=
       if bool_decide (type = lit "password") then lit "👁️" else lit "🙈";
     revealLabel :=
       if bool_decide (type = lit "password") then lit "Afficher le mot de passe"
       else lit "Masquer le mot de passe" |}.

End Accueil.

(** ** parametres.js: the history of measurements *)

Module Suivi.

(** A Number as [JSON.stringify] writes it and [JSON.parse] reads it back:
    a finite value, or [null] for NaN and the infinities. *)
Definition jsonNumber (n : JSNumber) : option Q :=
  match n with
  | Finite q => Some q
  | _ => None
  end.

(** A measurement as stored under [hydrocare_mesures]. *)
Record Enregistrement := {
  id : JSString;
  systemeNom : JSString;
  planteType : string;
  tailleBac : option Q;
  nombrePlantes : option Q;
  phMesure : option Q;
  oxygeneMesure : option Q;
  temperatureEau : option Q;
  notes : JSString;
  dateMesure : JSString;
  analyse : Parametres.Analyse;
  dateCreation : JSString
}.

(** [{ id, ...mesure, analyse, dateCreation }], as stored. *)
Definition enregistrement (id dateMesure dateCreation : JSString)
    (m : Parametres.Mesure) (a : Parametres.Analyse) : Enregistrement :=
  {| id := id;
     systemeNom := Parametres.systemeNom m;
     planteType := Parametres.planteType m;
     tailleBac := jsonNumber (Parametres.tailleBac m);
     nombrePlantes := jsonNumber (Parametres.nombrePlantes m);
     phMesure := jsonNumber (Parametres.phMesure m);
     oxygeneMesure := jsonNumber (Parametres.oxygeneMesure m);
     temperatureEau := jsonNumber (Parametres.temperatureEau m);
     notes := Parametres.notes m;
     dateMesure := dateMesure;
     analyse := a;
     dateCreation := dateCreation |}.

(** [state.actionEnCours] *)
Record Action := { a_type : string; a_id : JSString }.

(** The markup given to [historiqueMesures]: the loading indicator, the
    empty state, or the cards built from the measurements, one each. *)
Inductive Historique :=
| Chargement
| Vide
| Cartes (l : list Enregistrement).

(** The page.  [stored] is the array under [hydrocare_mesures], a key that
    only this page writes ([None]: the key is absent); [timers] counts the
    reloads armed by [chargerHistorique] and not yet run; [stats] is the
    text of the two counters once the script has written them;
    [filtreSystemeHTML] is the markup last given to the [innerHTML] of the
    filter by system.  [state.mesureActuelle] is written and never read,
    and is left out, and so are the values of the two filters, which only
    the user sets and [filtrerHistorique] reads. *)
Record Page := {
  mesures : list Enregistrement;
  actionEnCours : option Action;
  stored : option (list Enregistrement);
  modalHidden : bool;
  formulaireHidden : bool;
  resultatsHidden : bool;
  resultats : option (JSString * Parametres.Analyse);
  historique : Historique;
  filtreSystemeHTML : JSString;
  stats : option (nat * nat);
  timers : nat;
  notifications : list string
}.

(** [JSON.parse(localStorage.getItem('hydrocare_mesures') || '[]')] *)
Definition lireMesures (p : Page) : list Enregistrement := default [] (stored p).

(** [[...new Set(l)]]: the distinct elements, each at its first place. *)
Fixpoint distinct (seen l : list JSString) : list JSString :=
  match l with
  | [] => []
  | x :: r =>
      if bool_decide (x ∈ seen) then distinct seen r
      else x :: distinct (x :: seen) r
  end.

Definition enAlerte (m : Enregistrement) : bool :=
  match Parametres.statutGlobal (analyse m) with
  | Parametres.alerte | Parametres.critique => true
  | Parametres.optimal => false
  end.

(** [afficherHistoriqueMesures(mesures)] *)
Definition afficherHistoriqueMesures (l : list Enregistrement) (p : Page) : Page :=
  {| mesures := mesures p; actionEnCours := actionEnCours p; stored := stored p;
     modalHidden := modalHidden p; formulaireHidden := formulaireHidden p;
     resultatsHidden := resultatsHidden p; resultats := resultats p;
     historique := match l with [] => Vide | _ => Cartes l end;
     filtreSystemeHTML := filtreSystemeHTML p; stats := stats p; timers := timers p;
     notifications := notifications p |}.

(** [<option value="${sys}">${sys}</option>]: the name goes into the
    markup as it is. *)
Definition optionHTML (sys : JSString) : JSString :=
  lit "<option value=" ++ [34%N] ++ sys ++ [34%N] ++ lit ">" ++ sys
  ++ lit "</option>".

(** [mettreAJourFiltresSystemes(mesures)]: the template literal given to
    [innerHTML], with its line feeds and indentation. *)
Definition mettreAJourFiltresSystemes (l : list Enregistrement) (p : Page) : Page :=
  let systemes := distinct [] (map systemeNom l) in
  {| mesures := mesures p; actionEnCours := actionEnCours p; stored := stored p;
     modalHidden := modalHidden p; formulaireHidden := formulaireHidden p;
     resultatsHidden := resultatsHidden p; resultats := resultats p;
     historique := historique p;
     filtreSystemeHTML :=
       [10%N] ++ lit "        <option value=" ++ [34%N; 34%N]
       ++ lit ">Tous les systèmes</option>" ++ [10%N]
       ++ lit "        " ++ concat (map optionHTML systemes) ++ [10%N]
       ++ lit "    ";
     stats := stats p; timers := timers p;
     notifications := notifications p |}.

(** [mettreAJourStats()] *)
Definition mettreAJourStats (p : Page) : Page :=
  {| mesures := mesures p; actionEnCours := actionEnCours p; stored := stored p;
     modalHidden := modalHidden p; formulaireHidden := formulaireHidden p;
     resultatsHidden := resultatsHidden p; resultats := resultats p;
     historique := historique p; filtreSystemeHTML := filtreSystemeHTML p;
     stats := Some (length (mesures p), length (List.filter enAlerte (mesures p)));
     timers := timers p; notifications := notifications p |}.

(** [chargerHistorique()] up to its [setTimeout]. *)
Definition chargerHistorique (p : Page) : Page :=
  {| mesures := mesures p; actionEnCours := actionEnCours p; stored := stored p;
     modalHidden := modalHidden p; formulaireHidden := formulaireHidden p;
     resultatsHidden := resultatsHidden p; resultats := resultats p;
     historique := Chargement; filtreSystemeHTML := filtreSystemeHTML p;
     stats := stats p; timers := S (timers p); notifications := notifications p |}.

(** The callback of [chargerHistorique], with one timer less. *)
Definition chargerHistorique_timeout (p : Page) : Page :=
  let l := lireMesures p in
  let p :=
    {| mesures := l; actionEnCours := actionEnCours p; stored := stored p;
       modalHidden := modalHidden p; formulaireHidden := formulaireHidden p;
       resultatsHidden := resultatsHidden p; resultats := resultats p;
       historique := historique p; filtreSystemeHTML := filtreSystemeHTML p;
       stats := stats p; timers := pred (timers p);
       notifications := notifications p |} in
  mettreAJourStats (mettreAJourFiltresSystemes l (afficherHistoriqueMesures l p)).

(** The test of [filtrerHistorique] on one measurement. *)
Definition correspond (systemeFiltre : JSString) (planteFiltre : string)
    (m : Enregistrement) : bool :=
  (bool_decide (systemeFiltre = []) || bool_decide (systemeNom m = systemeFiltre))
  && (bool_decide (planteFiltre = ""%string)
      || bool_decide (planteType m = planteFiltre)).

(** [filtrerHistorique()]; the arguments are the values of the two
    filters when it runs. *)
Definition filtrerHistorique (systemeFiltre : JSString) (planteFiltre : string)
    (p : Page) : Page :=
  afficherHistoriqueMesures
    (List.filter (correspond systemeFiltre planteFiltre) (mesures p)) p.

(** [cacherFormulaire()] *)
Definition cacherFormulaire (p : Page) : Page :=
  {| mesures := mesures p; actionEnCours := actionEnCours p; stored := stored p;
     modalHidden := modalHidden p; formulaireHidden := true;
     resultatsHidden := resultatsHidden p; resultats := resultats p;
     historique := historique p; filtreSystemeHTML := filtreSystemeHTML p;
     stats := stats p; timers := timers p; notifications := notifications p |}.

(** [afficherFormulaire()] *)
Definition afficherFormulaire (p : Page) : Page :=
  {| mesures := mesures p; actionEnCours := actionEnCours p; stored := stored p;
     modalHidden := modalHidden p; formulaireHidden := false;
     resultatsHidden := true; resultats := resultats p;
     historique := historique p; filtreSystemeHTML := filtreSystemeHTML p;
     stats := stats p; timers := timers p; notifications := notifications p |}.

(** [cacherResultats()] *)
Definition cacherResultats (p : Page) : Page :=
  {| mesures := mesures p; actionEnCours := actionEnCours p; stored := stored p;
     modalHidden := modalHidden p; formulaireHidden := formulaireHidden p;
     resultatsHidden := true; resultats := resultats p;
     historique := historique p; filtreSystemeHTML := filtreSystemeHTML p;
     stats := stats p; timers := timers p; notifications := notifications p |}.

(** [afficherResultatsAnalyse(mesure, analyse)]; of the measurement only
    the notes are displayed. *)
Definition afficherResultatsAnalyse (notes : JSString) (a : Parametres.Analyse)
    (p : Page) : Page :=
  let p := cacherFormulaire p in
  mettreAJourStats
    {| mesures := mesures p; actionEnCours := actionEnCours p; stored := stored p;
       modalHidden := modalHidden p; formulaireHidden := formulaireHidden p;
       resultatsHidden := false; resultats := Some (notes, a);
       historique := historique p; filtreSystemeHTML := filtreSystemeHTML p;
       stats := stats p; timers := timers p; notifications := notifications p |}.

(** [sauvegarderMesure(mesure, analyse)]; [id] and [dateCreation] are what
    the clock gives. *)
Definition sauvegarderMesure (id dateMesure dateCreation : JSString)
    (m : Parametres.Mesure) (a : Parametres.Analyse) (p : Page) : Page :=
  {| mesures := mesures p; actionEnCours := actionEnCours p;
     stored := Some (enregistrement id dateMesure dateCreation m a :: lireMesures p);
     modalHidden := modalHidden p; formulaireHidden := formulaireHidden p;
     resultatsHidden := resultatsHidden p; resultats := resultats p;
     historique := historique p; filtreSystemeHTML := filtreSystemeHTML p;
     stats := stats p; timers := timers p; notifications := notifications p |}.

(** [analyserParametres(e)]: the [submit] listener of the form.  When the
    plant type is not in the database the analysis throws and the listener
    stops there. *)
Definition analyserParametres (id dateMesure dateCreation : JSString)
    (m : Parametres.Mesure) (p : Page) : Page :=
  match Parametres.analyserParametresPlante m with
  | None => p
  | Some a =>
      afficherResultatsAnalyse (Parametres.notes m) a
        (sauvegarderMesure id dateMesure dateCreation m a p)
  end.

(** [voirDetailsMesure(mesureId)] *)
Definition voirDetailsMesure (mesureId : JSString) (p : Page) : Page :=
  match find (fun m => bool_decide (id m = mesureId)) (mesures p) with
  | Some m => afficherResultatsAnalyse (notes m) (analyse m) p
  | None => p
  end.

(** [supprimerMesure(mesureId)] *)
Definition supprimerMesure (mesureId : JSString) (p : Page) : Page :=
  {| mesures := mesures p;
     actionEnCours := Some {| a_type := "supprimerMesure"; a_id := mesureId |};
     stored := stored p; modalHidden := false;
     formulaireHidden := formulaireHidden p;
     resultatsHidden := resultatsHidden p; resultats := resultats p;
     historique := historique p; filtreSystemeHTML := filtreSystemeHTML p;
     stats := stats p; timers := timers p; notifications := notifications p |}.

(** [fermerModal()] *)
Definition fermerModal (p : Page) : Page :=
  {| mesures := mesures p; actionEnCours := None; stored := stored p;
     modalHidden := true; formulaireHidden := formulaireHidden p;
     resultatsHidden := resultatsHidden p; resultats := resultats p;
     historique := historique p; filtreSystemeHTML := filtreSystemeHTML p;
     stats := stats p; timers := timers p; notifications := notifications p |}.

(** The [case 'supprimerMesure'] of [executerAction]. *)
Definition supprimer (mesureId : JSString) (p : Page) : Page :=
  {| mesures := mesures p; actionEnCours := actionEnCours p;
     stored :=
       Some (List.filter (fun m => negb (bool_decide (id m = mesureId)))
               (lireMesures p));
     modalHidden := modalHidden p; formulaireHidden := formulaireHidden p;
     resultatsHidden := resultatsHidden p; resultats := resultats p;
     historique := historique p; filtreSystemeHTML := filtreSystemeHTML p;
     stats := stats p; timers := timers p;
     notifications := notifications p ++ ["Mesure supprimée avec succès"%string] |}.

(** [executerAction()] *)
Definition executerAction (p : Page) : Page :=
  match actionEnCours p with
  | None => p
  | Some action =>
      let p :=
        if bool_decide (a_type action = "supprimerMesure"%string)
        then supprimer (a_id action) p else p in
      chargerHistorique (fermerModal p)
  end.

(** What can happen to the page; [Minuterie] is a reload timer running,
    [ChangerFiltre] the [change] listener of either filter, with the
    values the two filters hold then. *)
Inductive Event :=
| Soumettre (id dateMesure dateCreation : JSString) (m : Parametres.Mesure)
| NouvelleMesure
| FermerFormulaire
| FermerResultats
| Rafraichir
| ChangerFiltre (systemeFiltre : JSString) (planteFiltre : string)
| VoirDetails (mesureId : JSString)
| Supprimer (mesureId : JSString)
| ModalAnnuler
| ModalConfirmer
| ClicSurFondModal
| Minuterie.

Definition step (p : Page) (e : Event) : Page :=
  match e with
  | Soumettre id dateMesure dateCreation m =>
      analyserParametres id dateMesure dateCreation m p
  | NouvelleMesure => afficherFormulaire p
  | FermerFormulaire => cacherFormulaire p
  | FermerResultats => cacherResultats p
  | Rafraichir => chargerHistorique p
  | ChangerFiltre systemeFiltre planteFiltre =>
      filtrerHistorique systemeFiltre planteFiltre p
  | VoirDetails mesureId => voirDetailsMesure mesureId p
  | Supprimer mesureId => supprimerMesure mesureId p
  | ModalAnnuler => fermerModal p
  | ModalConfirmer => executerAction p
  | ClicSurFondModal => fermerModal p
  | Minuterie =>
      match timers p with
      | O => p
      | S _ => chargerHistorique_timeout p
      end
  end.

Definition run (p : Page) (evs : list Event) : Page := fold_left step evs p.

(** [isOptimal] of a card of the history, on a stored reading:
    [valeur >= optimal.min && valeur <= optimal.max], where [null]
    compares as [0]. *)
Definition isOptimal (valeur : option Q) (optimal : Parametres.Range) : bool :=
  Qle_bool (Parametres.min optimal) (default 0%Q valeur)
  && Qle_bool (default 0%Q valeur) (Parametres.max optimal).

(** The [isOptimal] of the three [parametres] of a card: pH, oxygen and
    temperature. *)
Definition parametresOptimaux (e : Enregistrement) : list bool :=
  [ isOptimal (phMesure e) (Parametres.pH_optimal (Parametres.plante (analyse e)));
    isOptimal (oxygeneMesure e) {| Parametres.min := 5.0; Parametres.max := 8.0 |};
    isOptimal (temperatureEau e)
      (Parametres.temperature_optimal (Parametres.plante (analyse e))) ].

End Suivi.

(** * Statements

    The predicates in which the properties are stated, and the pages and
    events of the examples. *)

Section AuthStatements.
Import Auth.

(** A required field passes: its trimmed value is not empty and, by its
    name, matches the email pattern or is long enough. *)
Definition fieldValid (i : Input) : Prop :=
  trim (value i) <> []
  /\ (name i = "email"%string -> matches emailPattern (trim (value i)))
  /\ (name i = "password"%string -> 6 <= length (trim (value i)))
  /\ (name i = "username"%string -> 3 <= length (trim (value i))).

(** The input is a required input of name [terms]. *)
Definition requiredTerms (i : Input) : Prop :=
  name i = "terms"%string /\ required i = true.

(** Validation passes: every required input passes and the required terms
    checkbox, the first one when the form has several, is checked. *)
Definition validationPasses (form : Form) : Prop :=
  (forall i, i ∈ form -> required i = true -> fieldValid i)
  /\ (forall before t after,
        form = before ++ t :: after -> requiredTerms t ->
        (forall j, j ∈ before -> ~ requiredTerms j) ->
        checked t = true).

(** The name kept for the dashboard: the [username] of the form when it is
    not empty, else what stands before the first [@] of its [email] when
    that is not empty, else the name the storage held. *)
Definition pseudo (form : Form) (previous : option JSString) : option JSString :=
  match formData form "username" with
  | Some (c :: username) => Some (c :: username)
  | _ =>
      match formData form "email" with
      | Some (c :: email) => Some (beforeAt (c :: email))
      | _ => previous
      end
  end.

(** A required text input. *)
Definition field (n : string) (v : string) : Input :=
  {| name := n; value := lit v; required := true; checkbox := false;
     checked := false |}.

(** A login form: an email and a password, both required. *)
Definition loginForm (email password : string) : Form :=
  [field "email" email; field "password" password].

(** A required checkbox of name [terms]. *)
Definition termsBox (accepted : bool) : Input :=
  {| name := "terms"; value := lit "on"; required := true; checkbox := true;
     checked := accepted |}.

(** A register form: a user name, an email, a password and the terms
    checkbox, all required. *)
Definition registerForm (username email password : string) (accepted : bool)
  : Form :=
  [field "username" username; field "email" email; field "password" password;
   termsBox accepted].

(** A page before any submission, with an empty storage. *)
Definition emptyPage : Page :=
  {| localStorage := ∅; redirect := None; shown := []; requests := [] |}.

End AuthStatements.

Section ChatStatements.
Import Chat.

(** Spaces, a tab, a no-break space, a line feed and an ideographic space. *)
Definition blankQuestion : JSString := [32; 9; 160; 10; 12288; 32]%N.

(** A page with a session and nothing in flight, the blank question typed. *)
Definition idlePage : State :=
  {| sessionId := lit "s-41"; isWaitingForResponse := false;
     inputValue := blankQuestion; inputDisabled := false;
     chatBox := []; localStorage := {[ "hc_session_id"%string := lit "s-41" ]};
     fresh := 0; pending := []; network := []; location := None;
     API_BASE := lit "http://localhost:8000" |}.

(** The local session is gone: no identifier in memory, none in the
    storage, an empty transcript. *)
Definition sessionCleared (s : State) : Prop :=
  sessionId s = []
  /\ localStorage s !! "hc_session_id"%string = None
  /\ chatBox s = [].

(** A reset listener is parked on its request. *)
Definition resetPending (s : State) : Prop := AwaitResetFetch ∈ pending s.

(** A page with a session and one message in the transcript. *)
Definition chattingPage : State :=
  {| sessionId := lit "s-41"; isWaitingForResponse := false;
     inputValue := []; inputDisabled := false;
     chatBox := [{| node_id := 0;
                    kind := Msg {| role := user; text := lit "Quel pH ?";
                                   metrics := None; sourcePages := None |} |}];
     localStorage := {[ "hc_session_id"%string := lit "s-41" ]};
     fresh := 1; pending := []; network := []; location := None;
     API_BASE := lit "http://localhost:8000" |}.

(** The scores of a response that has no [completeness]. *)
Definition scoredOnce : Metadata :=
  {| m_faithfulness := VNum (Finite 4); m_completeness := VUndefined;
     m_decision := VUndefined; m_sources := Some [] |}.

(** The parked handler is a [sendMessage]. *)
Definition chatPending (p : Pending) : bool :=
  match p with
  | AwaitChatFetch _ | AwaitChatJson _ => true
  | AwaitResetFetch => false
  end.

(** The chat requests in flight: the [sendMessage] calls parked on their
    [fetch] or on the body of its response. *)
Definition outstanding (s : State) : nat :=
  length (List.filter chatPending (pending s)).

(** The user asks to send: the form is submitted, a key goes down in the
    input, a suggestion is clicked. *)
Definition isSubmission (e : Event) : Prop :=
  match e with
  | Submit | KeyDown _ _ _ | ClickSuggestion _ => True
  | _ => False
  end.

(** The event ends the request in flight: its [fetch] is rejected or
    answered with a failure status, or the body of its response has been
    read, or could not be. *)
Definition settlesChat (s : State) (e : Event) : Prop :=
  match e with
  | FetchSettled i r =>
      (exists typingEl, pending s !! i = Some (AwaitChatFetch typingEl))
      /\ (forall status, r <> FetchResponse true status)
  | JsonSettled i r =>
      exists typingEl, pending s !! i = Some (AwaitChatJson typingEl)
  | _ => False
  end.

(** The busy flag counts the requests in flight. *)
Definition flagCountsRequests (s : State) : Prop :=
  outstanding s = if isWaitingForResponse s then 1 else 0.

(** The user types a question and submits it. *)
Definition askedOnce : list Event :=
  [Edit (lit "Quel pH pour la tomate ?"); Submit].

(** The event is neither a reset nor a logout, and is not a response that
    carries another non-empty session identifier than [sid]. *)
Definition keepsSession (sid : JSString) (e : Event) : Prop :=
  match e with
  | ClickReset | ClickLogout => False
  | JsonSettled _ (JsonData data) =>
      session_id data = None \/ session_id data = Some []
      \/ session_id data = Some sid
  | _ => True
  end.

(** A chat request carries [sid]. *)
Definition carries (sid : JSString) (r : Request) : Prop :=
  match r with
  | ChatRequest _ sid' => sid' = sid
  | ResetRequest _ => True
  end.

(** The page holds [sid], in memory and in the storage, and no reset is in
    flight. *)
Definition holdsSession (sid : JSString) (s : State) : Prop :=
  sessionId s = sid
  /\ localStorage s !! "hc_session_id"%string = Some sid
  /\ ~ resetPending s.

(** The body of the response in flight arrives, with session [sid]. *)
Definition answered (sid : string) : Event :=
  JsonSettled 0
    (JsonData {| answer := Some (lit "Entre 5.5 et 6.5.");
                 session_id := Some (lit sid);
                 faithfulness := VNum (Finite 5); completeness := VNum (Finite 4);
                 decision := VStr (lit "accept"); sources := Some [Finite 12] |}).

(** The user types [q] and submits it; the server answers 200. *)
Definition asked (q : string) : list Event :=
  [Edit (lit q); Submit; FetchSettled 0 (FetchResponse true 200)].

End ChatStatements.

Section DetectionStatements.
Import Detection.

(** The image of an analysis request is within the limit. *)
Definition withinLimit (r : Request) : Prop :=
  match r with
  | HealthRequest => True
  | AnalyzeRequest image => (size image <= maxImageSize)%N
  end.

(** The selected image, if any, and the image of every request issued are
    within the limit. *)
Definition imagesWithinLimit (s : State) : Prop :=
  (forall f, currentImageFile s = Some f -> (size f <= maxImageSize)%N)
  /\ Forall withinLimit (network s).

(** A JPEG of the given size. *)
Definition photo (bytes : N) : File :=
  {| name := lit "feuille.jpg"; size := bytes; type := lit "image/jpeg" |}.

(** The results panel of a page that has shown nothing yet. *)
Definition blankPanel : Panel :=
  {| resultsVisible := false; diseaseName := []; diseaseDescription := [];
     diagnosisTitle := []; confidenceValue := []; recommendationsList := [] |}.

(** The storage after a login. *)
Definition loggedIn : gmap string Stored :=
  {[ "hydrocare_auth"%string := Plain (lit "1") ]}.

(** The report that [saveReport] builds. *)
Definition reportOf (date : JSString) (timestamp : N) (f : File) (s : State)
  : Report :=
  {| r_date := date; r_disease := diseaseName (panel s);
     r_confidence := confidenceValue (panel s); r_image := name f;
     r_timestamp := timestamp |}.

(** The stored history is an array of at most ten entries. *)
Definition historyCapped (ls : gmap string Stored) : Prop :=
  exists h, loadHistory ls = Some h /\ length h <= 10.

(** The page once an image is selected and its preview loaded. *)
Definition selected : State :=
  run (init loggedIn true blankPanel)
    [SelectImage (Some (photo 2048)); ReaderLoaded 1 (lit "data:image/jpeg;base64,AA")].

(** [n] clicks on the save button, at times [1] to [n]. *)
Fixpoint saves (n : nat) : list Event :=
  match n with
  | O => []
  | S n' => saves n' ++ [ClickSave (lit "02/11/2026") (N.of_nat n)]
  end.

(** The timestamps of the stored reports, in stored order. *)
Definition timestamps (ls : gmap string Stored) : list N :=
  match loadHistory ls with
  | Some h => omap (fun e => match e with Saved r => Some (r_timestamp r)
                                     | Foreign _ => None end) h
  | None => []
  end.

(** The health check failed: the request was rejected or answered with a
    failure status, or its body could not be read, or reports no model. *)
Definition healthFailure (s : State) (e : Event) : Prop :=
  match e with
  | FetchSettled i r =>
      pending s !! i = Some AwaitHealthFetch
      /\ forall status, r <> FetchResponse true status
  | HealthParsed i r =>
      pending s !! i = Some AwaitHealthJson
      /\ forall data, r = JsonData data -> truthy (model_loaded data) = false
  | _ => False
  end.

(** The page after its health request was rejected. *)
Definition afterFailedHealthCheck : State :=
  step (init loggedIn true blankPanel)
    (FetchSettled 0 (FetchRejected (lit "Failed to fetch"))).

End DetectionStatements.

Section ParametresStatements.
Import Parametres.

(** The measured value lies within the range [[min, max]]. *)
Definition within (v : JSNumber) (r : Range) : Prop :=
  match v with
  | Finite q => (min r <= q)%Q /\ (q <= max r)%Q
  | _ => False
  end.

(** The reading is a number. *)
Definition isNumber (v : JSNumber) : Prop := v <> NaN.

(** The global status read off the alerts: [critique] with a critical
    alert, else [alerte] with a warning, else [optimal]. *)
Definition statutOf (l : list Alerte) : Statut :=
  if existsb (is_type critical) l then critique
  else if existsb (is_type warning) l then alerte
  else optimal.

(** A measurement on a tomato system with the given readings. *)
Definition mesure_tomate (ph o2 t : JSNumber) : Mesure :=
  {| systemeNom := lit "Bac 1"; planteType := "tomate";
     tailleBac := Finite 40; nombrePlantes := Finite 6;
     phMesure := ph; oxygeneMesure := o2; temperatureEau := t;
     notes := [] |}.

End ParametresStatements.

Section TrimStatements.

(** The string does not begin with white space. *)
Definition startsClean (s : JSString) : Prop :=
  match s with
  | [] => True
  | c :: _ => isWhiteSpace c = false
  end.

(** The string does not end with white space. *)
Definition endsClean (s : JSString) : Prop := startsClean (rev s).

End TrimStatements.

Section ChatRequestsStatements.
Import Chat.

(** A request is worth sending: a chat request has a question that is not
    blank, a reset request a session identifier. *)
Definition worthSending (r : Request) : Prop :=
  match r with
  | ChatRequest question _ => trim question <> []
  | ResetRequest sid => sid <> []
  end.

(** A reload of the page, with the same API base, would start from the
    session the page holds. *)
Definition reloadResumes (s : State) : Prop :=
  sessionId (init (Some (API_BASE s)) (localStorage s)) = sessionId s.

End ChatRequestsStatements.

Section ChatTranscriptStatements.
Import Chat.

(** The typing indicator a parked handler will remove. *)
Definition typingElOf (p : Pending) : option nat :=
  match p with
  | AwaitChatFetch typingEl | AwaitChatJson typingEl => Some typingEl
  | AwaitResetFetch => None
  end.

Definition typingEls (s : State) : list nat := omap typingElOf (pending s).

Definition isTyping (n : Node) : bool :=
  match kind n with
  | Typing => true
  | Msg _ => false
  end.

(** The messages of the transcript, in order. *)
Definition messages (s : State) : list Message :=
  omap (fun n => match kind n with Msg m => Some m | Typing => None end)
    (chatBox s).

(** The elements of the transcript are distinct and older than the next
    one; the typing indicators are the elements that the parked handlers
    will remove. *)
Definition transcriptWellFormed (s : State) : Prop :=
  NoDup (node_id <$> chatBox s)
  /\ Forall (fun n => node_id n < fresh s) (chatBox s)
  /\ Forall (fun t => t < fresh s) (typingEls s)
  /\ Forall (fun n => isTyping n = true <-> node_id n ∈ typingEls s) (chatBox s).

(** The message shown for a failure. *)
Definition errorMessage (API_BASE : JSString) (message : JSString) : Message :=
  {| role := error; text := errorMsg API_BASE message; metrics := None;
     sourcePages := None |}.

(** The text of an answer: the [answer] of the body, or an apology. *)
Definition answerText (data : ChatData) : JSString :=
  match answer data with
  | Some (c :: cs) => c :: cs
  | _ => lit "Désolé, je n'ai pas pu traiter votre demande."
  end.

(** The answer as displayed. *)
Definition answerMessage (data : ChatData) : Message :=
  renderMessage bot (answerText data)
    {| m_faithfulness := faithfulness data; m_completeness := completeness data;
       m_decision := decision data; m_sources := Some (default [] (sources data)) |}.

End ChatTranscriptStatements.

Section DetectionMoreStatements.
Import Detection.

(** The event ends an analysis with a failure: the request is rejected,
    the error body of a failure status arrives or cannot be read, or the
    body of a success cannot be read. *)
Definition analysisFails (s : State) (e : Event) : Prop :=
  match e with
  | FetchSettled i (FetchRejected _) => pending s !! i = Some AwaitAnalyzeFetch
  | AnalyzeText i _ => exists status, pending s !! i = Some (AwaitAnalyzeText status)
  | AnalyzeParsed i (JsonRejected _) | AnalyzeParsed i (JsonNull _) =>
      pending s !! i = Some AwaitAnalyzeJson
  | _ => False
  end.

(** The event ends an analysis with a result. *)
Definition analysisSucceeds (s : State) (e : Event) (result : AnalysisResult)
  : Prop :=
  match e with
  | AnalyzeParsed i (JsonData r) =>
      pending s !! i = Some AwaitAnalyzeJson /\ r = result
  | _ => False
  end.

(** The prefix of the description shown for a failed analysis. *)
Definition analysisErrorPrefix : JSString := lit "Erreur lors de l'analyse: ".

(** What is left of a name without its white space and underscores. *)
Definition letters (s : JSString) : JSString :=
  filter (fun c => isWhiteSpace c = false /\ c <> 95%N) s.

End DetectionMoreStatements.

Section AccessStatements.
Import Access.

(** The browser with a given local storage. *)
Definition browse (ls : gmap string JSString) (ss : gmap string JSString)
    (loc : string) : Browser :=
  {| localStorage := ls; sessionStorage := ss; location := loc |}.

(** The index page over a browser, before any submission. *)
Definition indexPage (b : Browser) : Auth.Page :=
  {| Auth.localStorage := localStorage b; Auth.redirect := None;
     Auth.shown := []; Auth.requests := [] |}.

(** A guarded page turns the visitor away: it leaves for the index page,
    which shows the notice of the guarded page once, and not again when it
    is loaded anew; the local storage is as it was. *)
Definition turnedAway (notice : JSString) (b : Browser) : Prop :=
  location (verifierAuthentification notice b) = "./index.html"%string
  /\ exists b2,
       showRedirectMessage (verifierAuthentification notice b) = (b2, Some notice)
       /\ showRedirectMessage b2 = (b2, None)
       /\ localStorage b2 = localStorage b.

End AccessStatements.

Section AccueilStatements.
Import Accueil.



End AccueilStatements.

Section AnalyseStatements.
Import Parametres.

(** The parameter a recommendation is about. *)
Definition concerne (r : Recommandation) : string :=
  match r with
  | AugmenterPH | DiminuerPH => "pH"
  | AugmenterOxygenation | SurveillerOxygenation => "oxygene"
  | AugmenterTemperature | RefroidirEau => "temperature"
  end.

(** The alerts that are not [success]. *)
Definition aCorriger (l : list Alerte) : list Alerte :=
  List.filter (fun a => negb (is_type success a)) l.

End AnalyseStatements.

Section SuiviStatements.
Import Suivi.

(** The markup of the filter by system for the given names: the option of
    all systems, of empty value, then one option for each name, which is
    written as it is between the quotes of [value] and as the label. *)
Definition optionsMarkup (names : list JSString) : JSString :=
  [10%N] ++ lit "        <option value=" ++ [34%N; 34%N]
  ++ lit ">Tous les systèmes</option>" ++ [10%N] ++ lit "        "
  ++ flat_map
       (fun name =>
          lit "<option value=" ++ [34%N] ++ name ++ [34%N; 62%N] ++ name
          ++ lit "</option>")
       names
  ++ [10%N] ++ lit "    ".

(** A page with nothing stored. *)
Definition pageVide : Page :=
  {| mesures := []; actionEnCours := None; stored := None;
     modalHidden := true; formulaireHidden := false; resultatsHidden := true;
     resultats := None; historique := Vide; filtreSystemeHTML := [];
     stats := None; timers := 0; notifications := [] |}.

End SuiviStatements.

(** * Properties *)

(** ** Regular expressions: the derivative matcher decides the language *)

Section RegExpFacts.

Lemma matches_cat_inv r1 r2 s :
  matches (RCat r1 r2) s ->
  exists s1 s2, s = s1 ++ s2 /\ matches r1 s1 /\ matches r2 s2.
Proof. inversion 1; subst; eauto. Qed.

Lemma matches_alt_inv r1 r2 s :
  matches (RAlt r1 r2) s -> matches r1 s \/ matches r2 s.
Proof. inversion 1; subst; auto. Qed.

Lemma matches_star_cons_inv r c s :
  matches (RStar r) (c :: s) ->
  exists s1 s2, s = s1 ++ s2 /\ matches r (c :: s1) /\ matches (RStar r) s2.
Proof.
  intros H. remember (RStar r) as r' eqn:Er. remember (c :: s) as cs eqn:Es.
  revert s Es.
  induction H as [| | | | | |r0 s1 s2 H1 _ H2 IH2]; intros s0 Es; try discriminate.
  injection Er as ->.
  destruct s1 as [|c1 s1].
  - simpl in Es. apply IH2; auto.
  - simpl in Es. injection Es as -> <-. eauto.
Qed.

Lemma nullable_matches r : nullable r = true <-> matches r [].
Proof.
  induction r as [| |p|r1 IH1 r2 IH2|r1 IH1 r2 IH2|r IH]; simpl.
  - split; [discriminate | inversion 1].
  - split; [constructor | reflexivity].
  - split; [discriminate | inversion 1].
  - rewrite andb_true_iff, IH1, IH2. split.
    + intros [H1 H2]. exact (MCat _ _ [] [] H1 H2).
    + intros H. apply matches_cat_inv in H as (s1 & s2 & E & H1 & H2).
      symmetry in E. apply app_eq_nil in E as [-> ->]. auto.
  - rewrite orb_true_iff, IH1, IH2. split.
    + intros [H|H]; [apply MAltL | apply MAltR]; exact H.
    + apply matches_alt_inv.
  - split; [constructor | reflexivity].
Qed.

Lemma deriv_matches c r s : matches (deriv c r) s <-> matches r (c :: s).
Proof.
  revert s.
  induction r as [| |p|r1 IH1 r2 IH2|r1 IH1 r2 IH2|r IH]; intros s; simpl.
  - split; inversion 1.
  - split; inversion 1.
  - destruct (p c) eqn:Ep; split.
    + inversion 1; subst. now constructor.
    + inversion 1; subst. constructor.
    + inversion 1.
    + inversion 1; subst. congruence.
  - assert (Hcons : forall s1 s2, matches (deriv c r1) s1 -> matches r2 s2 ->
                             matches (RCat r1 r2) (c :: s1 ++ s2)).
    { intros s1 s2 H1 H2. apply IH1 in H1.
      exact (MCat _ _ (c :: s1) s2 H1 H2). }
    assert (Hinv : matches (RCat r1 r2) (c :: s) ->
                   (exists s1 s2, s = s1 ++ s2 /\ matches (deriv c r1) s1 /\ matches r2 s2)
                   \/ (matches r1 [] /\ matches r2 (c :: s))).
    { intros H. apply matches_cat_inv in H as (s1 & s2 & E & H1 & H2).
      destruct s1 as [|c1 s1]; simpl in E.
      - right. subst s2. auto.
      - injection E as <- ->. left. exists s1, s2. rewrite IH1. auto. }
    destruct (nullable r1) eqn:En; split.
    + intros H. apply matches_alt_inv in H as [H|H].
      * apply matches_cat_inv in H as (s1 & s2 & -> & H1 & H2). auto.
      * apply IH2 in H. apply nullable_matches in En.
        exact (MCat _ _ [] (c :: s) En H).
    + intros H. apply Hinv in H as [(s1 & s2 & -> & H1 & H2)|[_ H2]].
      * apply MAltL. now constructor.
      * apply MAltR. now apply IH2.
    + intros H. apply matches_cat_inv in H as (s1 & s2 & -> & H1 & H2). auto.
    + intros H. apply Hinv in H as [(s1 & s2 & -> & H1 & H2)|[H1 _]].
      * now constructor.
      * apply nullable_matches in H1. congruence.
  - split.
    + intros H. apply matches_alt_inv in H as [H|H];
        [apply MAltL, IH1 | apply MAltR, IH2]; exact H.
    + intros H. apply matches_alt_inv in H as [H|H];
        [apply MAltL, IH1 | apply MAltR, IH2]; exact H.
  - split.
    + intros H. apply matches_cat_inv in H as (s1 & s2 & -> & H1 & H2).
      apply IH in H1. exact (MStarCons _ (c :: s1) s2 H1 H2).
    + intros H. apply matches_star_cons_inv in H as (s1 & s2 & -> & H1 & H2).
      constructor; [now apply IH | exact H2].
Qed.

(** [test] answers [true] exactly on the strings of the language. *)
Lemma test_matches r s : test r s = true <-> matches r s.
Proof.
  revert r. induction s as [|c s IH]; intros r; simpl.
  - apply nullable_matches.
  - rewrite IH. apply deriv_matches.
Qed.

Lemma matches_plus_inv p s :
  matches (RPlus (RClass p)) s <-> s <> [] /\ Forall (fun c => p c = true) s.
Proof.
  split.
  - intros H. apply matches_cat_inv in H as (s1 & s2 & -> & H1 & H2).
    inversion H1; subst. split; [discriminate|].
    constructor; [assumption|].
    clear H1. remember (RStar (RClass p)) as r eqn:Er.
    induction H2; try discriminate.
    + constructor.
    + injection Er as ->. apply Forall_app. split; [|auto].
      inversion H2_; subst. repeat constructor. assumption.
  - intros [Hne Hall]. destruct s as [|c s]; [congruence|].
    inversion Hall as [|? ? Hc Hs]; subst.
    apply (MCat _ _ [c] s); [now constructor|].
    clear Hne Hall Hc. induction s as [|d s IHs]; [constructor|].
    inversion Hs; subst.
    apply (MStarCons _ [d] s); [now constructor | auto].
Qed.

End RegExpFacts.

(** ** app.js: the login and register forms *)

Section AuthFacts.
Import Auth.

Lemma validateField_None (i : Input) : validateField i = None <-> fieldValid i.
Proof.
  unfold validateField, fieldValid.
  destruct (bool_decide_reflect (trim (value i) = [])) as [E|E].
  { split; [discriminate | intros [H _]; contradiction]. }
  destruct (bool_decide_reflect (name i = "email"%string)) as [Ee|Ee]; simpl.
  { destruct (test emailPattern (trim (value i))) eqn:Et; simpl.
    - apply test_matches in Et.
      rewrite Ee. split; [|reflexivity].
      intros _. repeat split; auto; discriminate.
    - split; [discriminate|]. intros (_ & H & _).
      apply H, test_matches in Ee. congruence. }
  destruct (bool_decide_reflect (name i = "password"%string)) as [Ep|Ep]; simpl.
  { destruct (Nat.ltb_spec (length (trim (value i))) 6) as [Hl|Hl].
    - split; [discriminate|]. intros (_ & _ & H & _). apply H in Ep. lia.
    - rewrite Ep. split; [|reflexivity].
      intros _. repeat split; auto; discriminate. }
  destruct (bool_decide_reflect (name i = "username"%string)) as [Eu|Eu]; simpl.
  { destruct (Nat.ltb_spec (length (trim (value i))) 3) as [Hl|Hl].
    - split; [discriminate|]. intros (_ & _ & _ & H). apply H in Eu. lia.
    - rewrite Eu. split; [|reflexivity].
      intros _. repeat split; auto; discriminate. }
  split; [|reflexivity]. intros _. repeat split; auto; contradiction.
Qed.

(** The loop of [validateForm] ends with the flag it was given unless some
    field fails, and shows a message for each field that fails. *)
Lemma validateInputs_spec (inputs : list Input) (valid : bool)
    (shown : list (Input * string)) :
  exists errors,
    validateInputs inputs valid shown = 
      (valid && bool_decide (errors = []), shown ++ errors)
    /\ (errors = [] <-> Forall fieldValid inputs).
Proof.
  revert valid shown. induction inputs as [|inp rest IH]; intros valid shown; simpl.
  - exists []. rewrite app_nil_r, andb_true_r. split; [reflexivity|].
    split; [constructor | reflexivity].
  - destruct (validateField inp) as [message|] eqn:Ev.
    + destruct (IH false (shown ++ [(inp, message)])) as (errors & -> & _).
      exists ((inp, message) :: errors). rewrite <- app_assoc. simpl.
      rewrite andb_false_r. split; [reflexivity|].
      split; [discriminate|].
      intros H. inversion H as [|? ? Hf _]; subst.
      apply validateField_None in Hf. congruence.
    + destruct (IH valid shown) as (errors & -> & Hall).
      exists errors. split; [reflexivity|]. rewrite Hall.
      apply validateField_None in Ev.
      split; [now constructor | now inversion 1].
Qed.

(** [validateForm] answers [true] exactly when validation passes; when it
    answers [false] it has shown at least one message. *)
Lemma find_first {A : Type} (f : A -> bool) (l : list A) (t : A) :
  find f l = Some t
  <-> exists before after,
        l = before ++ t :: after /\ f t = true
        /\ forall j, j ∈ before -> f j = false.
Proof.
  induction l as [|x l IH]; simpl.
  - split; [discriminate|]. intros (before & after & E & _).
    now destruct before.
  - destruct (f x) eqn:Ex.
    + split.
      * intros [= <-]. exists [], l. split; [reflexivity|]. split; [exact Ex|].
        intros j Hj. now apply elem_of_nil in Hj.
      * intros (before & after & E & Ht & Hb). destruct before as [|y before].
        -- now injection E as -> _.
        -- injection E as <- _. rewrite (Hb x) in Ex; [discriminate|].
           apply elem_of_cons. now left.
    + rewrite IH. split.
      * intros (before & after & -> & Ht & Hb). exists (x :: before), after.
        split; [reflexivity|]. split; [exact Ht|].
        intros j Hj. apply elem_of_cons in Hj as [->|Hj]; [exact Ex | now apply Hb].
      * intros (before & after & E & Ht & Hb). destruct before as [|y before].
        -- injection E as <- _. congruence.
        -- injection E as <- ->. exists before, after.
           split; [reflexivity|]. split; [exact Ht|].
           intros j Hj. apply Hb, elem_of_cons. now right.
Qed.

Lemma requiredTerms_test (i : Input) :
  bool_decide (name i = "terms"%string) && required i = true <-> requiredTerms i.
Proof.
  unfold requiredTerms. now rewrite andb_true_iff, bool_decide_eq_true.
Qed.

(** The terms rule of [validateForm] is about the first required input of
    name [terms]. *)
Lemma termsInput_first (form : Form) :
  (forall t, termsInput form = Some t -> checked t = true)
  <-> (forall before t after,
         form = before ++ t :: after -> requiredTerms t ->
         (forall j, j ∈ before -> ~ requiredTerms j) ->
         checked t = true).
Proof.
  unfold termsInput. split.
  - intros H before t after E Ht Hb. apply H, find_first.
    exists before, after. split; [exact E|]. split; [now apply requiredTerms_test|].
    intros j Hj. apply not_true_is_false. intros Hf.
    now apply (Hb j Hj), requiredTerms_test.
  - intros H t Hf. apply find_first in Hf as (before & after & E & Ht & Hb).
    apply (H before t after E); [now apply requiredTerms_test|].
    intros j Hj Hr. apply requiredTerms_test in Hr. rewrite (Hb j Hj) in Hr.
    discriminate.
Qed.

Lemma validateForm_spec (form : Form) :
  (fst (validateForm form) = true <-> validationPasses form)
  /\ (fst (validateForm form) = true -> snd (validateForm form) = [])
  /\ (fst (validateForm form) = false -> snd (validateForm form) <> []).
Proof.
  unfold validationPasses. rewrite <- termsInput_first. unfold validateForm.
  destruct (validateInputs_spec (filter (fun i => required i = true) form) true [])
    as (errors & -> & Hall).
  simpl (true && _). simpl ([] ++ errors).
  assert (Hreq : Forall fieldValid (filter (fun i => required i = true) form)
                 <-> forall i, i ∈ form -> required i = true -> fieldValid i).
  { rewrite Forall_forall. split.
    - intros H i Hi Hr. apply H. apply list_elem_of_filter. auto.
    - intros H i Hi. apply list_elem_of_filter in Hi as [Hr Hi]. auto. }
  rewrite <- Hreq, <- Hall.
  destruct (termsInput form) as [terms|].
  - destruct (checked terms) eqn:Ec; simpl.
    + rewrite bool_decide_eq_true, bool_decide_eq_false.
      repeat split; try tauto.
      intros t [= <-]. exact Ec.
    + repeat split; try discriminate.
      * intros [_ H]. specialize (H terms eq_refl). congruence.
      * intros _ H. now apply app_eq_nil in H as [_ H].
  - simpl. rewrite bool_decide_eq_true, bool_decide_eq_false.
    repeat split; try tauto; try discriminate.
Qed.

Lemma matches_class_inv p s :
  matches (RClass p) s -> exists c, s = [c] /\ p c = true.
Proof. inversion 1; subst; eauto. Qed.

(** The language of the email pattern: a local part, [@], a domain, a dot
    and an ending, the three parts non-empty and free of [@] and of white
    space (the domain and the ending may themselves contain dots). *)
Lemma emailPattern_language (s : JSString) :
  matches emailPattern s <->
  exists a b c,
    s = a ++ 64%N :: b ++ 46%N :: c
    /\ a <> [] /\ b <> [] /\ c <> []
    /\ Forall (fun x => notAtNorSpace x = true) (a ++ b ++ c).
Proof.
  unfold emailPattern. split.
  - intros H.
    apply matches_cat_inv in H as (a & s1 & -> & Ha & H).
    apply matches_cat_inv in H as (at_ & s2 & -> & Hat & H).
    apply matches_cat_inv in H as (b & s3 & -> & Hb & H).
    apply matches_cat_inv in H as (dot & c & -> & Hdot & Hc).
    apply matches_class_inv in Hat as (x & -> & Hx).
    apply matches_class_inv in Hdot as (y & -> & Hy).
    apply N.eqb_eq in Hx, Hy. subst x y.
    apply matches_plus_inv in Ha as [Ha Fa], Hb as [Hb Fb], Hc as [Hc Fc].
    exists a, b, c. repeat split; auto.
    rewrite !Forall_app. auto.
  - intros (a & b & c & -> & Ha & Hb & Hc & F).
    rewrite !Forall_app in F. destruct F as (Fa & Fb & Fc).
    apply MCat; [apply matches_plus_inv; auto|].
    apply (MCat _ _ [64%N]); [now constructor|].
    apply MCat; [apply matches_plus_inv; auto|].
    apply (MCat _ _ [46%N]); [now constructor|].
    apply matches_plus_inv; auto.
Qed.

Example email_accepted : test emailPattern (lit "lea@serre.example.fr") = true.
Proof. reflexivity. Qed.

Example email_without_dot : test emailPattern (lit "lea@serre") = false.
Proof. reflexivity. Qed.

Example email_with_space : test emailPattern (lit "lea b@serre.fr") = false.
Proof. reflexivity. Qed.

Example email_with_two_ats : test emailPattern (lit "lea@b@serre.fr") = false.
Proof. reflexivity. Qed.

Example trim_both_ends :
  trim ([32; 9]%N ++ lit "pH  tomate" ++ [160; 10]%N) = lit "pH  tomate".
Proof. reflexivity. Qed.

(** C8: a submission authenticates (writes [hydrocare_auth], keeps the
    name of the user and arms the redirection to the dashboard) when
    validation passes, and otherwise leaves the storage and the
    redirection as they were and shows at least one inline message; it
    makes no network request in either case.  On a page with no
    redirection armed, authentication therefore happens exactly when
    validation passes.  Emptiness, the email pattern and the two lengths
    are those of the trimmed value of the required inputs; the terms rule
    is that of the first required input of name [terms]. *)
Theorem handleFormSubmit_authenticates_iff_valid (form : Form) (pg : Page) :
  (validationPasses form ->
     localStorage (handleFormSubmit form pg) !! "hydrocare_auth"%string
       = Some (lit "1")
     /\ localStorage (handleFormSubmit form pg) !! "hydrocare_user"%string
        = pseudo form (localStorage pg !! "hydrocare_user"%string)
     /\ redirect (handleFormSubmit form pg) = Some "dashboard.html"%string
     /\ shown (handleFormSubmit form pg) = [])
  /\ (~ validationPasses form ->
        localStorage (handleFormSubmit form pg) = localStorage pg
        /\ redirect (handleFormSubmit form pg) = redirect pg
        /\ shown (handleFormSubmit form pg) <> [])
  /\ requests (handleFormSubmit form pg) = requests pg
  /\ (redirect pg = None ->
        (redirect (handleFormSubmit form pg) = Some "dashboard.html"%string
         <-> validationPasses form)).
Proof.
  destruct (validateForm_spec form) as (Hiff & Hnil & Hcons).
  unfold handleFormSubmit, pseudo.
  destruct (validateForm form) as [valid errors]. simpl in Hiff, Hnil, Hcons.
  destruct valid; simpl.
  - assert (Hv : validationPasses form) by now apply Hiff.
    split; [intros _|split; [tauto|split; [reflexivity|tauto]]].
    split; [|split; [|split; [reflexivity | now apply Hnil]]].
    + destruct (formData form "username") as [[|]|];
        [destruct (formData form "email") as [[|]|]| |
         destruct (formData form "email") as [[|]|]]; simpl;
        rewrite ?lookup_insert_ne by discriminate; apply lookup_insert_eq.
    + destruct (formData form "username") as [[|]|];
        [destruct (formData form "email") as [[|]|]| |
         destruct (formData form "email") as [[|]|]]; simpl;
        try apply lookup_insert_eq; now rewrite lookup_insert_ne by discriminate.
  - assert (Hv : ~ validationPasses form).
    { intros H. apply Hiff in H. discriminate. }
    split; [tauto|]. split; [intros _; auto|]. split; [reflexivity|].
    intros ->. split; [discriminate | tauto].
Qed.

Lemma handleFormSubmit_authenticates_iff_valid_witness :
  (localStorage (handleFormSubmit (loginForm "lea@serre.fr" "tomate") emptyPage)
     !! "hydrocare_auth"%string = Some (lit "1")
   /\ localStorage (handleFormSubmit (loginForm "lea@serre.fr" "tomate") emptyPage)
        !! "hydrocare_user"%string = Some (lit "lea")
   /\ redirect (handleFormSubmit (loginForm "lea@serre.fr" "tomate") emptyPage)
      = Some "dashboard.html"%string)
  /\ (localStorage
        (handleFormSubmit (registerForm "lea" "lea@serre.fr" "tomate" false)
           emptyPage)
      = localStorage emptyPage
      /\ redirect
           (handleFormSubmit (registerForm "lea" "lea@serre.fr" "tomate" false)
              emptyPage)
         = None
      /\ shown
           (handleFormSubmit (registerForm "lea" "lea@serre.fr" "tomate" false)
              emptyPage)
         <> []).
Proof.
  split.
  - destruct (handleFormSubmit_authenticates_iff_valid
                (loginForm "lea@serre.fr" "tomate") emptyPage) as (H & _).
    destruct H as (H1 & H2 & H3 & _).
    + split.
      * intros i Hi _.
        apply elem_of_cons in Hi as [->|Hi];
          [|apply elem_of_cons in Hi as [->|Hi]; [|now apply elem_of_nil in Hi]].
        -- split; [vm_compute; discriminate|]. split; [|split]; try discriminate.
           intros _. apply test_matches. vm_compute. reflexivity.
        -- split; [vm_compute; discriminate|]. split; [|split]; try discriminate.
           intros _. vm_compute. lia.
      * intros [|j before] t after E [Hn _] _.
        -- injection E as <- _. discriminate Hn.
        -- injection E as _ E. destruct before as [|k before].
           ++ injection E as <- _. discriminate Hn.
           ++ injection E as _ E. now destruct before.
    + split; [exact H1|]. split; [|exact H3].
      etransitivity; [exact H2|]. vm_compute. reflexivity.
  - destruct (handleFormSubmit_authenticates_iff_valid
                (registerForm "lea" "lea@serre.fr" "tomate" false) emptyPage)
      as (_ & H & _).
    apply H. intros [_ Ht].
    assert (Hc : checked (termsBox false) = true); [|discriminate Hc].
    apply (Ht [field "username" "lea"; field "email" "lea@serre.fr";
               field "password" "tomate"] (termsBox false) []).
    + reflexivity.
    + split; reflexivity.
    + intros j Hj [Hn _].
      repeat (apply elem_of_cons in Hj as [->|Hj]; [discriminate Hn|]).
      now apply elem_of_nil in Hj.
Defined.

End AuthFacts.

(** ** app.js: the chatbot page *)

Section ChatFacts.
Import Chat.

(** *** Blank questions *)

(** C1: a question that is empty once trimmed goes nowhere.  Passed to
    [sendMessage], or submitted through the form while it is the content of
    the input, it leaves the page as it was: no request is issued and the
    transcript, the session identifier and the storage are unchanged. *)
Theorem blank_question_sends_nothing (q : JSString) (s : State) :
  trim q = [] ->
  sendMessage q s = s
  /\ step s (ClickSuggestion (Some q)) = s
  /\ (inputValue s = q -> step s Submit = s)
  /\ network (sendMessage q s) = network s
  /\ chatBox (sendMessage q s) = chatBox s
  /\ sessionId (sendMessage q s) = sessionId s
  /\ (inputValue s = q ->
        network (step s Submit) = network s
        /\ chatBox (step s Submit) = chatBox s
        /\ sessionId (step s Submit) = sessionId s
        /\ localStorage (step s Submit) = localStorage s).
Proof.
  intros Hq.
  assert (Hsend : sendMessage q s = s).
  { unfold sendMessage. rewrite bool_decide_eq_true_2 by exact Hq. reflexivity. }
  assert (Hsub : inputValue s = q -> step s Submit = s).
  { intros Hv. simpl. unfold onSubmit. rewrite Hv.
    rewrite bool_decide_eq_true_2 by exact Hq. reflexivity. }
  assert (Hsug : step s (ClickSuggestion (Some q)) = s).
  { simpl. destruct q; [reflexivity | exact Hsend]. }
  rewrite Hsend. repeat (split; [first [reflexivity | exact Hsub | exact Hsug]|]).
  intros Hv. rewrite (Hsub Hv). repeat split.
Qed.

Lemma blank_question_sends_nothing_witness :
  sendMessage blankQuestion idlePage = idlePage
  /\ step idlePage Submit = idlePage.
Proof.
  destruct (blank_question_sends_nothing blankQuestion idlePage) as (H1 & _ & H2 & _).
  - vm_compute. reflexivity.
  - split; [exact H1 | apply H2; reflexivity].
Defined.

(** *** Reset *)

Lemma resetLocally_cleared (s : State) : sessionCleared (resetLocally s).
Proof.
  unfold sessionCleared, resetLocally. simpl.
  repeat split. apply lookup_delete_eq.
Qed.

Lemma elem_of_delete_other (l : list Pending) (i : nat) (p q : Pending) :
  p ∈ l -> l !! i = Some q -> p <> q -> p ∈ delete i l.
Proof.
  revert i. induction l as [|a l IH]; intros [|i] Hin Hi Hne; try discriminate.
  - injection Hi as ->. apply elem_of_cons in Hin as [->|Hin]; [contradiction|exact Hin].
  - simpl in Hi. simpl. apply elem_of_cons in Hin as [->|Hin].
    + apply list_elem_of_here.
    + apply list_elem_of_further. eapply IH; eauto.
Qed.

Lemma sendMessage_pending (q : JSString) (s : State) :
  exists new, pending (sendMessage q s) = pending s ++ new.
Proof.
  unfold sendMessage. destruct (_ || _).
  - exists []. now rewrite app_nil_r.
  - eexists. reflexivity.
Qed.

Lemma onSubmit_pending (s : State) :
  exists new, pending (onSubmit s) = pending s ++ new.
Proof.
  unfold onSubmit. destruct (bool_decide _).
  - exists []. now rewrite app_nil_r.
  - apply (sendMessage_pending _ (set_inputValue [] s)).
Qed.

(** A parked reset listener stays parked until the event that resumes it,
    and that event clears the session. *)
Lemma reset_parked_until_cleared (s : State) (e : Event) :
  resetPending s -> resetPending (step s e) \/ sessionCleared (step s e).
Proof.
  unfold resetPending. intros H.
  assert (Hgrow : forall s', (exists new, pending s' = pending s ++ new) ->
                             AwaitResetFetch ∈ pending s').
  { intros s' [new ->]. apply elem_of_app. now left. }
  destruct e as [v| |key c sh|q| | |i r|i r]; simpl.
  - now left.
  - left. apply Hgrow, onSubmit_pending.
  - left. unfold onKeyDown. destruct (_ || _); [apply Hgrow, onSubmit_pending | exact H].
  - left. unfold onSuggestion. destruct q as [[|]|]; try exact H.
    apply Hgrow, sendMessage_pending.
  - left. unfold onReset. destruct (sessionId s); [exact H|].
    simpl. apply elem_of_app. now left.
  - now left.
  - destruct (pending s !! i) as [[typingEl|typingEl|]|] eqn:Hi; try (now left).
    + left. assert (Hd : AwaitResetFetch ∈ delete i (pending s))
        by (eapply elem_of_delete_other; eauto; discriminate).
      destruct r as [message|[|] status]; simpl; try exact Hd.
      apply elem_of_app. now left.
    + right. apply resetLocally_cleared.
  - destruct (pending s !! i) as [[typingEl|typingEl|]|] eqn:Hi; try (now left).
    left. assert (Hd : AwaitResetFetch ∈ delete i (pending s))
      by (eapply elem_of_delete_other; eauto; discriminate).
    destruct r; exact Hd.
Qed.

(** C2: every run of the reset listener ends with the session cleared.
    With no identifier the request is skipped and the click itself clears;
    with one, the click issues the request and parks the listener; a
    parked listener stays parked whatever else happens, and whenever its
    request settles, rejected or answered with any status, in whatever
    state the page then is, the listener clears. *)
Theorem reset_always_clears_session :
  (forall s, sessionId s = [] ->
     sessionCleared (step s ClickReset)
     /\ network (step s ClickReset) = network s)
  /\ (forall s, sessionId s <> [] ->
        network (step s ClickReset) = network s ++ [ResetRequest (sessionId s)]
        /\ pending (step s ClickReset) = pending s ++ [AwaitResetFetch])
  /\ (forall s e, resetPending s ->
        resetPending (step s e) \/ sessionCleared (step s e))
  /\ (forall s i r, pending s !! i = Some AwaitResetFetch ->
        sessionCleared (step s (FetchSettled i r))).
Proof.
  split; [|split; [|split]].
  - intros s Hs. simpl. unfold onReset. rewrite Hs.
    split; [apply resetLocally_cleared | reflexivity].
  - intros s Hs. simpl. unfold onReset.
    destruct (sessionId s) eqn:E; [contradiction|]. split; reflexivity.
  - apply reset_parked_until_cleared.
  - intros s i r Hi. simpl. rewrite Hi. apply resetLocally_cleared.
Qed.

Lemma reset_always_clears_session_witness :
  sessionCleared
    (run chattingPage [ClickReset; FetchSettled 0 (FetchRejected (lit "Failed to fetch"))])
  /\ sessionCleared
       (run chattingPage [ClickReset; FetchSettled 0 (FetchResponse false 500)])
  /\ sessionCleared (step (resetLocally chattingPage) ClickReset).
Proof.
  destruct reset_always_clears_session as (Hskip & _ & _ & Hsettle).
  split; [|split].
  - apply (Hsettle (step chattingPage ClickReset) 0%nat). reflexivity.
  - apply (Hsettle (step chattingPage ClickReset) 0%nat). reflexivity.
  - apply Hskip. reflexivity.
Defined.

(** *** Scores of an answer *)

(** C7: [appendMessage] always appends one message.  Its metrics block is
    absent when both scores are undefined and present as soon as one is
    defined; in the block an undefined score reads [N/A].  The answer of a
    chat response is appended with the scores of the response. *)
Theorem appendMessage_missing_scores (r : Role) (t : JSString)
    (metadata : Metadata) (s : State) :
  chatBox (appendMessage r t metadata s)
    = chatBox s ++ [{| node_id := fresh s; kind := Msg (renderMessage r t metadata) |}]
  /\ (m_faithfulness metadata = VUndefined ->
      m_completeness metadata = VUndefined ->
      metrics (renderMessage r t metadata) = None)
  /\ (m_faithfulness metadata <> VUndefined
      \/ m_completeness metadata <> VUndefined ->
      exists f c,
        metrics (renderMessage r t metadata) = Some (f, c)
        /\ (m_faithfulness metadata = VUndefined -> f = NA)
        /\ (m_completeness metadata = VUndefined -> c = NA))
  /\ (forall typingEl data,
        exists a n,
          last (chatBox (sendMessage_parsed typingEl (JsonData data) s))
          = Some {| node_id := n;
                    kind := Msg (renderMessage bot a
                                   {| m_faithfulness := faithfulness data;
                                      m_completeness := completeness data;
                                      m_decision := decision data;
                                      m_sources := Some (default [] (sources data)) |}) |}).
Proof.
  split; [reflexivity|]. split; [|split].
  - intros Hf Hc. unfold renderMessage. simpl. rewrite Hf, Hc. reflexivity.
  - intros H. exists (scoreText (m_faithfulness metadata)),
      (scoreText (m_completeness metadata)).
    split; [|split].
    + unfold renderMessage. simpl.
      destruct (m_faithfulness metadata), (m_completeness metadata);
        try reflexivity. destruct H; congruence.
    + intros ->. reflexivity.
    + intros ->. reflexivity.
  - intros typingEl data. unfold sendMessage_parsed.
    eexists _, _. simpl. rewrite last_snoc. reflexivity.
Qed.

Lemma appendMessage_missing_scores_witness :
  metrics (renderMessage bot (lit "pH 5.5 - 6.5") scoredOnce)
    = Some (Shown (VNum (Finite 4)), NA)
  /\ metrics (renderMessage bot (lit "pH 5.5 - 6.5") noMetadata) = None.
Proof.
  destruct (appendMessage_missing_scores bot (lit "pH 5.5 - 6.5") scoredOnce idlePage)
    as (_ & _ & H & _).
  destruct (appendMessage_missing_scores bot (lit "pH 5.5 - 6.5") noMetadata idlePage)
    as (_ & H0 & _).
  split.
  - destruct H as (f & c & E & _ & Hc); [left; discriminate|].
    rewrite E. f_equal. f_equal; [|apply Hc; reflexivity].
    vm_compute in E. congruence.
  - apply H0; reflexivity.
Defined.

(** *** One request at a time *)

Lemma filter_delete_length {A} (f : A -> bool) (l : list A) (i : nat) (x : A) :
  l !! i = Some x ->
  length (List.filter f l)
  = length (List.filter f (delete i l)) + (if f x then 1 else 0).
Proof.
  revert i. induction l as [|a l IH]; intros [|i] Hi; try discriminate.
  - injection Hi as ->. simpl. destruct (f x); simpl; lia.
  - simpl in Hi. apply IH in Hi. simpl.
    destruct (f a); simpl; rewrite Hi; reflexivity.
Qed.

Lemma filter_snoc_length {A} (f : A -> bool) (l : list A) (x : A) :
  length (List.filter f (l ++ [x]))
  = length (List.filter f l) + (if f x then 1 else 0).
Proof.
  rewrite List.filter_app, length_app. simpl. destruct (f x); reflexivity.
Qed.

Lemma sendMessage_cases (q : JSString) (s : State) :
  (sendMessage q s = s /\ (trim q = [] \/ isWaitingForResponse s = true))
  \/ (trim q <> [] /\ isWaitingForResponse s = false
      /\ isWaitingForResponse (sendMessage q s) = true
      /\ pending (sendMessage q s) = pending s ++ [AwaitChatFetch (S (fresh s))]
      /\ network (sendMessage q s) = network s ++ [ChatRequest q (sessionId s)]
      /\ sessionId (sendMessage q s) = sessionId s
      /\ localStorage (sendMessage q s) = localStorage s).
Proof.
  unfold sendMessage.
  destruct (bool_decide_reflect (trim q = [])) as [E|E]; [left; auto|].
  destruct (isWaitingForResponse s) eqn:W; [left; auto|].
  right. simpl. repeat split; auto.
Qed.

Lemma sendMessage_flagCountsRequests (q : JSString) (s : State) :
  flagCountsRequests s -> flagCountsRequests (sendMessage q s).
Proof.
  intros H. destruct (sendMessage_cases q s) as [[-> _]|(_ & W & W' & P & _)];
    [exact H|].
  unfold flagCountsRequests, outstanding in *. rewrite W', P, filter_snoc_length.
  rewrite H, W. reflexivity.
Qed.

Lemma onSubmit_flagCountsRequests (s : State) :
  flagCountsRequests s -> flagCountsRequests (onSubmit s).
Proof.
  intros H. unfold onSubmit. destruct (bool_decide _); [exact H|].
  apply sendMessage_flagCountsRequests. exact H.
Qed.

Lemma step_flagCountsRequests (s : State) (e : Event) :
  flagCountsRequests s -> flagCountsRequests (step s e).
Proof.
  intros H. destruct e as [v| |key c sh|q| | |i r|i r]; simpl.
  - exact H.
  - now apply onSubmit_flagCountsRequests.
  - unfold onKeyDown. destruct (_ || _); [now apply onSubmit_flagCountsRequests | exact H].
  - unfold onSuggestion. destruct q as [[|]|]; try exact H.
    now apply sendMessage_flagCountsRequests.
  - unfold onReset. destruct (sessionId s); [exact H|].
    unfold flagCountsRequests, outstanding in *. simpl.
    rewrite filter_snoc_length. simpl. lia.
  - exact H.
  - destruct (pending s !! i) as [[typingEl|typingEl|]|] eqn:Hi; try exact H.
    + unfold flagCountsRequests, outstanding in *.
      rewrite (filter_delete_length _ _ _ _ Hi) in H. simpl in H.
      destruct (isWaitingForResponse s) eqn:W; [|lia].
      destruct r as [message|[|] status]; simpl.
      * lia.
      * rewrite filter_snoc_length. simpl. rewrite W. lia.
      * lia.
    + unfold flagCountsRequests, outstanding in *.
      rewrite (filter_delete_length _ _ _ _ Hi) in H. simpl in *. lia.
  - destruct (pending s !! i) as [[typingEl|typingEl|]|] eqn:Hi; try exact H.
    unfold flagCountsRequests, outstanding in *.
    rewrite (filter_delete_length _ _ _ _ Hi) in H. simpl in H.
    destruct (isWaitingForResponse s) eqn:W; [|lia].
    destruct r as [message|message|data]; simpl; lia.
Qed.

Lemma run_flagCountsRequests (s : State) (evs : list Event) :
  flagCountsRequests s -> flagCountsRequests (run s evs).
Proof.
  revert s. induction evs as [|e evs IH]; intros s H; simpl; [exact H|].
  apply IH, step_flagCountsRequests, H.
Qed.

Lemma submission_while_waiting (s : State) (e : Event) :
  isWaitingForResponse s = true -> isSubmission e ->
  network (step s e) = network s
  /\ pending (step s e) = pending s
  /\ chatBox (step s e) = chatBox s
  /\ sessionId (step s e) = sessionId s
  /\ localStorage (step s e) = localStorage s
  /\ isWaitingForResponse (step s e) = true.
Proof.
  intros W He.
  assert (Hsend : forall q s', isWaitingForResponse s' = true -> sendMessage q s' = s').
  { intros q s' W'. unfold sendMessage. rewrite W', orb_true_r. reflexivity. }
  assert (Hsub : forall P : State -> Prop, P s -> P (set_inputValue [] s) -> P (onSubmit s)).
  { intros P H1 H2. unfold onSubmit. destruct (bool_decide _); [exact H1|].
    rewrite Hsend by exact W. exact H2. }
  destruct e as [v| |key c sh|q| | |i r|i r]; try contradiction; simpl.
  - apply Hsub; repeat split; assumption.
  - unfold onKeyDown. destruct (_ || _); [|repeat split; assumption].
    apply Hsub; repeat split; assumption.
  - unfold onSuggestion. destruct q as [[|]|]; rewrite ?Hsend by exact W;
      repeat split; assumption.
Qed.

Lemma flag_cleared_iff_settled (s : State) (e : Event) :
  isWaitingForResponse s = true ->
  isWaitingForResponse (step s e) = false <-> settlesChat s e.
Proof.
  intros W.
  assert (Hsend : forall q s', isWaitingForResponse s' = true -> sendMessage q s' = s').
  { intros q s' W'. unfold sendMessage. rewrite W', orb_true_r. reflexivity. }
  assert (Hsub : isWaitingForResponse (onSubmit s) = true).
  { unfold onSubmit. destruct (bool_decide _); [exact W|].
    rewrite Hsend by exact W. exact W. }
  destruct e as [v| |key c sh|q| | |i r|i r]; simpl.
  - rewrite W. split; [discriminate | contradiction].
  - rewrite Hsub. split; [discriminate | contradiction].
  - unfold onKeyDown. destruct (_ || _); rewrite ?Hsub, ?W;
      (split; [discriminate | contradiction]).
  - unfold onSuggestion. destruct q as [[|]|]; rewrite ?Hsend by exact W;
      rewrite W; (split; [discriminate | contradiction]).
  - unfold onReset. destruct (sessionId s); simpl; rewrite W;
      (split; [discriminate | contradiction]).
  - rewrite W. split; [discriminate | contradiction].
  - destruct (pending s !! i) as [[typingEl|typingEl|]|] eqn:Hi.
    + destruct r as [message|[|] status]; simpl.
      * split; [|reflexivity]. intros _. split; [eauto | discriminate].
      * rewrite W. split; [discriminate|]. intros [_ H]. now destruct (H status).
      * split; [|reflexivity]. intros _. split; [eauto | discriminate].
    + rewrite W. split; [discriminate|]. intros [[t [=]] _].
    + simpl. rewrite W. split; [discriminate|]. intros [[t [=]] _].
    + rewrite W. split; [discriminate|]. intros [[t [=]] _].
  - destruct (pending s !! i) as [[typingEl|typingEl|]|] eqn:Hi.
    + rewrite W. split; [discriminate|]. intros [t [=]].
    + destruct r; simpl; (split; [eauto | reflexivity]).
    + rewrite W. split; [discriminate|]. intros [t [=]].
    + rewrite W. split; [discriminate|]. intros [t [=]].
Qed.

Lemma init_flagCountsRequests base ls : flagCountsRequests (init base ls).
Proof. reflexivity. Qed.

(** C4: in every state the page reaches, at most one chat request is in
    flight, and one is exactly while the busy flag is set.  While it is
    set, a submission (form, key, suggestion) issues no request and leaves
    the requests in flight, the transcript and the session as they are;
    and an event clears the flag exactly when it ends the request in
    flight, by a response read to its end or by a failure. *)
Theorem one_chat_request_at_a_time (base : option JSString)
    (ls : gmap string JSString)
    (evs : list Event) :
  outstanding (run (init base ls) evs) <= 1
  /\ (isWaitingForResponse (run (init base ls) evs) = true
      <-> outstanding (run (init base ls) evs) = 1)
  /\ (forall e,
        isWaitingForResponse (run (init base ls) evs) = true -> isSubmission e ->
        network (step (run (init base ls) evs) e) = network (run (init base ls) evs)
        /\ pending (step (run (init base ls) evs) e) = pending (run (init base ls) evs)
        /\ chatBox (step (run (init base ls) evs) e) = chatBox (run (init base ls) evs)
        /\ sessionId (step (run (init base ls) evs) e) = sessionId (run (init base ls) evs)
        /\ isWaitingForResponse (step (run (init base ls) evs) e) = true)
  /\ (forall e,
        isWaitingForResponse (run (init base ls) evs) = true ->
        isWaitingForResponse (step (run (init base ls) evs) e) = false
        <-> settlesChat (run (init base ls) evs) e).
Proof.
  pose proof (run_flagCountsRequests _ evs (init_flagCountsRequests base ls)) as H.
  unfold flagCountsRequests in H.
  split; [|split; [|split]].
  - rewrite H. destruct (isWaitingForResponse _); lia.
  - rewrite H. destruct (isWaitingForResponse _); split; auto; discriminate.
  - intros e W He.
    destruct (submission_while_waiting _ e W He) as (?&?&?&?&?&?). auto.
  - intros e W. now apply flag_cleared_iff_settled.
Qed.

Lemma one_chat_request_at_a_time_witness :
  network (step (run (init None ∅) askedOnce) (ClickSuggestion (Some (lit "Et la laitue ?"))))
    = [ChatRequest (lit "Quel pH pour la tomate ?") []]
  /\ isWaitingForResponse
       (step (run (init None ∅) askedOnce)
          (FetchSettled 0 (FetchRejected (lit "Failed to fetch"))))
     = false.
Proof.
  destruct (one_chat_request_at_a_time None ∅ askedOnce) as (_ & _ & Hsub & Hclr).
  split.
  - destruct (Hsub (ClickSuggestion (Some (lit "Et la laitue ?")))) as (Hn & _);
      [reflexivity | exact I |].
    rewrite Hn. vm_compute. reflexivity.
  - apply Hclr; [reflexivity|].
    split; [exists 1%nat; reflexivity | discriminate].
Defined.

(** *** The session identifier *)

Lemma not_in_delete (l : list Pending) (i : nat) (p : Pending) :
  p ∉ l -> p ∉ delete i l.
Proof.
  intros H Hin. apply H. eapply list_elem_of_delete_inv, Hin.
Qed.

Lemma not_in_snoc (l : list Pending) (p q : Pending) :
  p ∉ l -> p <> q -> p ∉ l ++ [q].
Proof.
  intros H Hne Hin. apply elem_of_app in Hin as [Hin|Hin]; [auto|].
  apply list_elem_of_singleton in Hin. auto.
Qed.

Lemma sendMessage_holdsSession (sid q : JSString) (s : State) :
  holdsSession sid s ->
  holdsSession sid (sendMessage q s)
  /\ exists new, network (sendMessage q s) = network s ++ new
                 /\ Forall (carries sid) new.
Proof.
  intros (Hs & Hl & Hp).
  destruct (sendMessage_cases q s) as [[-> _]|(_ & _ & _ & P & N & S' & L')].
  - split; [repeat split; assumption|]. exists []. rewrite app_nil_r. auto.
  - split.
    + unfold holdsSession, resetPending. rewrite S', L', P.
      repeat split; try assumption. now apply not_in_snoc.
    + exists [ChatRequest q (sessionId s)]. split; [exact N|].
      repeat constructor. exact Hs.
Qed.

Lemma set_inputValue_holdsSession (sid v : JSString) (s : State) :
  holdsSession sid s -> holdsSession sid (set_inputValue v s).
Proof. exact (fun H => H). Qed.

Lemma onSubmit_holdsSession (sid : JSString) (s : State) :
  holdsSession sid s ->
  holdsSession sid (onSubmit s)
  /\ exists new, network (onSubmit s) = network s ++ new
                 /\ Forall (carries sid) new.
Proof.
  intros H. unfold onSubmit. destruct (bool_decide _).
  - split; [exact H|]. exists []. rewrite app_nil_r. auto.
  - apply (sendMessage_holdsSession sid _ (set_inputValue [] s)), H.
Qed.

Lemma step_holdsSession (sid : JSString) (s : State) (e : Event) :
  holdsSession sid s -> keepsSession sid e ->
  holdsSession sid (step s e)
  /\ exists new, network (step s e) = network s ++ new
                 /\ Forall (carries sid) new.
Proof.
  intros H He.
  assert (Hsame : holdsSession sid s
                  /\ exists new, network s = network s ++ new
                                 /\ Forall (carries sid) new).
  { split; [exact H|]. exists []. rewrite app_nil_r. auto. }
  destruct e as [v| |key c sh|q| | |i r|i r]; simpl; try contradiction.
  - exact Hsame.
  - now apply onSubmit_holdsSession.
  - unfold onKeyDown. destruct (_ || _); [now apply onSubmit_holdsSession | exact Hsame].
  - unfold onSuggestion. destruct q as [[|]|]; try exact Hsame.
    now apply sendMessage_holdsSession.
  - destruct H as (Hs & Hl & Hp).
    destruct (pending s !! i) as [[typingEl|typingEl|]|] eqn:Hi; try exact Hsame.
    + split; [|exists []; rewrite app_nil_r; split; [|constructor];
               destruct r as [|[|]]; reflexivity].
      unfold holdsSession, resetPending.
      destruct r as [message|[|] status]; simpl; repeat split; try assumption.
      * now apply not_in_delete.
      * apply not_in_snoc; [now apply not_in_delete | discriminate].
      * now apply not_in_delete.
    + exfalso. apply Hp. eapply list_elem_of_lookup_2, Hi.
  - destruct H as (Hs & Hl & Hp).
    destruct (pending s !! i) as [[typingEl|typingEl|]|] eqn:Hi; try exact Hsame.
    split; [|exists []; rewrite app_nil_r; split; [|constructor];
             destruct r; reflexivity].
    unfold holdsSession, resetPending.
    destruct r as [message|message|data]; simpl.
    + repeat split; try assumption. now apply not_in_delete.
    + repeat split; try assumption. now apply not_in_delete.
    + simpl in He.
      assert (E : match session_id data with
                  | Some (c :: cs) => c :: cs
                  | _ => sessionId s
                  end = sid).
      { destruct He as [-> | [-> | ->]]; try exact Hs.
        destruct sid; [exact Hs | reflexivity]. }
      rewrite E. repeat split.
      * apply lookup_insert_eq.
      * now apply not_in_delete.
Qed.

Lemma run_holdsSession (sid : JSString) (evs : list Event) (s : State) :
  holdsSession sid s -> Forall (keepsSession sid) evs ->
  holdsSession sid (run s evs)
  /\ exists new, network (run s evs) = network s ++ new
                 /\ Forall (carries sid) new.
Proof.
  revert s. induction evs as [|e evs IH]; intros s H Hall; simpl.
  - split; [exact H|]. exists []. rewrite app_nil_r. auto.
  - inversion Hall as [|? ? He Hevs]; subst.
    destruct (step_holdsSession sid s e H He) as (H1 & new1 & N1 & C1).
    destruct (IH _ H1 Hevs) as (H2 & new2 & N2 & C2).
    split; [exact H2|]. exists (new1 ++ new2).
    rewrite N2, N1, app_assoc. split; [reflexivity|].
    apply Forall_app. auto.
Qed.

Lemma init_sessionId (base : option JSString)
    (ls : gmap string JSString) :
  sessionId (init base ls) = default [] (ls !! "hc_session_id"%string).
Proof. reflexivity. Qed.

(** C6, amended: when the body of a chat response carries a non-empty
    [session_id], the page stores it in memory and under [hc_session_id];
    from then on, as long as there is no reset (in flight or new), no
    logout and no response with another non-empty [session_id], the
    identifier stays stored, a reloaded page starts from it, and every
    chat request issued carries it. *)
Theorem session_id_stored_and_replayed (base : option JSString) (s : State)
    (i typingEl : nat) (data : ChatData) (sid : JSString) :
  pending s !! i = Some (AwaitChatJson typingEl) ->
  session_id data = Some sid -> sid <> [] ->
  sessionId (step s (JsonSettled i (JsonData data))) = sid
  /\ localStorage (step s (JsonSettled i (JsonData data))) !! "hc_session_id"%string
     = Some sid
  /\ (~ resetPending s ->
      forall evs, Forall (keepsSession sid) evs ->
        sessionId (run (step s (JsonSettled i (JsonData data))) evs) = sid
        /\ localStorage (run (step s (JsonSettled i (JsonData data))) evs)
             !! "hc_session_id"%string = Some sid
        /\ sessionId (init base (localStorage
                              (run (step s (JsonSettled i (JsonData data))) evs)))
           = sid
        /\ exists new,
             network (run (step s (JsonSettled i (JsonData data))) evs)
             = network (step s (JsonSettled i (JsonData data))) ++ new
             /\ Forall (carries sid) new).
Proof.
  intros Hi Hd Hne.
  assert (H1 : sessionId (step s (JsonSettled i (JsonData data))) = sid
               /\ localStorage (step s (JsonSettled i (JsonData data)))
                    !! "hc_session_id"%string = Some sid).
  { simpl. rewrite Hi. simpl. rewrite Hd.
    destruct sid; [contradiction|]. split; [reflexivity | apply lookup_insert_eq]. }
  destruct H1 as (Hs & Hl). split; [exact Hs|]. split; [exact Hl|].
  intros Hp evs Hevs.
  assert (H1 : holdsSession sid (step s (JsonSettled i (JsonData data)))).
  { repeat split; [exact Hs | exact Hl |].
    simpl. rewrite Hi. unfold resetPending. simpl. now apply not_in_delete. }
  destruct (run_holdsSession sid evs _ H1 Hevs) as ((Hs2 & Hl2 & _) & Hnew).
  split; [exact Hs2|]. split; [exact Hl2|]. split; [|exact Hnew].
  rewrite init_sessionId, Hl2. reflexivity.
Qed.

Lemma session_id_stored_and_replayed_witness :
  sessionId (step (run (init None ∅) (asked "Quel pH pour la tomate ?")) (answered "s-1"))
    = lit "s-1"
  /\ exists new,
       network (run (step (run (init None ∅) (asked "Quel pH pour la tomate ?"))
                       (answered "s-1"))
                  [Edit (lit "Et la laitue ?"); Submit])
       = network (step (run (init None ∅) (asked "Quel pH pour la tomate ?"))
                    (answered "s-1")) ++ new
       /\ Forall (carries (lit "s-1")) new.
Proof.
  destruct (session_id_stored_and_replayed None
              (run (init None ∅) (asked "Quel pH pour la tomate ?")) 0 1
              {| answer := Some (lit "Entre 5.5 et 6.5.");
                 session_id := Some (lit "s-1");
                 faithfulness := VNum (Finite 5); completeness := VNum (Finite 4);
                 decision := VStr (lit "accept"); sources := Some [Finite 12] |}
              (lit "s-1"))
    as (Hs & _ & H).
  - reflexivity.
  - reflexivity.
  - discriminate.
  - split; [exact Hs|].
    destruct (H ltac:(unfold resetPending;
                      replace (pending _) with [AwaitChatJson 1]
                        by (vm_compute; reflexivity);
                      intros [=]%list_elem_of_singleton)
                [Edit (lit "Et la laitue ?"); Submit]) as (_ & _ & _ & Hnew).
    + repeat constructor.
    + exact Hnew.
Defined.

(** C6, as stated, fails: with no reset and no logout, the identifier of
    the first response ([s-1]) is not the one the third request carries,
    because the second response brought another ([s-2]). *)
Lemma session_id_replaced_by_later_response :
  Forall (fun e => e <> ClickReset /\ e <> ClickLogout)
    (asked "Quel pH pour la tomate ?" ++ [answered "s-1"]
     ++ asked "Et la laitue ?" ++ [answered "s-2"]
     ++ [Edit (lit "Et le basilic ?"); Submit])
  /\ network (run (init None ∅)
                (asked "Quel pH pour la tomate ?" ++ [answered "s-1"]
                 ++ asked "Et la laitue ?" ++ [answered "s-2"]
                 ++ [Edit (lit "Et le basilic ?"); Submit]))
     = [ChatRequest (lit "Quel pH pour la tomate ?") [];
        ChatRequest (lit "Et la laitue ?") (lit "s-1");
        ChatRequest (lit "Et le basilic ?") (lit "s-2")]
  /\ lit "s-2" <> lit "s-1".
Proof.
  split; [|split].
  - repeat constructor; discriminate.
  - vm_compute. reflexivity.
  - discriminate.
Qed.

End ChatFacts.

(** ** dashboard.js: the disease-detection page *)

Section DetectionFacts.
Import Detection.

(** *** The size limit *)

Lemma handleImageFile_imagesWithinLimit (f : File) (s : State) :
  imagesWithinLimit s -> imagesWithinLimit (handleImageFile f s).
Proof.
  intros [Hc Hn]. unfold handleImageFile.
  destruct (N.ltb_spec maxImageSize (size f)) as [Hlt|Hle].
  - split; assumption.
  - split; [|exact Hn]. simpl. intros g [= <-]. exact Hle.
Qed.

(** Case analysis on the event, then on what the event finds parked. *)
Ltac by_event e :=
  destruct e as [file|files|i result|i| |date ts| | | |i r|i r|i r|i r]; simpl.

Ltac by_parked H :=
  match goal with
  | |- context [pending ?s !! ?i] =>
      destruct (pending s !! i) as [[]|]; try exact H
  end.

Lemma step_imagesWithinLimit (s : State) (e : Event) :
  imagesWithinLimit s -> imagesWithinLimit (step s e).
Proof.
  intros H. by_event e; try exact H.
  - destruct file as [f|]; [|exact H]. simpl.
    destruct (isImage f); [now apply handleImageFile_imagesWithinLimit | exact H].
  - destruct files as [|f ?]; [exact H|]. simpl.
    destruct (isImage f); [now apply handleImageFile_imagesWithinLimit | exact H].
  - by_parked H.
  - by_parked H.
  - destruct (analyzeBtn_disabled s); [exact H|].
    unfold analyzeImage. destruct (currentImageFile s) as [f|] eqn:Ef; [|exact H].
    destruct H as [Hc Hn]. split.
    + simpl. intros g Hg. apply Hc. congruence.
    + simpl. apply Forall_app. split; [exact Hn|].
      repeat constructor. simpl. now apply Hc.
  - unfold saveReport. destruct (currentImageFile s); [|exact H].
    destruct (loadHistory (localStorage s)); exact H.
  - by_parked H; destruct r as [|[|]]; exact H.
  - by_parked H. destruct r as [| |data]; try exact H. simpl.
    destruct (truthy (model_loaded data)); exact H.
  - by_parked H. destruct r; exact H.
  - by_parked H. destruct r; exact H.
Qed.

Lemma run_imagesWithinLimit (s : State) (evs : list Event) :
  imagesWithinLimit s -> imagesWithinLimit (run s evs).
Proof.
  revert s. induction evs as [|e evs IH]; intros s H; simpl; [exact H|].
  apply IH, step_imagesWithinLimit, H.
Qed.

Lemma init_imagesWithinLimit ls disabled0 panel0 :
  imagesWithinLimit (init ls disabled0 panel0).
Proof.
  unfold init, verifierAuthentification. simpl.
  destruct (ls !! "hydrocare_auth"%string) as [[v|]|];
    [destruct (bool_decide _)| |]; (split; [discriminate | repeat constructor]).
Qed.

(** C3: [handleImageFile] refuses a file over 10 MB: it shows the error,
    leaves the selected image as it was and issues no request, whether it
    is called directly, by the file input or by a drop.  And in every
    state the page reaches, no analysis request carries a file over the
    limit. *)
Theorem oversized_image_rejected (f : File) (s : State) :
  (10 * 1024 * 1024 < size f)%N ->
  (currentImageFile (handleImageFile f s) = currentImageFile s
   /\ network (handleImageFile f s) = network s
   /\ pending (handleImageFile f s) = pending s
   /\ diseaseName (panel (handleImageFile f s)) = lit "Erreur"
   /\ diseaseDescription (panel (handleImageFile f s))
      = lit "L'image est trop volumineuse. Maximum 10MB.")
  /\ step s (SelectImage (Some f)) = (if isImage f then handleImageFile f s else s)
  /\ (forall rest, step s (DropFiles (f :: rest))
                   = (if isImage f then handleImageFile f s else s))
  /\ (forall ls disabled0 panel0 evs,
        AnalyzeRequest f ∉ network (run (init ls disabled0 panel0) evs)).
Proof.
  intros Hf. change (maxImageSize < size f)%N in Hf.
  split; [|split; [reflexivity|split; [reflexivity|]]].
  - unfold handleImageFile. rewrite (proj2 (N.ltb_lt _ _) Hf). repeat split.
  - intros ls disabled0 panel0 evs Hin.
    pose proof (run_imagesWithinLimit _ evs (init_imagesWithinLimit ls disabled0 panel0))
      as [_ Hn].
    rewrite Forall_forall in Hn. apply Hn in Hin. simpl in Hin. lia.
Qed.

Lemma oversized_image_rejected_witness :
  currentImageFile (handleImageFile (photo 10485761) (init loggedIn true blankPanel))
    = None
  /\ network (handleImageFile (photo 10485761) (init loggedIn true blankPanel))
     = [HealthRequest].
Proof.
  destruct (oversized_image_rejected (photo 10485761) (init loggedIn true blankPanel))
    as ((Hc & Hn & _) & _).
  - reflexivity.
  - rewrite Hc, Hn. split; reflexivity.
Defined.

(** *** The history of reports *)

Example formatDiseaseName_underscores :
  formatDiseaseName (lit "Tomato_Early_blight") = lit "Tomato  Early blight".
Proof. reflexivity. Qed.

Example formatDiseaseName_bell :
  formatDiseaseName (lit "Pepper__bell___healthy") = lit "Pepper  bell    healthy".
Proof. reflexivity. Qed.

Lemma loadHistory_insert (ls : gmap string Stored) (h : list Entry) :
  loadHistory (<["hc_analysis_history"%string := JsonArray h]> ls) = Some h.
Proof. unfold loadHistory. rewrite lookup_insert_eq. reflexivity. Qed.

Lemma saveReport_historyCapped date ts (s : State) :
  historyCapped (localStorage s) ->
  historyCapped (localStorage (saveReport date ts s)).
Proof.
  intros H. unfold saveReport.
  destruct (currentImageFile s); [|exact H].
  destruct (loadHistory (localStorage s)) as [h|]; [|exact H].
  simpl. eexists. split; [apply loadHistory_insert|].
  unfold slice10. rewrite length_firstn. lia.
Qed.

Lemma step_historyCapped (s : State) (e : Event) :
  historyCapped (localStorage s) -> historyCapped (localStorage (step s e)).
Proof.
  intros H. by_event e; try exact H.
  - destruct file as [f|]; [|exact H]. simpl. unfold handleImageFile.
    destruct (isImage f); [|exact H]. destruct (_ <? _)%N; exact H.
  - destruct files as [|f ?]; [exact H|]. simpl. unfold handleImageFile.
    destruct (isImage f); [|exact H]. destruct (_ <? _)%N; exact H.
  - by_parked H.
  - by_parked H.
  - destruct (analyzeBtn_disabled s); [exact H|].
    unfold analyzeImage. destruct (currentImageFile s); exact H.
  - now apply saveReport_historyCapped.
  - destruct H as (h & Hh & Hl). exists h. split; [|exact Hl].
    unfold loadHistory in *. rewrite !lookup_delete_ne by discriminate. exact Hh.
  - by_parked H; destruct r as [|[|]]; exact H.
  - by_parked H. destruct r as [| |data]; try exact H. simpl.
    destruct (truthy (model_loaded data)); exact H.
  - by_parked H. destruct r; exact H.
  - by_parked H. destruct r; exact H.
Qed.

Lemma run_historyCapped (s : State) (evs : list Event) :
  historyCapped (localStorage s) -> historyCapped (localStorage (run s evs)).
Proof.
  revert s. induction evs as [|e evs IH]; intros s H; simpl; [exact H|].
  apply IH, step_historyCapped, H.
Qed.

Lemma init_localStorage ls disabled0 panel0 :
  localStorage (init ls disabled0 panel0) = ls.
Proof.
  unfold init, verifierAuthentification. simpl.
  destruct (ls !! "hydrocare_auth"%string) as [[v|]|];
    [destruct (bool_decide _)| |]; reflexivity.
Qed.

(** C5: a call of [saveReport] with an image selected stores the new
    report first, followed by the previous entries, cut to ten: an
    eleventh report pushes the oldest entry out.  A call without an image
    stores nothing.  So from a storage whose history has at most ten
    entries (or none yet), the stored history has at most ten entries
    after every call, whatever else happens on the page. *)
Theorem saveReport_keeps_ten_most_recent (date : JSString) (timestamp : N)
    (s : State) :
  (forall f h,
     currentImageFile s = Some f -> loadHistory (localStorage s) = Some h ->
     loadHistory (localStorage (saveReport date timestamp s))
       = Some (firstn 10 (Saved (reportOf date timestamp f s) :: h))
     /\ length (firstn 10 (Saved (reportOf date timestamp f s) :: h)) <= 10
     /\ head (firstn 10 (Saved (reportOf date timestamp f s) :: h))
        = Some (Saved (reportOf date timestamp f s))
     /\ (length h = 10 ->
         firstn 10 (Saved (reportOf date timestamp f s) :: h)
         = Saved (reportOf date timestamp f s) :: removelast h))
  /\ (currentImageFile s = None -> saveReport date timestamp s = s)
  /\ (forall ls disabled0 panel0 evs,
        historyCapped ls ->
        historyCapped
          (localStorage (step (run (init ls disabled0 panel0) evs)
                           (ClickSave date timestamp)))).
Proof.
  split; [|split].
  - intros f h Hf Hh. unfold saveReport. rewrite Hf, Hh. simpl.
    split; [apply loadHistory_insert|]. split; [|split; [reflexivity|]].
    + rewrite length_firstn. lia.
    + intros Hl. simpl. f_equal. rewrite removelast_firstn_len, Hl. reflexivity.
  - intros Hf. unfold saveReport. rewrite Hf. reflexivity.
  - intros ls disabled0 panel0 evs H.
    apply step_historyCapped, run_historyCapped.
    rewrite init_localStorage. exact H.
Qed.

Lemma saveReport_keeps_ten_most_recent_witness :
  timestamps (localStorage (saveReport (lit "02/11/2026") 11 (run selected (saves 10))))
  = [11; 10; 9; 8; 7; 6; 5; 4; 3; 2]%N.
Proof.
  destruct (saveReport_keeps_ten_most_recent (lit "02/11/2026") 11
              (run selected (saves 10))) as (H & _).
  destruct (H (photo 2048)
              (default [] (loadHistory (localStorage (run selected (saves 10))))))
    as (E & _).
  - vm_compute. reflexivity.
  - vm_compute. reflexivity.
  - unfold timestamps. rewrite E. vm_compute. reflexivity.
Defined.

(** *** The health check *)

(** A failed health check disables the analysis button. *)
Lemma health_failure_disables_button (s : State) (e : Event) :
  healthFailure s e -> analyzeBtn_disabled (step s e) = true.
Proof.
  by_event e; try contradiction; intros [Hi Hr]; rewrite Hi.
  - destruct r as [|[|] status]; try reflexivity. now destruct (Hr status).
  - destruct r as [| |data]; try reflexivity. simpl.
    rewrite (Hr data eq_refl). reflexivity.
Qed.

(** C9, on the trace that breaks it: the health request is rejected and
    the button is disabled; the user then selects an image, the preview
    loads and enables the button again, and a click sends the analysis
    request although the backend was found unavailable. *)
Theorem analyze_request_after_failed_health_check :
  analyzeBtn_disabled afterFailedHealthCheck = true
  /\ analyzeBtn_disabled
       (run afterFailedHealthCheck
          [SelectImage (Some (photo 2048));
           ReaderLoaded 0 (lit "data:image/jpeg;base64,AA")]) = false
  /\ network
       (run afterFailedHealthCheck
          [SelectImage (Some (photo 2048));
           ReaderLoaded 0 (lit "data:image/jpeg;base64,AA");
           ClickAnalyze])
     = [HealthRequest; AnalyzeRequest (photo 2048)].
Proof.
  split; [apply health_failure_disables_button; split; [reflexivity | discriminate]|].
  split; vm_compute; reflexivity.
Qed.

End DetectionFacts.

(** ** parametres.js *)

Section ParametresFacts.
Import Parametres.

Lemma num_lt_Finite (x y : Q) :
  num_lt (Finite x) (Finite y) = true <-> (x < y)%Q.
Proof.
  simpl. rewrite negb_true_iff.
  split.
  - intros H. apply Qnot_le_lt. intros Hle.
    apply Qle_bool_iff in Hle. congruence.
  - intros H. destruct (Qle_bool y x) eqn:E; [|reflexivity].
    apply Qle_bool_iff in E. exfalso. exact (Qlt_not_le _ _ H E).
Qed.

Lemma num_lt_Finite_false (x y : Q) :
  num_lt (Finite x) (Finite y) = false <-> (y <= x)%Q.
Proof.
  simpl. rewrite negb_false_iff. apply Qle_bool_iff.
Qed.

(** The three-way test shared by the three analyses answers "neither below
    nor above" exactly on the values within the range, NaN apart. *)
Lemma neither_below_nor_above (v : JSNumber) (r : Range) :
  isNumber v ->
  (num_lt v (Finite (min r)) = false /\ num_gt v (Finite (max r)) = false)
  <-> within v r.
Proof.
  intros Hv. unfold num_gt. destruct v as [| |q|]; simpl within.
  - now destruct Hv.
  - simpl. split; [intros [? ?]; discriminate | tauto].
  - rewrite !num_lt_Finite_false. tauto.
  - simpl. split; [intros [? ?]; discriminate | tauto].
Qed.

Lemma analysePH_success (m : Mesure) (p : Plant) :
  isNumber (phMesure m) ->
  type (fst (analysePH m p)) = success <-> within (phMesure m) (pH_optimal p).
Proof.
  intros Hv. rewrite <- (neither_below_nor_above _ _ Hv).
  unfold analysePH.
  destruct (num_lt (phMesure m) _); [simpl; split; [discriminate|intros [? _]; discriminate]|].
  destruct (num_gt (phMesure m) _); simpl; split; try discriminate; auto.
  intros [_ ?]; discriminate.
Qed.

Lemma analyseOxygene_success (m : Mesure) :
  isNumber (oxygeneMesure m) ->
  type (fst (analyseOxygene m)) = success <-> within (oxygeneMesure m) oxygeneOptimal.
Proof.
  intros Hv. rewrite <- (neither_below_nor_above _ _ Hv).
  unfold analyseOxygene.
  destruct (num_lt (oxygeneMesure m) _); [simpl; split; [discriminate|intros [? _]; discriminate]|].
  destruct (num_gt (oxygeneMesure m) _); simpl; split; try discriminate; auto.
  intros [_ ?]; discriminate.
Qed.

Lemma analyseTemperature_success (m : Mesure) (p : Plant) :
  isNumber (temperatureEau m) ->
  type (fst (analyseTemperature m p)) = success
  <-> within (temperatureEau m) (temperature_optimal p).
Proof.
  intros Hv. rewrite <- (neither_below_nor_above _ _ Hv).
  unfold analyseTemperature.
  destruct (num_lt (temperatureEau m) _); [simpl; split; [discriminate|intros [? _]; discriminate]|].
  destruct (num_gt (temperatureEau m) _); simpl; split; try discriminate; auto.
  intros [_ ?]; discriminate.
Qed.

(** On every measurement whose three readings are numbers and whose plant
    type is in the database, the analysis returns three alerts, for pH,
    oxygen and temperature in this order; each is [success] exactly when
    its reading lies within its range, and the global status is [critique]
    with a critical alert, else [alerte] with a warning, else [optimal]. *)
Theorem analyserParametresPlante_numbers (m : Mesure) (p : Plant) :
  PLANT_DATABASE !! planteType m = Some p ->
  isNumber (phMesure m) -> isNumber (oxygeneMesure m) ->
  isNumber (temperatureEau m) ->
  exists a1 a2 a3 recs,
    analyserParametresPlante m =
      Some {| alertes := [a1; a2; a3]; recommandations := recs;
              statutGlobal := statutOf [a1; a2; a3]; plante := p |}
    /\ parametre a1 = "pH"%string /\ parametre a2 = "oxygene"%string
    /\ parametre a3 = "temperature"%string
    /\ (type a1 = success <-> within (phMesure m) (pH_optimal p))
    /\ (type a2 = success <-> within (oxygeneMesure m) oxygeneOptimal)
    /\ (type a3 = success <-> within (temperatureEau m) (temperature_optimal p)).
Proof.
  intros Hp H1 H2 H3.
  unfold analyserParametresPlante. rewrite Hp. clear Hp.
  pose proof (analysePH_success m p H1) as E1.
  pose proof (analyseOxygene_success m H2) as E2.
  pose proof (analyseTemperature_success m p H3) as E3.
  assert (P1 : parametre (fst (analysePH m p)) = "pH"%string).
  { unfold analysePH. destruct (num_lt _ _); [reflexivity|].
    destruct (num_gt _ _); reflexivity. }
  assert (P2 : parametre (fst (analyseOxygene m)) = "oxygene"%string).
  { unfold analyseOxygene. destruct (num_lt _ _); [reflexivity|].
    destruct (num_gt _ _); reflexivity. }
  assert (P3 : parametre (fst (analyseTemperature m p)) = "temperature"%string).
  { unfold analyseTemperature. destruct (num_lt _ _); [reflexivity|].
    destruct (num_gt _ _); reflexivity. }
  destruct (analysePH m p) as [a1 r1], (analyseOxygene m) as [a2 r2],
    (analyseTemperature m p) as [a3 r3].
  cbn [fst] in E1, E2, E3, P1, P2, P3.
  exists a1, a2, a3, (r1 ++ r2 ++ r3).
  split; [|tauto].
  f_equal. f_equal.
  destruct a1 as [[] ? ?], a2 as [[] ? ?], a3 as [[] ? ?]; reflexivity.
Qed.

Lemma analyserParametresPlante_numbers_witness :
  exists a1 a2 a3,
    alertes <$> analyserParametresPlante
                  (mesure_tomate (Finite 6.0) (Finite 4.0) (Finite 30))
      = Some [a1; a2; a3]
    /\ (type a1 = success <-> within (Finite 6.0) {| min := 5.5; max := 6.5 |}).
Proof.
  destruct (analyserParametresPlante_numbers
              (mesure_tomate (Finite 6.0) (Finite 4.0) (Finite 30))
              {| nom := "Tomate"; pH_optimal := {| min := 5.5; max := 6.5 |};
                 ec_optimal := {| min := 2.0; max := 5.0 |};
                 ppm_optimal := {| min := 1000; max := 2500 |};
                 temperature_optimal := {| min := 18; max := 24 |} |})
    as (a1 & a2 & a3 & recs & E & _ & _ & _ & Hph & _).
  - vm_compute. reflexivity.
  - discriminate.
  - discriminate.
  - discriminate.
  - exists a1, a2, a3. rewrite E. split; [reflexivity | exact Hph].
Defined.

Example analyse_tomate_low_oxygen :
  (fun a => (map type (alertes a), recommandations a, statutGlobal a))
    <$> analyserParametresPlante (mesure_tomate (Finite 7.0) (Finite 4.0) (Finite 18))
  = Some ([warning; critical; success], [DiminuerPH; AugmenterOxygenation], critique).
Proof. vm_compute. reflexivity. Qed.

Example analyse_unknown_plant :
  analyserParametresPlante
    {| systemeNom := []; planteType := "menthe"; tailleBac := Finite 10;
       nombrePlantes := Finite 2; phMesure := Finite 6.0;
       oxygeneMesure := Finite 6.0; temperatureEau := Finite 20; notes := [] |}
  = None.
Proof. vm_compute. reflexivity. Qed.

(** The bound [5.8] of the script is the double nearest to it, a little
    below; a reading of that very value is within the range. *)
Example double_5_8 :
  double 5.8 = (6530219459687219 # 1125899906842624)%Q
  /\ double 5.5 = 5.5%Q.
Proof. split; vm_compute; reflexivity. Qed.

Example analyse_poivron_at_lower_bound :
  (fun a => map type (alertes a))
    <$> analyserParametresPlante
          {| systemeNom := []; planteType := "poivron"; tailleBac := Finite 10;
             nombrePlantes := Finite 2;
             phMesure := Finite (6530219459687219 # 1125899906842624);
             oxygeneMesure := Finite 6.0; temperatureEau := Finite 20;
             notes := [] |}
  = Some [success; success; success].
Proof. vm_compute. reflexivity. Qed.

(** C10, at the reading the analysis misses: with a pH that is not a
    number (the [parseFloat] of an empty field) and the other two readings
    in range, the pH alert is [success] and the status [optimal], although
    the value is not within the range. *)
Theorem analyserParametresPlante_NaN_pH :
  (fun a => map type (alertes a))
    <$> analyserParametresPlante (mesure_tomate NaN (Finite 6.0) (Finite 20))
    = Some [success; success; success]
  /\ statutGlobal <$> analyserParametresPlante
                        (mesure_tomate NaN (Finite 6.0) (Finite 20))
     = Some optimal
  /\ ~ within NaN {| min := 5.5; max := 6.5 |}.
Proof.
  split; [vm_compute; reflexivity|].
  split; [vm_compute; reflexivity|].
  simpl. tauto.
Qed.

End ParametresFacts.

(** ** JS strings: trimming *)

Section TrimProperties.

Lemma trimStart_startsClean (s : JSString) : startsClean (trimStart s).
Proof.
  induction s as [|c s IH]; simpl; [exact I|].
  destruct (isWhiteSpace c) eqn:E; [exact IH | exact E].
Qed.

Lemma trimStart_clean (s : JSString) : startsClean s -> trimStart s = s.
Proof. destruct s as [|c s]; simpl; [reflexivity|]. now intros ->. Qed.

Lemma trimStart_snoc (s : JSString) (c : N) :
  isWhiteSpace c = false -> trimStart (s ++ [c]) = trimStart s ++ [c].
Proof.
  intros Hc. induction s as [|d s IH]; simpl.
  - now rewrite Hc.
  - destruct (isWhiteSpace d); [exact IH | reflexivity].
Qed.

Lemma trimEnd_cons (c : N) (s : JSString) :
  isWhiteSpace c = false -> trimEnd (c :: s) = c :: trimEnd s.
Proof.
  intros Hc. unfold trimEnd. simpl.
  rewrite trimStart_snoc by exact Hc. rewrite rev_app_distr. reflexivity.
Qed.

Lemma trimEnd_startsClean (s : JSString) : startsClean s -> startsClean (trimEnd s).
Proof.
  destruct s as [|c s]; [intros _; exact I|]. simpl. intros Hc.
  rewrite trimEnd_cons by exact Hc. exact Hc.
Qed.

Lemma trimEnd_endsClean (s : JSString) : endsClean (trimEnd s).
Proof. unfold endsClean, trimEnd. rewrite rev_involutive. apply trimStart_startsClean. Qed.

Lemma trimEnd_clean (s : JSString) : endsClean s -> trimEnd s = s.
Proof.
  unfold endsClean, trimEnd. intros H. rewrite trimStart_clean by exact H.
  apply rev_involutive.
Qed.

Lemma trim_startsClean (s : JSString) : startsClean (trim s).
Proof. apply trimEnd_startsClean, trimStart_startsClean. Qed.

Lemma trim_endsClean (s : JSString) : endsClean (trim s).
Proof. apply trimEnd_endsClean. Qed.

(** Trimming a trimmed string changes nothing. *)
Lemma trim_idempotent (s : JSString) : trim (trim s) = trim s.
Proof.
  unfold trim at 1. rewrite trimStart_clean by apply trim_startsClean.
  apply trimEnd_clean, trim_endsClean.
Qed.

(** What [trimStart] removes is white space, and it removes no [@]. *)
Lemma trimStart_split (s : JSString) :
  exists ws, s = ws ++ trimStart s /\ Forall (fun c => isWhiteSpace c = true) ws.
Proof.
  induction s as [|c s (ws & E & F)]; [exists []; split; [reflexivity|constructor]|].
  simpl. destruct (isWhiteSpace c) eqn:Ec.
  - exists (c :: ws). split; [simpl; congruence | now constructor].
  - exists []. split; [reflexivity | constructor].
Qed.

Lemma trimEnd_split (s : JSString) :
  exists ws, s = trimEnd s ++ ws /\ Forall (fun c => isWhiteSpace c = true) ws.
Proof.
  destruct (trimStart_split (rev s)) as (ws & E & F).
  exists (rev ws). split.
  - unfold trimEnd. rewrite <- rev_app_distr, <- E. symmetry. apply rev_involutive.
  - apply Forall_rev. exact F.
Qed.

(** A string is its trimmed part between two runs of white space. *)
Lemma trim_split (s : JSString) :
  exists before after,
    s = before ++ trim s ++ after
    /\ Forall (fun c => isWhiteSpace c = true) before
    /\ Forall (fun c => isWhiteSpace c = true) after.
Proof.
  destruct (trimStart_split s) as (before & E1 & F1).
  destruct (trimEnd_split (trimStart s)) as (after & E2 & F2).
  exists before, after. unfold trim. rewrite <- E2. auto.
Qed.

End TrimProperties.

(** ** app.js: the chatbot page, requests and session *)

Section ChatRequestsProperties.
Import Chat.

(** *** What goes to the server *)

Lemma step_network (s : State) (e : Event) :
  exists new, network (step s e) = network s ++ new /\ Forall worthSending new.
Proof.
  assert (Hsame : forall s' : State, network s' = network s ->
            exists new, network s' = network s ++ new /\ Forall worthSending new).
  { intros s' ->. exists []. rewrite app_nil_r. auto. }
  assert (Hsend : forall q s', network s' = network s ->
            exists new, network (sendMessage q s') = network s ++ new
                        /\ Forall worthSending new).
  { intros q s' E.
    destruct (sendMessage_cases q s') as [[-> _]|(Hq & _ & _ & _ & N & _)].
    - now apply Hsame.
    - rewrite N, E. eexists. split; [reflexivity|]. repeat constructor. exact Hq. }
  assert (Hsub : exists new, network (onSubmit s) = network s ++ new
                             /\ Forall worthSending new).
  { unfold onSubmit. destruct (bool_decide _); [now apply Hsame|].
    now apply Hsend. }
  destruct e as [v| |key c sh|q| | |i r|i r]; simpl.
  - now apply Hsame.
  - exact Hsub.
  - unfold onKeyDown. destruct (_ || _); [exact Hsub | now apply Hsame].
  - unfold onSuggestion. destruct q as [[|]|]; try now apply Hsame.
    now apply Hsend.
  - unfold onReset. destruct (sessionId s) eqn:E; [now apply Hsame|].
    simpl. eexists. split; [reflexivity|]. repeat constructor. discriminate.
  - now apply Hsame.
  - destruct (pending s !! i) as [[typingEl|typingEl|]|]; try now apply Hsame.
    destruct r as [|[|]]; now apply Hsame.
  - destruct (pending s !! i) as [[typingEl|typingEl|]|]; try now apply Hsame.
    destruct r; now apply Hsame.
Qed.

(** X1: every request the page ever issues is worth sending: no chat
    request carries a blank question and no reset request an empty
    session identifier; and requests already issued are never dropped
    from the log or changed. *)
Theorem requests_are_never_blank (base : option JSString)
    (ls : gmap string JSString) (evs : list Event) :
  Forall worthSending (network (run (init base ls) evs))
  /\ (forall e, exists new,
        network (step (run (init base ls) evs) e) = network (run (init base ls) evs) ++ new
        /\ Forall worthSending new).
Proof.
  split; [|intros e; apply step_network].
  assert (H : forall s, Forall worthSending (network s) ->
                        Forall worthSending (network (run s evs))).
  { induction evs as [|e evs IH]; intros s Hs; simpl; [exact Hs|].
    apply IH. destruct (step_network s e) as (new & -> & Hnew).
    apply Forall_app. auto. }
  apply H. constructor.
Qed.

(** *** The session across a reload *)

Lemma sendMessage_reloadResumes (q : JSString) (s : State) :
  reloadResumes s -> reloadResumes (sendMessage q s).
Proof.
  unfold reloadResumes. rewrite !init_sessionId. intros H.
  destruct (sendMessage_cases q s) as [[-> _]|(_ & _ & _ & _ & _ & -> & ->)];
    exact H.
Qed.

Lemma onReset_cases (s : State) :
  onReset s = resetLocally s
  \/ (sessionId (onReset s) = sessionId s
      /\ localStorage (onReset s) = localStorage s).
Proof.
  unfold onReset. destruct (sessionId s) eqn:E; [now left|].
  right. split; [exact E | reflexivity].
Qed.

Lemma step_reloadResumes (s : State) (e : Event) :
  e <> ClickLogout -> reloadResumes s -> reloadResumes (step s e).
Proof.
  intros He H.
  assert (Hreset : forall s', reloadResumes (resetLocally s')).
  { intros s'. unfold reloadResumes. rewrite init_sessionId. simpl.
    now rewrite lookup_delete_eq. }
  destruct e as [v| |key c sh|q| | |i r|i r]; simpl; try congruence.
  - exact H.
  - unfold onSubmit. destruct (bool_decide _); [exact H|].
    now apply sendMessage_reloadResumes.
  - unfold onKeyDown, onSubmit. destruct (_ || _); [|exact H].
    destruct (bool_decide _); [exact H|]. now apply sendMessage_reloadResumes.
  - unfold onSuggestion. destruct q as [[|]|]; try exact H.
    now apply sendMessage_reloadResumes.
  - destruct (onReset_cases s) as [->|[E1 E2]]; [apply Hreset|].
    unfold reloadResumes in *. rewrite init_sessionId in *. now rewrite E1, E2.
  - destruct (pending s !! i) as [[typingEl|typingEl|]|]; try exact H.
    + destruct r as [|[|]]; exact H.
    + apply Hreset.
  - destruct (pending s !! i) as [[typingEl|typingEl|]|]; try exact H.
    destruct r as [| |data]; try exact H.
    unfold reloadResumes. rewrite init_sessionId. simpl.
    now rewrite lookup_insert_eq.
Qed.

(** X2: as long as the user does not log out, the session in memory is the
    one a reload of the page would start from: the identifier under
    [hc_session_id], or none when the key is absent. *)
Theorem reload_resumes_session (base : option JSString)
    (ls : gmap string JSString) (evs : list Event) :
  Forall (fun e => e <> ClickLogout) evs ->
  sessionId (init base (localStorage (run (init base ls) evs)))
  = sessionId (run (init base ls) evs).
Proof.
  intros Hevs.
  assert (H : forall s, reloadResumes s -> reloadResumes (run s evs)).
  { induction Hevs as [|e evs He _ IH]; intros s Hs; simpl; [exact Hs|].
    apply IH, step_reloadResumes; assumption. }
  apply H. unfold reloadResumes. rewrite !init_sessionId. simpl.
  destruct (ls !! "hc_session_id"%string); reflexivity.
Qed.

Lemma reload_resumes_session_witness :
  sessionId (init None (localStorage
                     (run (init None ∅) (asked "Quel pH pour la tomate ?" ++ [answered "s-1"]))))
  = sessionId (run (init None ∅) (asked "Quel pH pour la tomate ?" ++ [answered "s-1"])).
Proof.
  apply reload_resumes_session. repeat constructor; discriminate.
Defined.

(** X3: a logout forgets the session for the next visit: the three keys
    are gone from the storage, so a page loaded afterwards starts with no
    session identifier, whatever the page held; the page that logs out
    leaves for the index. *)
Theorem logout_forgets_session (base : option JSString) (s : State) :
  sessionId (init base (localStorage (step s ClickLogout))) = []
  /\ localStorage (step s ClickLogout) !! "hydrocare_auth"%string = None
  /\ localStorage (step s ClickLogout) !! "hydrocare_user"%string = None
  /\ location (step s ClickLogout) = Some "./index.html"%string
  /\ (forall k, k <> "hydrocare_auth"%string -> k <> "hydrocare_user"%string ->
                k <> "hc_session_id"%string ->
                localStorage (step s ClickLogout) !! k = localStorage s !! k).
Proof.
  rewrite init_sessionId. simpl.
  rewrite lookup_delete_eq.
  rewrite !(lookup_delete_ne _ "hc_session_id"%string) by discriminate.
  rewrite (lookup_delete_ne _ "hydrocare_user"%string "hydrocare_auth"%string)
    by discriminate.
  rewrite !lookup_delete_eq. repeat split.
  intros k H1 H2 H3. now rewrite !lookup_delete_ne by congruence.
Qed.

End ChatRequestsProperties.

(** ** app.js: the chatbot page, the transcript *)

Section ChatTranscriptProperties.
Import Chat.

(** *** The transcript *)

Lemma typingEls_length (s : State) : length (typingEls s) = outstanding s.
Proof.
  unfold typingEls, outstanding. induction (pending s) as [|[]]; simpl; auto.
Qed.

Lemma omap_typingElOf_delete_chat (l : list Pending) (i t : nat) (p : Pending) :
  l !! i = Some p -> typingElOf p = Some t ->
  Forall (fun x => x ∈ omap typingElOf l) (omap typingElOf (delete i l))
  /\ (forall x, x <> t -> x ∈ omap typingElOf l -> x ∈ omap typingElOf (delete i l)).
Proof.
  revert i. induction l as [|a l IH]; intros [|i] Hi Hp; try discriminate.
  - injection Hi as ->. simpl. rewrite Hp. split.
    + apply Forall_forall. intros x Hx. now apply list_elem_of_further.
    + intros x Hne Hx. apply elem_of_cons in Hx as [->|Hx]; [contradiction|exact Hx].
  - simpl in Hi. destruct (IH i Hi Hp) as [IH1 IH2]. simpl.
    destruct (typingElOf a) as [u|]; [|split; assumption]. split.
    + constructor; [apply list_elem_of_here|].
      eapply Forall_impl; [exact IH1|]. intros x Hx. now apply list_elem_of_further.
    + intros x Hne Hx. apply elem_of_cons in Hx as [->|Hx];
        [apply list_elem_of_here | apply list_elem_of_further; auto].
Qed.

Lemma omap_typingElOf_delete_reset (l : list Pending) (i : nat) :
  l !! i = Some AwaitResetFetch ->
  omap typingElOf (delete i l) = omap typingElOf l.
Proof.
  revert i. induction l as [|a l IH]; intros [|i] Hi; try discriminate.
  - now injection Hi as ->.
  - simpl in Hi. simpl. destruct (typingElOf a); [f_equal|]; apply (IH i Hi).
Qed.

Lemma omap_typingElOf_snoc (l : list Pending) (p : Pending) :
  omap typingElOf (l ++ [p])
  = omap typingElOf l ++ match typingElOf p with Some t => [t] | None => [] end.
Proof. rewrite omap_app. simpl. destruct (typingElOf p); reflexivity. Qed.

Lemma omap_cons_eq {A B} (f : A -> option B) (a : A) (l : list A) :
  omap f (a :: l) = match f a with Some y => y :: omap f l | None => omap f l end.
Proof. reflexivity. Qed.

(** Removing an element that only typing indicators bear keeps the
    messages. *)
Lemma omap_messages_filter (l : list Node) (t : nat) :
  Forall (fun n => node_id n = t -> isTyping n = true) l ->
  omap (fun n => match kind n with Msg m => Some m | Typing => None end)
    (filter (fun n => node_id n <> t) l)
  = omap (fun n => match kind n with Msg m => Some m | Typing => None end) l.
Proof.
  induction 1 as [|n l Hn _ IH]; [reflexivity|].
  rewrite filter_cons. destruct (decide (node_id n <> t)) as [Hne|He].
  - rewrite !omap_cons_eq, IH. reflexivity.
  - rewrite omap_cons_eq, IH.
    assert (E : node_id n = t) by (destruct (decide (node_id n = t)); tauto).
    apply Hn in E. unfold isTyping in E. destruct (kind n); [discriminate | reflexivity].
Qed.

(** The well-formedness of the transcript after a handler that removes the
    typing indicator [t] of the handler just resumed, appends one message
    and leaves [pend] parked. *)
Lemma wellFormed_after_answer (s : State) (i t : nat) (p : Pending)
    (m : Message) :
  transcriptWellFormed s ->
  pending s !! i = Some p -> typingElOf p = Some t ->
  NoDup (node_id <$> (filter (fun n => node_id n <> t) (chatBox s)
                      ++ [{| node_id := fresh s; kind := Msg m |}]))
  /\ Forall (fun n => node_id n < S (fresh s))
       (filter (fun n => node_id n <> t) (chatBox s)
        ++ [{| node_id := fresh s; kind := Msg m |}])
  /\ Forall (fun u => u < S (fresh s)) (omap typingElOf (delete i (pending s)))
  /\ Forall (fun n => isTyping n = true
                      <-> node_id n ∈ omap typingElOf (delete i (pending s)))
       (filter (fun n => node_id n <> t) (chatBox s)
        ++ [{| node_id := fresh s; kind := Msg m |}]).
Proof.
  intros (Hnd & Hlt & Htl & Hty) Hi Hp.
  destruct (omap_typingElOf_delete_chat _ _ _ _ Hi Hp) as [Hsub Hkeep].
  assert (Htl' : Forall (fun u => u < fresh s) (omap typingElOf (delete i (pending s)))).
  { rewrite Forall_forall in *. intros u Hu. apply Htl, Hsub, Hu. }
  assert (Hfl : Forall (fun n => node_id n < fresh s)
                  (filter (fun n => node_id n <> t) (chatBox s))).
  { rewrite Forall_forall in *. intros n Hn.
    apply list_elem_of_filter in Hn as [_ Hn]. auto. }
  repeat split.
  - rewrite fmap_app. apply NoDup_app. split; [|split].
    + eapply sublist_NoDup; [exact Hnd|]. apply fmap_sublist, sublist_filter.
    + intros x Hx Hx'. apply list_elem_of_singleton in Hx'. simpl in Hx'. subst x.
      apply list_elem_of_fmap in Hx as (n & E & Hn).
      rewrite Forall_forall in Hfl. apply Hfl in Hn. lia.
    + apply NoDup_singleton.
  - apply Forall_app. split.
    + eapply Forall_impl; [exact Hfl|]. intros; simpl in *; lia.
    + repeat constructor.
  - eapply Forall_impl; [exact Htl'|]. intros; simpl in *; lia.
  - apply Forall_app. split.
    + rewrite Forall_forall in *. intros n Hn.
      apply list_elem_of_filter in Hn as [Hne Hn]. rewrite (Hty n Hn). split.
      * intros Hx. now apply Hkeep.
      * intros Hx. exact (proj1 (Forall_forall _ _) Hsub _ Hx).
    + apply Forall_singleton. simpl. split; [discriminate|].
      intros Hin. rewrite Forall_forall in Htl'. apply Htl' in Hin. lia.
Qed.

Lemma sendMessage_sends (q : JSString) (s : State) :
  trim q <> [] -> isWaitingForResponse s = false ->
  sendMessage q s
  = {| sessionId := sessionId s; isWaitingForResponse := true;
       inputValue := inputValue s; inputDisabled := true;
       chatBox := (chatBox s
                   ++ [{| node_id := fresh s;
                          kind := Msg (renderMessage user q noMetadata) |}])
                  ++ [{| node_id := S (fresh s); kind := Typing |}];
       localStorage := localStorage s; fresh := S (S (fresh s));
       pending := pending s ++ [AwaitChatFetch (S (fresh s))];
       network := network s ++ [ChatRequest q (sessionId s)];
       location := location s; API_BASE := API_BASE s |}.
Proof.
  intros Hq W. unfold sendMessage.
  rewrite bool_decide_eq_false_2 by exact Hq. rewrite W. reflexivity.
Qed.

Lemma sendMessage_wellFormed (q : JSString) (s : State) :
  transcriptWellFormed s -> transcriptWellFormed (sendMessage q s).
Proof.
  intros H.
  destruct (sendMessage_cases q s) as [[-> _]|(Hq & W & _)]; [exact H|].
  rewrite (sendMessage_sends q s Hq W).
  destruct H as (Hnd & Hlt & Htl & Hty).
  unfold transcriptWellFormed, typingEls. simpl.
  rewrite omap_typingElOf_snoc. simpl.
  assert (Hfresh : forall x, x ∈ node_id <$> chatBox s -> x < fresh s).
  { intros x Hx. apply list_elem_of_fmap in Hx as (n & -> & Hn).
    rewrite Forall_forall in Hlt. auto. }
  repeat split.
  - rewrite !fmap_app. simpl. apply NoDup_app. split; [|split].
    + apply NoDup_app. split; [exact Hnd|]. split; [|apply NoDup_singleton].
      intros x Hx Hx'. apply list_elem_of_singleton in Hx'. subst x.
      apply Hfresh in Hx. lia.
    + intros x Hx Hx'. apply list_elem_of_singleton in Hx'. subst x.
      apply elem_of_app in Hx as [Hx|Hx].
      * apply Hfresh in Hx. lia.
      * apply list_elem_of_singleton in Hx. lia.
    + apply NoDup_singleton.
  - rewrite !Forall_app. repeat split.
    + eapply Forall_impl; [exact Hlt|]. intros; simpl in *; lia.
    + repeat constructor; simpl; lia.
    + repeat constructor; simpl; lia.
  - apply Forall_app. split.
    + eapply Forall_impl; [exact Htl|]. intros; simpl in *; lia.
    + repeat constructor; simpl; lia.
  - apply Forall_app. split; [apply Forall_app; split|].
    + rewrite Forall_forall in *. intros n Hn. rewrite (Hty n Hn).
      rewrite elem_of_app, list_elem_of_singleton. split; [tauto|].
      intros [Hin|E]; [exact Hin|]. apply Hlt in Hn. lia.
    + apply Forall_singleton. simpl. split; [discriminate|].
      rewrite elem_of_app, list_elem_of_singleton. intros [Hin|E]; [|lia].
      rewrite Forall_forall in Htl. apply Htl in Hin. lia.
    + apply Forall_singleton. simpl. split; [|reflexivity].
      intros _. rewrite elem_of_app, list_elem_of_singleton. now right.
Qed.

Lemma step_wellFormed (s : State) (e : Event) :
  transcriptWellFormed s -> transcriptWellFormed (step s e).
Proof.
  intros H.
  assert (Hreset : forall s', Forall (fun t => t < fresh s') (typingEls s') ->
                              transcriptWellFormed (resetLocally s')).
  { intros s' Ht. repeat split; simpl; try constructor. exact Ht. }
  assert (Hsub : transcriptWellFormed (onSubmit s)).
  { unfold onSubmit. destruct (bool_decide _); [exact H|].
    apply sendMessage_wellFormed. exact H. }
  destruct e as [v| |key c sh|q| | |i r|i r]; simpl.
  - exact H.
  - exact Hsub.
  - unfold onKeyDown. destruct (_ || _); [exact Hsub | exact H].
  - unfold onSuggestion. destruct q as [[|]|]; try exact H.
    now apply sendMessage_wellFormed.
  - unfold onReset. destruct (sessionId s); [apply Hreset, H|].
    destruct H as (Hnd & Hlt & Htl & Hty).
    unfold transcriptWellFormed, typingEls. simpl.
    rewrite omap_typingElOf_snoc, app_nil_r. auto.
  - exact H.
  - destruct (pending s !! i) as [[typingEl|typingEl|]|] eqn:Hi; try exact H.
    + destruct r as [message|[|] status]; simpl.
      * apply (wellFormed_after_answer s i typingEl _ _ H Hi eq_refl).
      * destruct H as (Hnd & Hlt & Htl & Hty).
        destruct (omap_typingElOf_delete_chat _ _ _ _ Hi (eq_refl (Some typingEl)))
          as [Hsb Hkeep].
        assert (Hin : typingEl ∈ typingEls s).
        { unfold typingEls. apply list_elem_of_omap. exists (AwaitChatFetch typingEl).
          split; [eapply list_elem_of_lookup_2, Hi | reflexivity]. }
        unfold transcriptWellFormed, typingEls. simpl.
        rewrite omap_typingElOf_snoc. simpl. repeat split; try assumption.
        -- apply Forall_app. split.
           ++ rewrite Forall_forall in *. intros u Hu. apply Htl, Hsb, Hu.
           ++ repeat constructor. rewrite Forall_forall in Htl. now apply Htl.
        -- rewrite Forall_forall in *. intros n Hn. rewrite (Hty n Hn).
           rewrite elem_of_app, list_elem_of_singleton. split.
           ++ intros Hx. destruct (decide (node_id n = typingEl)); [now right|].
              left. now apply Hkeep.
           ++ intros [Hx| ->]; [exact (proj1 (Forall_forall _ _) Hsb _ Hx) | exact Hin].
      * apply (wellFormed_after_answer s i typingEl _ _ H Hi eq_refl).
    + apply Hreset. simpl. unfold typingEls. simpl.
      rewrite (omap_typingElOf_delete_reset _ _ Hi). apply H.
  - destruct (pending s !! i) as [[typingEl|typingEl|]|] eqn:Hi; try exact H.
    destruct r as [message|message|data]; simpl;
      apply (wellFormed_after_answer s i typingEl _ _ H Hi eq_refl).
Qed.

Lemma run_wellFormed (s : State) (evs : list Event) :
  transcriptWellFormed s -> transcriptWellFormed (run s evs).
Proof.
  revert s. induction evs as [|e evs IH]; intros s H; simpl; [exact H|].
  apply IH, step_wellFormed, H.
Qed.

Lemma init_wellFormed (base : option JSString)
    (ls : gmap string JSString) : transcriptWellFormed (init base ls).
Proof. repeat split; simpl; constructor. Qed.

Lemma step_inputDisabled (s : State) (e : Event) :
  inputDisabled s = isWaitingForResponse s ->
  inputDisabled (step s e) = isWaitingForResponse (step s e).
Proof.
  intros H.
  assert (Hsend : forall q s', inputDisabled s' = isWaitingForResponse s' ->
            inputDisabled (sendMessage q s') = isWaitingForResponse (sendMessage q s')).
  { intros q s' H'. unfold sendMessage. destruct (_ || _); [exact H' | reflexivity]. }
  assert (Hsub : inputDisabled (onSubmit s) = isWaitingForResponse (onSubmit s)).
  { unfold onSubmit. destruct (bool_decide _); [exact H|]. now apply Hsend. }
  destruct e as [v| |key c sh|q| | |i r|i r]; simpl; try exact H; try exact Hsub.
  - unfold onKeyDown. destruct (_ || _); [exact Hsub | exact H].
  - unfold onSuggestion. destruct q as [[|]|]; try exact H. now apply Hsend.
  - unfold onReset. destruct (sessionId s); exact H.
  - destruct (pending s !! i) as [[typingEl|typingEl|]|]; try exact H.
    destruct r as [|[|]]; try reflexivity. exact H.
  - destruct (pending s !! i) as [[typingEl|typingEl|]|]; try exact H.
    destruct r; reflexivity.
Qed.

Lemma filter_typing_none (l : list Node) :
  Forall (fun n => isTyping n = false) l ->
  filter (fun n => isTyping n = true) l = [].
Proof.
  induction 1 as [|n l Hn _ IH]; [reflexivity|].
  rewrite filter_cons. destruct (decide (isTyping n = true)); [congruence | exact IH].
Qed.

Lemma one_bearer (l : list Node) (t : nat) :
  NoDup (node_id <$> l) ->
  Forall (fun n => isTyping n = true -> node_id n = t) l ->
  length (filter (fun n => isTyping n = true) l) <= 1.
Proof.
  induction l as [|n l IH]; intros Hnd Hall; [simpl; lia|].
  rewrite fmap_cons in Hnd. apply NoDup_cons in Hnd as [Hn Hnd].
  apply Forall_cons in Hall as [Hhd Hall].
  rewrite filter_cons. destruct (decide (isTyping n = true)) as [Ht|Ht]; [|auto].
  rewrite filter_typing_none; [simpl; lia|].
  rewrite Forall_forall in *. intros m Hm.
  destruct (isTyping m) eqn:Em; [|reflexivity].
  exfalso. apply Hn. apply list_elem_of_fmap. exists m. split; [|exact Hm].
  rewrite (Hhd Ht). symmetry. now apply Hall.
Qed.

(** X4: in every state the page reaches, the input is disabled exactly
    while a request is in flight, the transcript shows at most one typing
    indicator, and none once no request is in flight. *)
Theorem typing_indicator_only_while_waiting (base : option JSString)
    (ls : gmap string JSString)
    (evs : list Event) :
  inputDisabled (run (init base ls) evs) = isWaitingForResponse (run (init base ls) evs)
  /\ length (filter (fun n => isTyping n = true) (chatBox (run (init base ls) evs))) <= 1
  /\ (isWaitingForResponse (run (init base ls) evs) = false ->
      Forall (fun n => isTyping n = false) (chatBox (run (init base ls) evs))).
Proof.
  pose proof (run_wellFormed _ evs (init_wellFormed base ls)) as (Hnd & _ & _ & Hty).
  pose proof (run_flagCountsRequests _ evs (init_flagCountsRequests base ls)) as Hc.
  unfold flagCountsRequests in Hc. rewrite <- typingEls_length in Hc.
  split; [|split].
  - assert (H : forall s, inputDisabled s = isWaitingForResponse s ->
                inputDisabled (run s evs) = isWaitingForResponse (run s evs)).
    { clear. induction evs as [|e evs IH]; intros s Hs; simpl; [exact Hs|].
      apply IH, step_inputDisabled, Hs. }
    apply H. reflexivity.
  - destruct (typingEls (run (init base ls) evs)) as [|t [|u l]] eqn:E.
    + rewrite filter_typing_none; [simpl; lia|].
      eapply Forall_impl; [exact Hty|]. intros n [Hn _].
      destruct (isTyping n); [|reflexivity]. specialize (Hn eq_refl). inversion Hn.
    + apply (one_bearer _ t Hnd). eapply Forall_impl; [exact Hty|].
      intros n [Hn _] Ht. apply Hn, list_elem_of_singleton in Ht. exact Ht.
    + simpl in Hc. destruct (isWaitingForResponse _); discriminate.
  - intros W. rewrite W in Hc.
    destruct (typingEls (run (init base ls) evs)); [|discriminate].
    eapply Forall_impl; [exact Hty|]. intros n [Hn _].
    destruct (isTyping n); [|reflexivity]. specialize (Hn eq_refl). inversion Hn.
Qed.

Lemma typing_indicator_only_while_waiting_witness :
  Forall (fun n => isTyping n = false)
    (chatBox (run (init None ∅) (asked "Quel pH pour la tomate ?" ++ [answered "s-1"]))).
Proof.
  apply typing_indicator_only_while_waiting. reflexivity.
Defined.

(** The messages after the handler resumed from [p] removed its typing
    indicator and appended [m]. *)
Lemma messages_after_answer (s : State) (i t : nat) (p : Pending) (m : Message) :
  transcriptWellFormed s ->
  pending s !! i = Some p -> typingElOf p = Some t ->
  omap (fun n => match kind n with Msg m => Some m | Typing => None end)
    (filter (fun n => node_id n <> t) (chatBox s)
     ++ [{| node_id := fresh s; kind := Msg m |}])
  = messages s ++ [m].
Proof.
  intros (_ & _ & _ & Hty) Hi Hp. rewrite omap_app. f_equal.
  apply omap_messages_filter. eapply Forall_impl; [exact Hty|].
  intros n [_ Hn] E. apply Hn. rewrite E. unfold typingEls.
  apply list_elem_of_omap. exists p. split; [eapply list_elem_of_lookup_2, Hi | exact Hp].
Qed.

(** X5: a request that fails (rejected, answered with a failure status, or
    with a body that cannot be read) costs nothing but one line: the
    session identifier, the storage and the requests issued are as
    before, the transcript keeps every message and gains one error
    message, and the page is ready for the next question. *)
Theorem failed_request_keeps_session (base : option JSString)
    (ls : gmap string JSString)
    (evs : list Event) (e : Event) :
  settlesChat (run (init base ls) evs) e ->
  (forall i data, e <> JsonSettled i (JsonData data)) ->
  sessionId (step (run (init base ls) evs) e) = sessionId (run (init base ls) evs)
  /\ localStorage (step (run (init base ls) evs) e) = localStorage (run (init base ls) evs)
  /\ network (step (run (init base ls) evs) e) = network (run (init base ls) evs)
  /\ (exists message,
        messages (step (run (init base ls) evs) e)
        = messages (run (init base ls) evs)
          ++ [errorMessage (API_BASE (run (init base ls) evs)) message])
  /\ isWaitingForResponse (step (run (init base ls) evs) e) = false.
Proof.
  pose proof (run_wellFormed _ evs (init_wellFormed base ls)) as Hwf.
  set (s := run (init base ls) evs) in *. clearbody s.
  intros Hs Hdata.
  destruct e as [v| |key c sh|q| | |i r|i r]; try contradiction; simpl in Hs |- *.
  - destruct Hs as [[t Hi] Hr]. rewrite Hi.
    destruct r as [message|[|] status]; [|now destruct (Hr status)|]; simpl;
      (repeat split; [eexists; unfold messages; simpl;
                      apply (messages_after_answer s i t _ _ Hwf Hi eq_refl)]).
  - destruct Hs as [t Hi]. rewrite Hi.
    destruct r as [message|message|data]; [| |now destruct (Hdata i data)]; simpl;
      (repeat split; [eexists; unfold messages; simpl;
                      apply (messages_after_answer s i t _ _ Hwf Hi eq_refl)]).
Qed.

Lemma failed_request_keeps_session_witness :
  sessionId (step (run (init None ∅) askedOnce) (FetchSettled 0 (FetchResponse false 500)))
  = sessionId (run (init None ∅) askedOnce)
  /\ exists message,
       messages (step (run (init None ∅) askedOnce) (FetchSettled 0 (FetchResponse false 500)))
       = messages (run (init None ∅) askedOnce)
         ++ [errorMessage (lit "http://localhost:8000") message].
Proof.
  destruct (failed_request_keeps_session None ∅ askedOnce
              (FetchSettled 0 (FetchResponse false 500))) as (H1 & _ & _ & H2 & _).
  - split; [exists 1; reflexivity | discriminate].
  - discriminate.
  - split; [exact H1 | exact H2].
Defined.

(** On a page that sets [window.HC_API_BASE], the message of a network
    failure names that base. *)
Example error_text_names_configured_base :
  text <$> last (messages
                   (step (run (init (Some (lit "http://127.0.0.1:8001")) ∅) askedOnce)
                      (FetchSettled 0 (FetchRejected (lit "Failed to fetch")))))
  = Some (lit "Désolé, une erreur est survenue. Vérifiez que le serveur API est démarré sur http://127.0.0.1:8001").
Proof. vm_compute. reflexivity. Qed.

(** X6: only a reset removes messages.  Whatever happens to a page, either
    every message of the transcript stays in place and at most one is
    added after them, or the event completes a reset and the session is
    cleared. *)
Theorem only_reset_removes_messages (base : option JSString)
    (ls : gmap string JSString)
    (evs : list Event) (e : Event) :
  (exists new,
     messages (step (run (init base ls) evs) e) = messages (run (init base ls) evs) ++ new
     /\ length new <= 1)
  \/ sessionCleared (step (run (init base ls) evs) e).
Proof.
  pose proof (run_wellFormed _ evs (init_wellFormed base ls)) as Hwf.
  set (s := run (init base ls) evs) in *. clearbody s.
  assert (Hsame : forall s' : State, chatBox s' = chatBox s ->
            exists new, messages s' = messages s ++ new /\ length new <= 1).
  { intros s' E. exists []. unfold messages. rewrite E, app_nil_r. auto. }
  assert (Hsend : forall q s', chatBox s' = chatBox s -> fresh s' = fresh s ->
            exists new, messages (sendMessage q s') = messages s ++ new
                        /\ length new <= 1).
  { intros q s' E F.
    destruct (sendMessage_cases q s') as [[-> _]|(Hq & W & _)]; [now apply Hsame|].
    rewrite (sendMessage_sends q s' Hq W). unfold messages. simpl.
    rewrite !omap_app, E. simpl. rewrite app_nil_r. eexists. split; [reflexivity|].
    simpl. lia. }
  assert (Hsub : exists new, messages (onSubmit s) = messages s ++ new
                             /\ length new <= 1).
  { unfold onSubmit. destruct (bool_decide _); [now apply Hsame|]. now apply Hsend. }
  destruct e as [v| |key c sh|q| | |i r|i r]; simpl.
  - left. now apply Hsame.
  - left. exact Hsub.
  - left. unfold onKeyDown. destruct (_ || _); [exact Hsub | now apply Hsame].
  - left. unfold onSuggestion. destruct q as [[|]|]; try now apply Hsame.
    now apply Hsend.
  - unfold onReset. destruct (sessionId s); [right; apply resetLocally_cleared|].
    left. now apply Hsame.
  - left. now apply Hsame.
  - destruct (pending s !! i) as [[t|t|]|] eqn:Hi; try (left; now apply Hsame).
    + left. destruct r as [message|[|] status]; simpl; try now apply Hsame.
      * eexists. split; [unfold messages; simpl;
                         apply (messages_after_answer s i t _ _ Hwf Hi eq_refl)|].
        simpl. lia.
      * eexists. split; [unfold messages; simpl;
                         apply (messages_after_answer s i t _ _ Hwf Hi eq_refl)|].
        simpl. lia.
    + right. apply resetLocally_cleared.
  - destruct (pending s !! i) as [[t|t|]|] eqn:Hi; try (left; now apply Hsame).
    left. destruct r as [message|message|data]; simpl;
      (eexists; split; [unfold messages; simpl;
                        apply (messages_after_answer s i t _ _ Hwf Hi eq_refl)|];
       simpl; lia).
Qed.

Lemma sendMessage_parsed_data (typingEl : nat) (data : ChatData) (s : State) :
  network (sendMessage_parsed typingEl (JsonData data) s) = network s
  /\ chatBox (sendMessage_parsed typingEl (JsonData data) s)
     = filter (fun n => node_id n <> typingEl) (chatBox s)
       ++ [{| node_id := fresh s; kind := Msg (answerMessage data) |}]
  /\ inputValue (sendMessage_parsed typingEl (JsonData data) s) = inputValue s
  /\ isWaitingForResponse (sendMessage_parsed typingEl (JsonData data) s) = false.
Proof. repeat split. Qed.

(** X7: one exchange, end to end.  On an idle page the user types [v], not
    blank, and submits; the server answers with a success status and a
    body.  Then exactly one request went out, with the trimmed text and
    the session of the page; the transcript is the old one followed by the
    question as sent and the answer, with no typing indicator left; the
    input is empty and enabled again. *)
Theorem exchange_appends_question_and_answer (base : option JSString)
    (ls : gmap string JSString)
    (evs : list Event) (v : JSString) (status : N) (data : ChatData) :
  isWaitingForResponse (run (init base ls) evs) = false ->
  trim v <> [] ->
  network (run (run (init base ls) evs)
             [Edit v; Submit;
              FetchSettled (length (pending (run (init base ls) evs)))
                (FetchResponse true status);
              JsonSettled (length (pending (run (init base ls) evs))) (JsonData data)])
  = network (run (init base ls) evs)
    ++ [ChatRequest (trim v) (sessionId (run (init base ls) evs))]
  /\ chatBox (run (run (init base ls) evs)
                [Edit v; Submit;
                 FetchSettled (length (pending (run (init base ls) evs)))
                   (FetchResponse true status);
                 JsonSettled (length (pending (run (init base ls) evs))) (JsonData data)])
     = chatBox (run (init base ls) evs)
       ++ [{| node_id := fresh (run (init base ls) evs);
              kind := Msg (renderMessage user (trim v) noMetadata) |};
           {| node_id := S (S (fresh (run (init base ls) evs)));
              kind := Msg (answerMessage data) |}]
  /\ inputValue (run (run (init base ls) evs)
                   [Edit v; Submit;
                    FetchSettled (length (pending (run (init base ls) evs)))
                      (FetchResponse true status);
                    JsonSettled (length (pending (run (init base ls) evs))) (JsonData data)])
     = []
  /\ isWaitingForResponse
       (run (run (init base ls) evs)
          [Edit v; Submit;
           FetchSettled (length (pending (run (init base ls) evs)))
             (FetchResponse true status);
           JsonSettled (length (pending (run (init base ls) evs))) (JsonData data)])
     = false.
Proof.
  pose proof (run_wellFormed _ evs (init_wellFormed base ls)) as (_ & Hlt & _ & _).
  set (s := run (init base ls) evs) in *. clearbody s.
  intros W Hv.
  assert (Hkeep : filter (fun n => node_id n <> S (fresh s)) (chatBox s) = chatBox s).
  { clear -Hlt. induction Hlt as [|n l Hn _ IH]; [reflexivity|].
    rewrite filter_cons. destruct (decide (node_id n <> S (fresh s))); [|lia].
    now rewrite IH. }
  unfold run. cbn [fold_left].
  assert (E1 : step (step s (Edit v)) Submit
               = sendMessage (trim v) (set_inputValue [] (set_inputValue v s))).
  { cbn [step]. unfold onSubmit. cbn [inputValue set_inputValue].
    rewrite bool_decide_eq_false_2 by exact Hv. reflexivity. }
  rewrite E1.
  rewrite (sendMessage_sends (trim v) (set_inputValue [] (set_inputValue v s))
             (eq_ind_r (fun x => x <> []) Hv (trim_idempotent v)) W).
  cbn [step pending set_inputValue sessionId chatBox fresh network localStorage
       location inputValue].
  rewrite list_lookup_middle by reflexivity.
  cbn [sendMessage_fetched negb set_pending pending].
  rewrite (delete_middle (pending s) []), app_nil_r.
  rewrite list_lookup_middle by reflexivity.
  rewrite (delete_middle (pending s) []), app_nil_r.
  match goal with
  | |- context [sendMessage_parsed ?t (JsonData data) ?s'] =>
      destruct (sendMessage_parsed_data t data s') as (-> & -> & -> & ->)
  end.
  cbn [set_pending network chatBox inputValue fresh].
  rewrite !filter_app, Hkeep.
  rewrite filter_cons_True by (cbn [node_id]; lia).
  rewrite filter_cons_False by (cbn [node_id]; intros H; now apply H).
  rewrite !filter_nil, app_nil_r.
  repeat split.
  rewrite <- app_assoc. reflexivity.
Qed.

Lemma exchange_appends_question_and_answer_witness :
  network (run (run (init None ∅) [])
             [Edit (lit "  Quel pH ? "); Submit;
              FetchSettled 0 (FetchResponse true 200);
              JsonSettled 0 (JsonData {| answer := None; session_id := None;
                                         faithfulness := VUndefined;
                                         completeness := VUndefined;
                                         decision := VUndefined; sources := None |})])
  = [ChatRequest (lit "Quel pH ?") []].
Proof.
  destruct (exchange_appends_question_and_answer None ∅ [] (lit "  Quel pH ? ") 200
              {| answer := None; session_id := None; faithfulness := VUndefined;
                 completeness := VUndefined; decision := VUndefined;
                 sources := None |}) as (H & _).
  - reflexivity.
  - vm_compute. discriminate.
  - exact H.
Defined.

End ChatTranscriptProperties.

(** ** dashboard.js: the disease-detection page, analyses and reports *)

Section DetectionMoreProperties.
Import Detection.

(** *** The end of an analysis *)

(** X8: however an analysis ends, the button is enabled again under its
    usual label, and the selected image and the requests issued are as
    before.  A failure shows the error panel, its description starting
    with the analysis prefix, the confidence back at 0%; a result is
    displayed as [displayResults] renders it. *)
Theorem analysis_end_restores_button (s : State) (e : Event) :
  (analysisFails s e ->
     analyzeBtn_disabled (step s e) = false
     /\ analyzeBtn_label (step s e) = LabelAnalyze
     /\ currentImageFile (step s e) = currentImageFile s
     /\ network (step s e) = network s
     /\ diseaseName (panel (step s e)) = lit "Erreur"
     /\ confidenceValue (panel (step s e)) = [Chars (lit "0%")]
     /\ exists message,
          diseaseDescription (panel (step s e)) = analysisErrorPrefix ++ message)
  /\ (forall result, analysisSucceeds s e result ->
        analyzeBtn_disabled (step s e) = false
        /\ analyzeBtn_label (step s e) = LabelAnalyze
        /\ currentImageFile (step s e) = currentImageFile s
        /\ network (step s e) = network s
        /\ panel (step s e) = panel (displayResults result s)).
Proof.
  split.
  - destruct e as [file|files|i result|i| |date ts| | | |i r|i r|i r|i r];
      try contradiction; simpl.
    + destruct r as [message|ok status]; [|contradiction]. intros ->. simpl.
      repeat split. now eexists.
    + intros [status ->]. destruct r as [message|body]; simpl;
        (repeat split; now eexists).
    + destruct r as [message|message|data]; [| |contradiction]; intros ->; simpl;
        (repeat split; now eexists).
  - intros result.
    destruct e as [file|files|i res|i| |date ts| | | |i r|i r|i r|i r];
      try contradiction; simpl.
    destruct r as [message|message|data]; try contradiction.
    intros [-> ->]. simpl. repeat split.
Qed.

Lemma analysis_end_restores_button_witness :
  analyzeBtn_disabled
    (step (run selected [ClickAnalyze])
       (FetchSettled 1 (FetchRejected (lit "Failed to fetch")))) = false
  /\ analyzeBtn_label
       (step (run selected [ClickAnalyze; FetchSettled 1 (FetchResponse false 500)])
          (AnalyzeText 1 (TextBody (lit "Internal Server Error")))) = LabelAnalyze.
Proof.
  split.
  - apply (analysis_end_restores_button (run selected [ClickAnalyze])
             (FetchSettled 1 (FetchRejected (lit "Failed to fetch")))).
    reflexivity.
  - apply (analysis_end_restores_button
             (run selected [ClickAnalyze; FetchSettled 1 (FetchResponse false 500)])
             (AnalyzeText 1 (TextBody (lit "Internal Server Error")))).
    exists 500%N. reflexivity.
Defined.

(** *** Saved reports *)

(** X9: only the save button writes the history: no other event of the
    page, a logout included, changes what is stored under
    [hc_analysis_history]. *)
Theorem only_save_changes_history (s : State) (e : Event) :
  (forall date timestamp, e <> ClickSave date timestamp) ->
  localStorage (step s e) !! "hc_analysis_history"%string
  = localStorage s !! "hc_analysis_history"%string.
Proof.
  intros He.
  destruct e as [file|files|i result|i| |date ts| | | |i r|i r|i r|i r]; simpl;
    try reflexivity.
  - destruct file as [f|]; [|reflexivity]. simpl. unfold handleImageFile.
    destruct (isImage f); [|reflexivity]. destruct (_ <? _)%N; reflexivity.
  - destruct files as [|f ?]; [reflexivity|]. simpl. unfold handleImageFile.
    destruct (isImage f); [|reflexivity]. destruct (_ <? _)%N; reflexivity.
  - destruct (pending s !! i) as [[]|]; reflexivity.
  - destruct (pending s !! i) as [[]|]; reflexivity.
  - destruct (analyzeBtn_disabled s); [reflexivity|].
    unfold analyzeImage. destruct (currentImageFile s); reflexivity.
  - now destruct (He date ts).
  - now rewrite !lookup_delete_ne by discriminate.
  - destruct (pending s !! i) as [[]|]; try reflexivity;
      destruct r as [|[|]]; reflexivity.
  - destruct (pending s !! i) as [[]|]; try reflexivity.
    destruct r as [| |data]; try reflexivity. simpl.
    destruct (truthy (model_loaded data)); reflexivity.
  - destruct (pending s !! i) as [[]|]; try reflexivity. destruct r; reflexivity.
  - destruct (pending s !! i) as [[]|]; try reflexivity. destruct r; reflexivity.
Qed.

Lemma only_save_changes_history_witness :
  localStorage (step (run selected (saves 2)) ClickLogout)
    !! "hc_analysis_history"%string
  = localStorage (run selected (saves 2)) !! "hc_analysis_history"%string.
Proof. apply only_save_changes_history. discriminate. Defined.

Lemma analysis_end_is_error (s : State) (e : Event) :
  analysisFails s e ->
  currentImageFile (step s e) = currentImageFile s
  /\ localStorage (step s e) = localStorage s
  /\ diseaseName (panel (step s e)) = lit "Erreur"
  /\ confidenceValue (panel (step s e)) = [Chars (lit "0%")].
Proof.
  destruct e as [file|files|i result|i| |date ts| | | |i r|i r|i r|i r];
    try contradiction; simpl.
  - destruct r as [message|ok status]; [|contradiction]. intros ->. repeat split.
  - intros [status ->]. destruct r; repeat split.
  - destruct r as [message|message|data]; [| |contradiction]; intros ->; repeat split.
Qed.

(** X10: a report records what the panel shows, an error included.  When
    an analysis fails and the user saves, the report stored first reads
    [Erreur] with a confidence of 0% for the selected image. *)
Theorem report_after_failed_analysis (s : State) (e : Event) (f : File)
    (h : list Entry) (date : JSString) (timestamp : N) :
  analysisFails s e ->
  currentImageFile s = Some f ->
  loadHistory (localStorage s) = Some h ->
  exists rest,
    loadHistory (localStorage (run s [e; ClickSave date timestamp]))
    = Some (Saved {| r_date := date; r_disease := lit "Erreur";
                     r_confidence := [Chars (lit "0%")];
                     r_image := name f; r_timestamp := timestamp |} :: rest).
Proof.
  intros He Hf Hh.
  destruct (analysis_end_is_error s e He) as (Hc & Hl & Hd & Hv).
  unfold run. cbn [fold_left]. cbn [step]. unfold saveReport.
  rewrite Hc, Hf, Hl, Hh, Hd, Hv. cbn [localStorage set_localStorage].
  rewrite loadHistory_insert. eexists. reflexivity.
Qed.

Lemma report_after_failed_analysis_witness :
  exists rest,
    loadHistory
      (localStorage
         (run (run selected [ClickAnalyze])
            [FetchSettled 1 (FetchRejected (lit "Failed to fetch"));
             ClickSave (lit "02/11/2026") 7]))
    = Some (Saved {| r_date := lit "02/11/2026"; r_disease := lit "Erreur";
                     r_confidence := [Chars (lit "0%")];
                     r_image := name (photo 2048); r_timestamp := 7 |} :: rest).
Proof.
  apply (report_after_failed_analysis (run selected [ClickAnalyze])
           (FetchSettled 1 (FetchRejected (lit "Failed to fetch")))
           (photo 2048) []); reflexivity.
Defined.

(** *** An image that is refused *)

(** X11: a refused image does not unselect the previous one.  With an
    image selected and the button enabled, choosing a file over the limit
    and clicking the button sends the analysis of the image selected
    before. *)
Theorem oversized_choice_keeps_previous_image (s : State) (f1 f2 : File) :
  currentImageFile s = Some f1 ->
  analyzeBtn_disabled s = false ->
  (maxImageSize < size f2)%N ->
  network (run s [SelectImage (Some f2); ClickAnalyze])
  = network s ++ [AnalyzeRequest f1]
  /\ network (run s [DropFiles [f2]; ClickAnalyze])
     = network s ++ [AnalyzeRequest f1].
Proof.
  intros Hf Hb Hsz.
  assert (H : forall s', currentImageFile s' = Some f1 ->
              analyzeBtn_disabled s' = false -> network s' = network s ->
              network (step s' ClickAnalyze) = network s ++ [AnalyzeRequest f1]).
  { intros s' Hf' Hb' Hn. simpl. rewrite Hb'. unfold analyzeImage. rewrite Hf'.
    simpl. now rewrite Hn. }
  unfold run. cbn [fold_left]. cbn [step]. unfold handleImageSelect, handleDrop.
  unfold handleImageFile. rewrite (proj2 (N.ltb_lt _ _) Hsz).
  destruct (isImage f2); split; apply H; auto.
Qed.

Lemma oversized_choice_keeps_previous_image_witness :
  network (run selected [SelectImage (Some (photo 20000000)); ClickAnalyze])
  = network selected ++ [AnalyzeRequest (photo 2048)].
Proof.
  apply (oversized_choice_keeps_previous_image selected (photo 2048) (photo 20000000));
    reflexivity.
Defined.

(** *** The name of a disease *)

Lemma letters_app (s t : JSString) : letters (s ++ t) = letters s ++ letters t.
Proof. apply filter_app. Qed.

Lemma letters_space (s : JSString) : letters (32%N :: s) = letters s.
Proof. unfold letters. apply filter_cons_False. intros [H _]. discriminate. Qed.

Lemma letters_cons_congr (c : N) (s t : JSString) :
  letters s = letters t -> letters (c :: s) = letters (c :: t).
Proof. unfold letters. rewrite !filter_cons. intros ->. reflexivity. Qed.

Lemma letters_white (s : JSString) :
  Forall (fun c => isWhiteSpace c = true) s -> letters s = [].
Proof.
  induction 1 as [|c s Hc _ IH]; [reflexivity|].
  unfold letters in *. rewrite filter_cons_False; [exact IH|].
  intros [H _]. congruence.
Qed.

Lemma letters_spaceAfterBell (k : nat) (s : JSString) :
  letters (spaceAfterBell k s) = letters s.
Proof.
  revert k. induction s as [|c s IH]; intros k; [reflexivity|].
  cbn [spaceAfterBell]. destruct k as [|[|k]].
  - destruct (startsWith (c :: s) (lit "bell")); apply letters_cons_congr, IH.
  - apply letters_cons_congr. rewrite letters_space. apply IH.
  - apply letters_cons_congr, IH.
Qed.

Lemma letters_trim (s : JSString) : letters (trim s) = letters s.
Proof.
  destruct (trim_split s) as (before & after & E & Hb & Ha).
  rewrite E at 2. rewrite !letters_app, (letters_white _ Hb), (letters_white _ Ha).
  now rewrite app_nil_r.
Qed.

Lemma trim_elem_of (s : JSString) (c : N) : c ∈ trim s -> c ∈ s.
Proof.
  destruct (trim_split s) as (before & after & E & _). intros H. rewrite E.
  rewrite !elem_of_app. auto.
Qed.

Lemma spaceAfterBell_elem_of (k : nat) (s : JSString) (c : N) :
  c ∈ spaceAfterBell k s -> c = 32%N \/ c ∈ s.
Proof.
  revert k. induction s as [|d s IH]; intros k; [intros H; inversion H|].
  cbn [spaceAfterBell]. destruct k as [|[|k]].
  - destruct (startsWith (d :: s) (lit "bell")); intros H;
      apply elem_of_cons in H as [->|H];
      try (right; apply list_elem_of_here);
      apply IH in H as [->|H]; auto; right; now apply list_elem_of_further.
  - intros H. apply elem_of_cons in H as [->|H]; [right; apply list_elem_of_here|].
    apply elem_of_cons in H as [->|H]; [now left|].
    apply IH in H as [->|H]; auto. right. now apply list_elem_of_further.
  - intros H. apply elem_of_cons in H as [->|H]; [right; apply list_elem_of_here|].
    apply IH in H as [->|H]; auto. right. now apply list_elem_of_further.
Qed.

(** X12: [formatDiseaseName] only works on the spacing of a name: the
    result has no underscore, neither begins nor ends with white space,
    and keeps every other character of the name, in order. *)
Theorem formatDiseaseName_keeps_letters (disease : JSString) :
  (95%N ∉ formatDiseaseName disease)
  /\ startsClean (formatDiseaseName disease)
  /\ endsClean (formatDiseaseName disease)
  /\ letters (formatDiseaseName disease) = letters disease.
Proof.
  unfold formatDiseaseName. split; [|split; [apply trim_startsClean|
                                     split; [apply trim_endsClean|]]].
  - intros H. apply trim_elem_of, spaceAfterBell_elem_of in H as [H|H]; [discriminate|].
    apply list_elem_of_In, in_flat_map in H as (c & Hc & H).
    apply in_map_iff in Hc as (d & <- & _).
    destruct (d =? 95)%N eqn:Ed.
    + simpl in H. intuition discriminate.
    + apply N.eqb_neq in Ed.
      destruct ((65 <=? d) && (d <=? 90))%N; simpl in H;
        intuition (try discriminate; congruence).
  - rewrite letters_trim, letters_spaceAfterBell.
    induction disease as [|c d IH]; [reflexivity|].
    cbn [map flat_map]. rewrite letters_app, IH.
    destruct (c =? 95)%N eqn:Ec.
    + apply N.eqb_eq in Ec. subst c. simpl.
      change (letters [32%N] ++ letters d = letters (95%N :: d)).
      rewrite letters_space. unfold letters at 3.
      rewrite filter_cons_False; [reflexivity|]. intros [_ H]. congruence.
    + destruct ((65 <=? c) && (c <=? 90))%N.
      * change (letters (32%N :: [c]) ++ letters d = letters (c :: d)).
        rewrite letters_space. symmetry. apply (letters_app [c] d).
      * symmetry. apply (letters_app [c] d).
Qed.

End DetectionMoreProperties.

(** ** app.js: the forms, the email field *)

Section AuthMoreProperties.
Import Auth.

Lemma beforeAt_app (a rest : JSString) :
  Forall (fun c => c <> 64%N) a -> beforeAt (a ++ 64%N :: rest) = a.
Proof.
  induction 1 as [|c a Hc _ IH]; simpl; [reflexivity|].
  unfold isAt. destruct (N.eqb_spec c 64); [contradiction|]. now rewrite IH.
Qed.

Lemma isWhiteSpace_not_at (c : N) : isWhiteSpace c = true -> c <> 64%N.
Proof. intros H ->. discriminate H. Qed.

Lemma notAtNorSpace_not_at (c : N) : notAtNorSpace c = true -> c <> 64%N.
Proof.
  unfold notAtNorSpace. intros H ->. discriminate H.
Qed.

(** The part before the first [@] of a value whose trimmed form is an
    email address: the leading blanks of the value and the local part. *)
Lemma beforeAt_email (e : JSString) :
  matches emailPattern (trim e) ->
  exists rest,
    e = beforeAt e ++ 64%N :: rest
    /\ trim (beforeAt e) <> []
    /\ Forall (fun c => c <> 64%N) (beforeAt e)
    /\ Forall (fun c => c <> 64%N) rest.
Proof.
  intros H. apply emailPattern_language in H as (a & b & c & E & Ha & _ & _ & F).
  destruct (trim_split e) as (before & after & Ee & Hb & Ha').
  rewrite E in Ee.
  assert (Hno : Forall (fun c => c <> 64%N) (before ++ a)).
  { apply Forall_app. split.
    - eapply Forall_impl; [exact Hb|]. intros x. apply isWhiteSpace_not_at.
    - apply Forall_app in F as [Fa _].
      eapply Forall_impl; [exact Fa|]. intros x. apply notAtNorSpace_not_at. }
  assert (Eb : beforeAt e = before ++ a).
  { rewrite Ee at 1.
    replace (before ++ (a ++ 64%N :: b ++ 46%N :: c) ++ after)
      with ((before ++ a) ++ 64%N :: (b ++ 46%N :: c) ++ after)
      by (rewrite <- ?app_assoc; simpl; rewrite <- ?app_assoc; reflexivity).
    now apply beforeAt_app. }
  exists ((b ++ 46%N :: c) ++ after). rewrite Eb. split; [|split; [|split]].
  - rewrite Ee at 1. rewrite <- ?app_assoc. simpl. rewrite <- ?app_assoc. reflexivity.
  - apply Forall_app in F as [Fa _].
    destruct a as [|x a]; [contradiction|].
    apply Forall_cons in Fa as [Hx _].
    assert (Hw : isWhiteSpace x = false).
    { unfold notAtNorSpace in Hx. apply andb_true_iff in Hx as [_ Hx].
      now apply negb_true_iff in Hx. }
    clear -Hb Hw. unfold trim.
    assert (Hs : trimStart (before ++ x :: a) = x :: a).
    { induction Hb as [|w before Hwt _ IH]; simpl.
      - now rewrite Hw.
      - now rewrite Hwt. }
    rewrite Hs, trimEnd_cons by exact Hw. discriminate.
  - exact Hno.
  - apply Forall_app in F as [_ F]. apply Forall_app in F as [Fb Fc].
    apply Forall_app. split; [apply Forall_app; split|].
    + eapply Forall_impl; [exact Fb|]. intros x. apply notAtNorSpace_not_at.
    + constructor; [discriminate|].
      eapply Forall_impl; [exact Fc|]. intros x. apply notAtNorSpace_not_at.
    + eapply Forall_impl; [exact Ha'|]. intros x. apply isWhiteSpace_not_at.
Qed.

Lemma handleFormSubmit_other_keys (form : Form) (pg : Page) (k : string) :
  k <> "hydrocare_auth"%string -> k <> "hydrocare_user"%string ->
  localStorage (handleFormSubmit form pg) !! k = localStorage pg !! k.
Proof.
  intros Ha Hu. unfold handleFormSubmit.
  destruct (validateForm form) as [valid errors].
  destruct valid; simpl; [|reflexivity].
  destruct (formData form "username") as [[|c u]|];
    [destruct (formData form "email") as [[|c e]|]| |
     destruct (formData form "email") as [[|c e]|]];
    rewrite ?(lookup_insert_ne _ "hydrocare_user"%string k) by congruence;
    rewrite ?(lookup_insert_ne _ "hydrocare_auth"%string k) by congruence;
    reflexivity.
Qed.

Lemma handleFormSubmit_auth (form : Form) (pg : Page) :
  validationPasses form ->
  localStorage (handleFormSubmit form pg) !! "hydrocare_auth"%string = Some (lit "1").
Proof.
  intros Hv.
  destruct (validateForm_spec form) as (Hiff & _ & _).
  unfold handleFormSubmit.
  destruct (validateForm form) as [valid errors]. simpl in Hiff.
  apply Hiff in Hv. subst valid. simpl.
  destruct (formData form "username") as [[|c u]|];
    [destruct (formData form "email") as [[|c e]|]| |
     destruct (formData form "email") as [[|c e]|]];
    rewrite ?(lookup_insert_ne _ "hydrocare_user"%string "hydrocare_auth"%string)
      by discriminate;
    apply lookup_insert_eq.
Qed.

(** X13: an email field that [validateField] accepts holds exactly one
    [@], and what stands before it, the [email.split('@')[0]] of
    [handleFormSubmit], is not blank; blanks typed before the address
    belong to it. *)
Theorem validated_email_has_local_part (i : Input) :
  name i = "email"%string -> validateField i = None ->
  trim (beforeAt (value i)) <> []
  /\ (64%N ∉ beforeAt (value i))
  /\ exists rest, value i = beforeAt (value i) ++ 64%N :: rest /\ (64%N ∉ rest).
Proof.
  intros Hname Hv. apply validateField_None in Hv as (_ & Hmail & _).
  destruct (beforeAt_email (value i) (Hmail Hname)) as (rest & E & Hne & Hno & Hrest).
  split; [exact Hne|]. split.
  - intros Hin. apply (proj1 (Forall_forall _ _) Hno _ Hin). reflexivity.
  - exists rest. split; [exact E|].
    intros Hin. apply (proj1 (Forall_forall _ _) Hrest _ Hin). reflexivity.
Qed.

Lemma validated_email_has_local_part_witness :
  trim (beforeAt (value (field "email" " lea@serre.fr"))) <> []
  /\ (64%N ∉ beforeAt (value (field "email" " lea@serre.fr")))
  /\ exists rest,
       value (field "email" " lea@serre.fr")
       = beforeAt (value (field "email" " lea@serre.fr")) ++ 64%N :: rest
       /\ (64%N ∉ rest).
Proof.
  apply (validated_email_has_local_part (field "email" " lea@serre.fr")).
  - reflexivity.
  - vm_compute. reflexivity.
Defined.

End AuthMoreProperties.

(** ** The guard of the pages and the logout *)

Section AccessProperties.
Import Access.

Lemma guard_turns_away (notice : JSString) (b : Browser) :
  notice <> [] ->
  localStorage b !! "hydrocare_auth"%string <> Some (lit "1") ->
  turnedAway notice b.
Proof.
  intros Hn Hb. unfold turnedAway, verifierAuthentification.
  rewrite bool_decide_eq_false_2 by exact Hb.
  split; [reflexivity|].
  unfold showRedirectMessage. cbn [sessionStorage localStorage location].
  rewrite lookup_insert_eq.
  destruct notice as [|c cs]; [contradiction|].
  eexists. split; [reflexivity|].
  cbn [sessionStorage]. rewrite lookup_delete_eq. split; reflexivity.
Qed.

Lemma guard_lets_in (notice : JSString) (b : Browser) :
  localStorage b !! "hydrocare_auth"%string = Some (lit "1") ->
  verifierAuthentification notice b = b.
Proof.
  intros Hb. unfold verifierAuthentification.
  now rewrite bool_decide_eq_true_2 by exact Hb.
Qed.

Lemma run_reloadResumes (s : Chat.State) (evs : list Chat.Event) :
  Forall (fun e => e <> Chat.ClickLogout) evs ->
  reloadResumes s -> reloadResumes (Chat.run s evs).
Proof.
  intros Hevs. revert s.
  induction Hevs as [|e evs He _ IH]; intros s Hs; simpl; [exact Hs|].
  apply IH, step_reloadResumes; assumption.
Qed.

Lemma init_reloadResumes (base : option JSString)
    (ls : gmap string JSString) : reloadResumes (Chat.init base ls).
Proof.
  unfold reloadResumes. rewrite !init_sessionId. reflexivity.
Qed.

(** X14: a submission of the index page that passes validation opens the
    guarded pages: their guard changes nothing, whatever the storage held
    before; one that fails validation, on a browser not signed in, leaves
    them closed. *)
Theorem valid_submission_opens_guarded_pages (form : Auth.Form) (pg : Auth.Page)
    (ss : gmap string JSString) (loc : string) (notice : JSString) :
  (validationPasses form ->
     verifierAuthentification notice
       (browse (Auth.localStorage (Auth.handleFormSubmit form pg)) ss loc)
     = browse (Auth.localStorage (Auth.handleFormSubmit form pg)) ss loc)
  /\ (~ validationPasses form -> notice <> [] ->
      Auth.localStorage pg !! "hydrocare_auth"%string <> Some (lit "1") ->
      turnedAway notice
        (browse (Auth.localStorage (Auth.handleFormSubmit form pg)) ss loc)).
Proof.
  split.
  - intros Hv. apply guard_lets_in. simpl. now apply handleFormSubmit_auth.
  - intros Hv Hn Hpg. apply guard_turns_away; [exact Hn|]. simpl.
    destruct (validateForm_spec form) as (Hiff & _ & _).
    unfold Auth.handleFormSubmit.
    destruct (Auth.validateForm form) as [valid errors]. simpl in Hiff.
    destruct valid; [exfalso; apply Hv, Hiff; reflexivity|]. exact Hpg.
Qed.

Lemma valid_submission_opens_guarded_pages_witness :
  verifierAuthentification noticeChatbot
    (browse (Auth.localStorage
               (Auth.handleFormSubmit (loginForm "lea@serre.fr" "tomate") emptyPage))
       ∅ "chat.html")
  = browse (Auth.localStorage
              (Auth.handleFormSubmit (loginForm "lea@serre.fr" "tomate") emptyPage))
      ∅ "chat.html"
  /\ turnedAway noticeChatbot
       (browse (Auth.localStorage
                  (Auth.handleFormSubmit (loginForm "lea" "tomate") emptyPage))
          ∅ "chat.html").
Proof.
  split.
  - apply (valid_submission_opens_guarded_pages
             (loginForm "lea@serre.fr" "tomate") emptyPage ∅ "chat.html" noticeChatbot).
    apply validateForm_spec. vm_compute. reflexivity.
  - apply (valid_submission_opens_guarded_pages
             (loginForm "lea" "tomate") emptyPage ∅ "chat.html" noticeChatbot).
    + intros Hv. apply validateForm_spec in Hv. vm_compute in Hv. discriminate Hv.
    + vm_compute. discriminate.
    + vm_compute. discriminate.
Defined.

(** X15: after a logout, from the dashboard home or from the chatbot page,
    every guarded page turns the visitor away, and the index page shows
    the notice of that page exactly once. *)
Theorem logout_closes_guarded_pages (b : Browser) (s : Chat.State)
    (ss : gmap string JSString) (loc : string) (notice : JSString) :
  notice <> [] ->
  turnedAway notice (logout b)
  /\ turnedAway notice (browse (Chat.localStorage (Chat.onLogout s)) ss loc).
Proof.
  intros Hn. split; apply guard_turns_away; try exact Hn; simpl.
  - rewrite lookup_delete_ne by discriminate. now rewrite lookup_delete_eq.
  - rewrite !lookup_delete_ne by discriminate. now rewrite lookup_delete_eq.
Qed.

Lemma logout_closes_guarded_pages_witness :
  turnedAway noticeParametres
    (logout (browse (<["hydrocare_auth"%string := lit "1"]> ∅) ∅ "dashboard.html"))
  /\ turnedAway noticeParametres
       (browse (Chat.localStorage (Chat.onLogout (Chat.init None ∅))) ∅ "chat.html").
Proof.
  apply (logout_closes_guarded_pages
           (browse (<["hydrocare_auth"%string := lit "1"]> ∅) ∅ "dashboard.html")
           (Chat.init None ∅) ∅ "chat.html" noticeParametres).
  vm_compute. discriminate.
Defined.

(** X16: the chat session outlives a logout from the dashboard home and
    the next submission of the index page: the chatbot page opened
    afterwards resumes the session the previous visit ended with, whoever
    signs in.  (A logout from the chatbot page itself forgets it.) *)
Theorem session_outlives_dashboard_logout (base : option JSString)
    (ls : gmap string JSString)
    (evs : list Chat.Event) (ss : gmap string JSString) (loc : string)
    (form : Auth.Form) :
  Forall (fun e => e <> Chat.ClickLogout) evs ->
  Chat.sessionId
    (Chat.init base
       (Auth.localStorage
          (Auth.handleFormSubmit form
             (indexPage
                (logout (browse (Chat.localStorage (Chat.run (Chat.init base ls) evs))
                           ss loc))))))
  = Chat.sessionId (Chat.run (Chat.init base ls) evs).
Proof.
  intros Hevs.
  pose proof (run_reloadResumes (Chat.init base ls) evs Hevs (init_reloadResumes base ls)) as H.
  unfold reloadResumes in H. rewrite <- H. rewrite !init_sessionId.
  rewrite handleFormSubmit_other_keys by discriminate. simpl.
  rewrite !lookup_delete_ne by discriminate. reflexivity.
Qed.

Lemma session_outlives_dashboard_logout_witness :
  Chat.sessionId
    (Chat.init None
       (Auth.localStorage
          (Auth.handleFormSubmit (loginForm "lea@serre.fr" "tomate")
             (indexPage
                (logout
                   (browse
                      (Chat.localStorage
                         (Chat.run (Chat.init None ∅)
                            (asked "Quel pH pour la tomate ?" ++ [answered "s-1"])))
                      ∅ "dashboard.html"))))))
  = Chat.sessionId
      (Chat.run (Chat.init None ∅) (asked "Quel pH pour la tomate ?" ++ [answered "s-1"])).
Proof.
  apply (session_outlives_dashboard_logout None ∅
           (asked "Quel pH pour la tomate ?" ++ [answered "s-1"]) ∅ "dashboard.html"
           (loginForm "lea@serre.fr" "tomate")).
  repeat constructor; discriminate.
Defined.

End AccessProperties.

(** ** app.js: the mobile menu and the password fields *)

Section AccueilProperties.
Import Accueil.





Lemma onRevealClick_password (f : PasswordField) :
  inputType f = Some (lit "password") ->
  onRevealClick f
  = {| inputType := Some (lit "text"); revealText := lit "🙈";
       revealLabel := lit "Masquer le mot de passe" |}.
Proof.
  intros E. unfold onRevealClick. rewrite bool_decide_eq_true_2 by exact E.
  reflexivity.
Qed.

Lemma onRevealClick_other (f : PasswordField) :
  inputType f <> Some (lit "password") ->
  onRevealClick f
  = {| inputType := Some (lit "password"); revealText := lit "👁️";
       revealLabel := lit "Afficher le mot de passe" |}.
Proof.
  intros E. unfold onRevealClick. rewrite bool_decide_eq_false_2 by exact E.
  reflexivity.
Qed.

(** X18: whatever a password field was, after a click on its reveal
    button it is a text or a password field, the button shows the icon and
    the label of that state, and further clicks alternate between the two
    states: two more clicks give the same field again. *)
Theorem reveal_button_alternates (f : PasswordField) :
  (onRevealClick f
   = {| inputType := Some (lit "text"); revealText := lit "🙈";
        revealLabel := lit "Masquer le mot de passe" |}
   /\ inputType f = Some (lit "password")
   \/ onRevealClick f
      = {| inputType := Some (lit "password"); revealText := lit "👁️";
           revealLabel := lit "Afficher le mot de passe" |}
      /\ inputType f <> Some (lit "password"))
  /\ inputType (onRevealClick (onRevealClick f)) <> inputType (onRevealClick f)
  /\ onRevealClick (onRevealClick (onRevealClick f)) = onRevealClick f.
Proof.
  destruct (decide (inputType f = Some (lit "password"))) as [E|E].
  - rewrite (onRevealClick_password f E).
    split; [left; split; [reflexivity | exact E]|].
    rewrite (onRevealClick_other _) by (simpl; vm_compute; discriminate).
    split; [simpl; vm_compute; discriminate|].
    now apply onRevealClick_password.
  - rewrite (onRevealClick_other f E).
    split; [right; split; [reflexivity | exact E]|].
    rewrite (onRevealClick_password _) by reflexivity.
    split; [simpl; vm_compute; discriminate|].
    apply onRevealClick_other. simpl. vm_compute. discriminate.
Qed.

End AccueilProperties.

(** ** parametres.js: alerts and recommendations *)

Section AnalyseProperties.
Import Parametres.

Lemma analysePH_cases (m : Mesure) (p : Plant) :
  parametre (fst (analysePH m p)) = "pH"%string
  /\ (type (fst (analysePH m p)) = success /\ snd (analysePH m p) = []
      \/ type (fst (analysePH m p)) = warning
         /\ exists r, snd (analysePH m p) = [r] /\ concerne r = "pH"%string).
Proof.
  unfold analysePH. destruct (num_lt _ _); [|destruct (num_gt _ _)]; simpl;
    (split; [reflexivity|]); eauto.
Qed.

Lemma analyseOxygene_cases (m : Mesure) :
  parametre (fst (analyseOxygene m)) = "oxygene"%string
  /\ (type (fst (analyseOxygene m)) = success /\ snd (analyseOxygene m) = []
      \/ type (fst (analyseOxygene m)) <> success
         /\ exists r, snd (analyseOxygene m) = [r] /\ concerne r = "oxygene"%string).
Proof.
  unfold analyseOxygene. destruct (num_lt _ _); [|destruct (num_gt _ _)]; simpl;
    (split; [reflexivity|]); [right|right|left]; try (split; [discriminate|]); eauto.
Qed.

Lemma analyseTemperature_cases (m : Mesure) (p : Plant) :
  parametre (fst (analyseTemperature m p)) = "temperature"%string
  /\ (type (fst (analyseTemperature m p)) = success
      /\ snd (analyseTemperature m p) = []
      \/ type (fst (analyseTemperature m p)) <> success
         /\ exists r, snd (analyseTemperature m p) = [r]
                      /\ concerne r = "temperature"%string).
Proof.
  unfold analyseTemperature. destruct (num_lt _ _); [|destruct (num_gt _ _)]; simpl;
    (split; [reflexivity|]); [right|right|left]; try (split; [discriminate|]); eauto.
Qed.

(** X19: whatever the readings, numbers or not, an analysis gives exactly
    one recommendation for each alert that is not [success], about the
    parameter of that alert and in the order of the alerts; it gives no
    recommendation exactly when the global status is [optimal]. *)
Theorem one_recommendation_per_alert (m : Mesure) (a : Analyse) :
  analyserParametresPlante m = Some a ->
  map concerne (recommandations a) = map parametre (aCorriger (alertes a))
  /\ (recommandations a = [] <-> statutGlobal a = optimal)
  /\ (statutGlobal a = optimal <-> Forall (fun x => type x = success) (alertes a)).
Proof.
  unfold analyserParametresPlante.
  destruct (PLANT_DATABASE !! planteType m) as [p|]; [|discriminate].
  destruct (analysePH_cases m p) as (P1 & H1).
  destruct (analyseOxygene_cases m) as (P2 & H2).
  destruct (analyseTemperature_cases m p) as (P3 & H3).
  destruct (analysePH m p) as [a1 r1], (analyseOxygene m) as [a2 r2],
    (analyseTemperature m p) as [a3 r3].
  cbn [fst snd] in *. intros [= <-]. cbn [recommandations alertes statutGlobal].
  unfold aCorriger.
  destruct a1 as [t1 ti1 pa1], a2 as [t2 ti2 pa2], a3 as [t3 ti3 pa3].
  cbn [type parametre] in *. subst pa1 pa2 pa3.
  destruct H1 as [[-> ->]|(-> & x1 & -> & C1)];
    destruct H2 as [[-> ->]|(N2 & x2 & -> & C2)];
    destruct H3 as [[-> ->]|(N3 & x3 & -> & C3)];
    try (destruct t2; [contradiction| |]);
    try (destruct t3; [contradiction| |]);
    cbn; rewrite ?C1, ?C2, ?C3;
    (split; [reflexivity|]);
    (split; [split; intros; try discriminate; reflexivity|]);
    (split; [intros; try discriminate; repeat constructor
            |intros F; repeat (apply Forall_cons in F as [? F]);
             try discriminate; reflexivity]).
Qed.

Lemma one_recommendation_per_alert_witness :
  exists a,
    analyserParametresPlante (mesure_tomate NaN (Finite 4.0) PosInfinity) = Some a
    /\ map concerne (recommandations a) = map parametre (aCorriger (alertes a))
    /\ (recommandations a = [] <-> statutGlobal a = optimal)
    /\ (statutGlobal a = optimal <-> Forall (fun x => type x = success) (alertes a)).
Proof.
  destruct (analyserParametresPlante (mesure_tomate NaN (Finite 4.0) PosInfinity))
    as [a|] eqn:E; [|vm_compute in E; discriminate E].
  exists a. split; [reflexivity|].
  exact (one_recommendation_per_alert _ a E).
Defined.

End AnalyseProperties.

(** ** parametres.js: the history of measurements *)

Section SuiviProperties.
Import Suivi.

(** *** Lists *)

Lemma distinct_elem_of (seen l : list JSString) (x : JSString) :
  x ∈ distinct seen l <-> x ∈ l /\ x ∉ seen.
Proof.
  revert seen. induction l as [|y l IH]; intros seen; simpl.
  - split; [intros H; now apply elem_of_nil in H | intros [H _]; now apply elem_of_nil in H].
  - destruct (bool_decide (y ∈ seen)) eqn:E.
    + apply bool_decide_eq_true in E. rewrite IH, elem_of_cons.
      split; [tauto|]. intros [[->|H] Hn]; [contradiction | tauto].
    + apply bool_decide_eq_false in E. rewrite !elem_of_cons, IH, elem_of_cons.
      split.
      * intros [->|[H Hn]]; [tauto|]. split; [tauto|]. intros Hs. apply Hn. tauto.
      * intros [[->|H] Hn]; [tauto|].
        destruct (decide (x = y)) as [->|Hxy]; [tauto|].
        right. split; [exact H|]. intros [?|?]; [contradiction | contradiction].
Qed.

Lemma distinct_NoDup (seen l : list JSString) : NoDup (distinct seen l).
Proof.
  revert seen. induction l as [|y l IH]; intros seen; simpl; [constructor|].
  destruct (bool_decide (y ∈ seen)); [apply IH|].
  constructor; [|apply IH].
  rewrite distinct_elem_of, elem_of_cons. tauto.
Qed.

Lemma elem_of_List_filter {A : Type} (f : A -> bool) (l : list A) (x : A) :
  x ∈ List.filter f l <-> x ∈ l /\ f x = true.
Proof. rewrite !list_elem_of_In. apply filter_In. Qed.

Lemma sublist_List_filter {A : Type} (f : A -> bool) (l : list A) :
  sublist (List.filter f l) l.
Proof.
  induction l as [|x l IH]; simpl; [constructor|].
  destruct (f x); now constructor.
Qed.

Lemma List_filter_none {A : Type} (f : A -> bool) (l : list A) :
  (forall x, x ∈ l -> f x = true) -> List.filter f l = l.
Proof.
  induction l as [|x l IH]; intros H; simpl; [reflexivity|].
  rewrite (H x) by (apply elem_of_cons; now left).
  f_equal. apply IH. intros y Hy. apply H, elem_of_cons. now right.
Qed.

(** *** Deleting a measurement *)

(** X20: confirming the deletion of a measurement removes from the stored
    history every measurement of that identifier and no other, keeps the
    order of the rest, closes the dialog, and shows the loading indicator
    until the reload timer runs, which displays what is left. *)
Theorem confirmed_deletion_removes_that_measure (p : Page) (mesureId : JSString) :
  exists l,
    stored (run p [Supprimer mesureId; ModalConfirmer]) = Some l
    /\ (forall m, m ∈ l <-> m ∈ lireMesures p /\ id m <> mesureId)
    /\ sublist l (lireMesures p)
    /\ modalHidden (run p [Supprimer mesureId; ModalConfirmer]) = true
    /\ actionEnCours (run p [Supprimer mesureId; ModalConfirmer]) = None
    /\ historique (run p [Supprimer mesureId; ModalConfirmer]) = Chargement
    /\ mesures (run p [Supprimer mesureId; ModalConfirmer; Minuterie]) = l
    /\ historique (run p [Supprimer mesureId; ModalConfirmer; Minuterie])
       = match l with [] => Vide | _ => Cartes l end.
Proof.
  eexists. split; [reflexivity|].
  split; [|split; [apply sublist_List_filter|repeat split]].
  intros m. rewrite elem_of_List_filter, negb_true_iff.
  split; intros [H E]; (split; [exact H|]).
  - now apply bool_decide_eq_false in E.
  - now apply bool_decide_eq_false.
Qed.

(** X21: a deletion that is not confirmed deletes nothing: after the
    cancel button or a click on the backdrop of the dialog, the confirm
    button finds no action and the page is as if only the dialog had been
    closed; and a second click on the confirm button does nothing more
    than the first. *)
Theorem unconfirmed_deletion_deletes_nothing (p : Page) (mesureId : JSString) :
  run p [Supprimer mesureId; ModalAnnuler; ModalConfirmer] = fermerModal p
  /\ run p [Supprimer mesureId; ClicSurFondModal; ModalConfirmer] = fermerModal p
  /\ stored (fermerModal p) = stored p
  /\ run p [Supprimer mesureId; ModalConfirmer; ModalConfirmer]
     = run p [Supprimer mesureId; ModalConfirmer].
Proof. repeat split. Qed.

(** *** Saving a measurement *)

Lemma analyserParametresPlante_plante (m : Parametres.Mesure) :
  match Parametres.PLANT_DATABASE !! Parametres.planteType m with
  | None => Parametres.analyserParametresPlante m = None
  | Some plant =>
      exists a, Parametres.analyserParametresPlante m = Some a
                /\ Parametres.plante a = plant
  end.
Proof.
  unfold Parametres.analyserParametresPlante.
  destruct (Parametres.PLANT_DATABASE !! Parametres.planteType m) as [plant|];
    [|reflexivity].
  destruct (Parametres.analysePH m plant), (Parametres.analyseOxygene m),
    (Parametres.analyseTemperature m plant).
  eexists. split; reflexivity.
Qed.

(** X22: a submission for a plant type that is not in the database changes
    nothing.  For a known plant it puts the new measurement before all the
    stored ones, none of which is dropped, and shows its analysis; the
    history still shows what the page had loaded and the counters count
    that, until a refresh and its timer, which display and count the
    stored list, the new measurement first. *)
Theorem submission_stored_then_shown_on_refresh (p : Page)
    (mesureId dateMesure dateCreation : JSString) (m : Parametres.Mesure) :
  match Parametres.PLANT_DATABASE !! Parametres.planteType m with
  | None => step p (Soumettre mesureId dateMesure dateCreation m) = p
  | Some plant =>
      exists a,
        Parametres.analyserParametresPlante m = Some a
        /\ Parametres.plante a = plant
        /\ let e := enregistrement mesureId dateMesure dateCreation m a in
           let p1 := step p (Soumettre mesureId dateMesure dateCreation m) in
           let p2 := run p1 [Rafraichir; Minuterie] in
           stored p1 = Some (e :: lireMesures p)
           /\ resultats p1 = Some (Parametres.notes m, a)
           /\ resultatsHidden p1 = false /\ formulaireHidden p1 = true
           /\ mesures p1 = mesures p /\ historique p1 = historique p
           /\ stats p1
              = Some (length (mesures p), length (List.filter enAlerte (mesures p)))
           /\ stored p2 = stored p1
           /\ mesures p2 = e :: lireMesures p
           /\ historique p2 = Cartes (e :: lireMesures p)
           /\ stats p2
              = Some (S (length (lireMesures p)),
                      length (List.filter enAlerte (e :: lireMesures p)))
  end.
Proof.
  pose proof (analyserParametresPlante_plante m) as H.
  destruct (Parametres.PLANT_DATABASE !! Parametres.planteType m) as [plant|].
  - destruct H as (a & E & Hp). exists a. split; [exact E|]. split; [exact Hp|].
    cbn [step run fold_left]. unfold analyserParametres. rewrite E.
    repeat split.
  - cbn [step]. unfold analyserParametres. now rewrite H.
Qed.

(** X23: a measurement just saved under an identifier that no stored
    measurement bears is removed again by deleting that identifier: the
    stored history is back to what it was. *)
Theorem saved_measure_can_be_deleted (p : Page)
    (mesureId dateMesure dateCreation : JSString) (m : Parametres.Mesure)
    (a : Parametres.Analyse) :
  Parametres.analyserParametresPlante m = Some a ->
  (forall x, x ∈ lireMesures p -> id x <> mesureId) ->
  stored (run p [Soumettre mesureId dateMesure dateCreation m;
                 Supprimer mesureId; ModalConfirmer])
  = Some (lireMesures p).
Proof.
  intros E Hfresh. cbn [run fold_left step]. unfold analyserParametres. rewrite E.
  cbn. rewrite bool_decide_eq_true_2 by reflexivity. cbn. f_equal.
  rewrite (bool_decide_eq_true_2 (mesureId = mesureId)) by reflexivity. cbn.
  apply List_filter_none. intros x Hx. apply negb_true_iff, bool_decide_eq_false.
  now apply Hfresh.
Qed.

Lemma saved_measure_can_be_deleted_witness :
  stored
    (run
       pageVide
       [Soumettre (lit "1730540000000") (lit "2026-11-02T09:00:00.000Z")
          (lit "2026-11-02T09:00:00.001Z")
          (mesure_tomate (Finite 6.0) (Finite 4.0) (Finite 30));
        Supprimer (lit "1730540000000"); ModalConfirmer])
  = Some [].
Proof.
  destruct (Parametres.analyserParametresPlante
              (mesure_tomate (Finite 6.0) (Finite 4.0) (Finite 30)))
    as [a|] eqn:E; [|vm_compute in E; discriminate E].
  apply (saved_measure_can_be_deleted
           pageVide
           (lit "1730540000000") (lit "2026-11-02T09:00:00.000Z")
           (lit "2026-11-02T09:00:00.001Z")
           (mesure_tomate (Finite 6.0) (Finite 4.0) (Finite 30)) a E).
  intros x Hx. now apply elem_of_nil in Hx.
Defined.

(** *** The filter by system *)

Lemma distinct_sublist (seen l : list JSString) : sublist (distinct seen l) l.
Proof.
  revert seen. induction l as [|x l IH]; intros seen; simpl; [constructor|].
  destruct (bool_decide (x ∈ seen)); constructor; apply IH.
Qed.

Lemma systemes_of_measures (l : list Enregistrement) (v : JSString) :
  v ∈ distinct [] (map systemeNom l) <-> exists m, m ∈ l /\ systemeNom m = v.
Proof.
  rewrite distinct_elem_of. split.
  - intros [H _]. apply list_elem_of_In, in_map_iff in H as (m & E & H).
    exists m. split; [now apply list_elem_of_In | exact E].
  - intros (m & H & E). split; [|intros Hn; now apply elem_of_nil in Hn].
    apply list_elem_of_In, in_map_iff. exists m.
    split; [exact E | now apply list_elem_of_In].
Qed.

Lemma concat_optionHTML (names : list JSString) :
  concat (map optionHTML names)
  = flat_map
      (fun name =>
         lit "<option value=" ++ [34%N] ++ name ++ [34%N; 62%N] ++ name
         ++ lit "</option>")
      names.
Proof.
  induction names as [|name names IH]; [reflexivity|].
  cbn [map concat flat_map]. rewrite IH. reflexivity.
Qed.

Lemma reload_shows_stored (p : Page) :
  run p [Rafraichir; Minuterie] = chargerHistorique_timeout (chargerHistorique p)
  /\ mesures (chargerHistorique_timeout (chargerHistorique p)) = lireMesures p
  /\ historique (chargerHistorique_timeout (chargerHistorique p))
     = match lireMesures p with [] => Vide | _ => Cartes (lireMesures p) end
  /\ filtreSystemeHTML (chargerHistorique_timeout (chargerHistorique p))
     = optionsMarkup (distinct [] (map systemeNom (lireMesures p))).
Proof.
  split; [reflexivity|]. split; [reflexivity|]. split; [reflexivity|].
  unfold optionsMarkup. rewrite <- concat_optionHTML. reflexivity.
Qed.

Lemma filtrerHistorique_shown (systemeFiltre : JSString) (planteFiltre : string)
    (q : Page) :
  historique (step q (ChangerFiltre systemeFiltre planteFiltre))
  = match List.filter (correspond systemeFiltre planteFiltre) (mesures q) with
    | [] => Vide
    | m :: l => Cartes (m :: l)
    end.
Proof.
  cbn [step]. unfold filtrerHistorique, afficherHistoriqueMesures.
  cbn [historique]. destruct (List.filter _ _); reflexivity.
Qed.

Lemma correspond_systeme (v : JSString) (x : Enregistrement) :
  v <> [] -> correspond v "" x = true <-> systemeNom x = v.
Proof.
  intros Hne. unfold correspond.
  rewrite (bool_decide_eq_false_2 (v = [])) by exact Hne.
  rewrite (bool_decide_eq_true_2 (""%string = ""%string)) by reflexivity.
  simpl. rewrite andb_true_r. apply bool_decide_eq_true.
Qed.

(** X24: after a refresh and its timer, the markup given to the filter by
    system is the option of all systems followed by one option for each
    system name of the stored measurements, each name once, in the order
    of the measurements and written into the markup as it is.  When the
    listener of the filters then runs with such a name, not empty, as the
    value of the filter by system and no plant chosen, the history is
    built from the measurements of that system and no other, in their
    order, and from at least one; with both values empty it is built
    from all the measurements again. *)
Theorem system_filter_lists_each_system_once (p : Page) :
  exists names,
    filtreSystemeHTML (run p [Rafraichir; Minuterie]) = optionsMarkup names
    /\ NoDup names
    /\ sublist names (map systemeNom (lireMesures p))
    /\ (forall v, v ∈ names <-> exists m, m ∈ lireMesures p /\ systemeNom m = v)
    /\ (forall v, v ∈ names -> v <> [] ->
          exists m l,
            historique (run p [Rafraichir; Minuterie; ChangerFiltre v ""])
            = Cartes (m :: l)
            /\ sublist (m :: l) (lireMesures p)
            /\ forall x, x ∈ m :: l <-> x ∈ lireMesures p /\ systemeNom x = v)
    /\ historique (run p [Rafraichir; Minuterie; ChangerFiltre [] ""])
       = historique (run p [Rafraichir; Minuterie]).
Proof.
  destruct (reload_shows_stored p) as (Er & Em & Eh & Es).
  exists (distinct [] (map systemeNom (lireMesures p))).
  rewrite Er, Es.
  split; [reflexivity|]. split; [apply distinct_NoDup|].
  split; [apply distinct_sublist|]. split; [apply systemes_of_measures|].
  split.
  - intros v Hv Hne. apply systemes_of_measures in Hv as (m0 & Hm0 & E0).
    change (run p [Rafraichir; Minuterie; ChangerFiltre v ""])
      with (step (run p [Rafraichir; Minuterie]) (ChangerFiltre v "")).
    rewrite filtrerHistorique_shown, Er, Em.
    assert (Hshown : forall x, x ∈ List.filter (correspond v "") (lireMesures p)
                               <-> x ∈ lireMesures p /\ systemeNom x = v).
    { intros x. now rewrite elem_of_List_filter, correspond_systeme. }
    pose proof (sublist_List_filter (correspond v "") (lireMesures p)) as Hsub.
    destruct (List.filter (correspond v "") (lireMesures p)) as [|m l].
    + exfalso. assert (H : m0 ∈ @nil Enregistrement) by (apply Hshown; auto).
      now apply elem_of_nil in H.
    + exists m, l. split; [reflexivity|]. split; [exact Hsub | exact Hshown].
  - change (run p [Rafraichir; Minuterie; ChangerFiltre [] ""])
      with (step (run p [Rafraichir; Minuterie]) (ChangerFiltre [] "")).
    rewrite filtrerHistorique_shown, Er, Em, Eh.
    rewrite List_filter_none by reflexivity.
    destruct (lireMesures p); reflexivity.
Qed.

(** *** The cards of the history and the analysis *)

Lemma isOptimal_within (v : JSNumber) (r : Parametres.Range) :
  isNumber v -> (0 < Parametres.min r)%Q ->
  isOptimal (jsonNumber v) r = true <-> within v r.
Proof.
  intros Hv Hmin. unfold isOptimal.
  destruct v as [| |q|]; simpl.
  - now destruct Hv.
  - split; [|tauto]. intros H. apply andb_true_iff in H as [H _].
    apply Qle_bool_iff in H. exact (Qlt_not_le _ _ Hmin H).
  - rewrite andb_true_iff, !Qle_bool_iff. tauto.
  - split; [|tauto]. intros H. apply andb_true_iff in H as [H _].
    apply Qle_bool_iff in H. exact (Qlt_not_le _ _ Hmin H).
Qed.

Lemma isOptimal_null (r : Parametres.Range) :
  (0 < Parametres.min r)%Q -> isOptimal None r = false.
Proof.
  intros Hmin. unfold isOptimal. simpl.
  destruct (Qle_bool (Parametres.min r) 0) eqn:E; [|reflexivity].
  apply Qle_bool_iff in E. exfalso. exact (Qlt_not_le _ _ Hmin E).
Qed.

Lemma PLANT_DATABASE_positive (k : string) (plant : Parametres.Plant) :
  Parametres.PLANT_DATABASE !! k = Some plant ->
  (0 < Parametres.min (Parametres.pH_optimal plant))%Q
  /\ (0 < Parametres.min (Parametres.temperature_optimal plant))%Q.
Proof.
  intros H. unfold Parametres.PLANT_DATABASE in H.
  apply elem_of_list_to_map_2 in H.
  repeat (apply elem_of_cons in H as [[= -> ->]|H]; [split; reflexivity|]).
  now apply elem_of_nil in H.
Qed.

Lemma is_type_success (a : Parametres.Alerte) :
  Parametres.is_type Parametres.success a = true
  <-> Parametres.type a = Parametres.success.
Proof. destruct a as [[] ? ?]; simpl; split; congruence. Qed.

Lemma bool_eq_iff (b c : bool) : (b = true <-> c = true) -> b = c.
Proof.
  destruct b, c; intros [H1 H2]; try reflexivity.
  - symmetry. now apply H1.
  - now apply H2.
Qed.

(** X25: the card of a stored measurement marks a parameter as optimal
    exactly when the analysis gave it a [success] alert, as long as no
    reading is NaN.  A NaN reading is stored as [null]: its card is not
    marked optimal although its alert is [success]. *)
Theorem card_agrees_with_analysis_on_numbers
    (mesureId dateMesure dateCreation : JSString) (m : Parametres.Mesure)
    (a : Parametres.Analyse) :
  Parametres.analyserParametresPlante m = Some a ->
  (isNumber (Parametres.phMesure m) -> isNumber (Parametres.oxygeneMesure m) ->
   isNumber (Parametres.temperatureEau m) ->
   parametresOptimaux (enregistrement mesureId dateMesure dateCreation m a)
   = map (Parametres.is_type Parametres.success) (Parametres.alertes a))
  /\ (Parametres.phMesure m = NaN ->
      parametresOptimaux (enregistrement mesureId dateMesure dateCreation m a) !! 0%nat
        = Some false
      /\ map (Parametres.is_type Parametres.success) (Parametres.alertes a) !! 0%nat
         = Some true).
Proof.
  unfold Parametres.analyserParametresPlante.
  destruct (Parametres.PLANT_DATABASE !! Parametres.planteType m) as [plant|] eqn:Ep;
    [|discriminate].
  destruct (PLANT_DATABASE_positive _ _ Ep) as [HpH Htemp].
  pose proof (analysePH_success m plant) as E1.
  pose proof (analyseOxygene_success m) as E2.
  pose proof (analyseTemperature_success m plant) as E3.
  assert (Hnan : Parametres.phMesure m = NaN ->
                 Parametres.type (fst (Parametres.analysePH m plant))
                 = Parametres.success).
  { intros E. unfold Parametres.analysePH. rewrite E. reflexivity. }
  destruct (Parametres.analysePH m plant) as [a1 r1],
    (Parametres.analyseOxygene m) as [a2 r2],
    (Parametres.analyseTemperature m plant) as [a3 r3].
  cbn [fst] in *. intros [= <-].
  unfold parametresOptimaux, enregistrement.
  cbn [phMesure oxygeneMesure temperatureEau analyse Parametres.plante
       Parametres.alertes map].
  split.
  - intros H1 H2 H3. f_equal; [|f_equal; [|f_equal]]; apply bool_eq_iff.
    + rewrite is_type_success, (E1 H1). now apply isOptimal_within.
    + rewrite is_type_success, (E2 H2). now apply isOptimal_within.
    + rewrite is_type_success, (E3 H3). now apply isOptimal_within.
  - intros E. rewrite E. cbn [jsonNumber lookup list_lookup].
    split; f_equal.
    + now apply isOptimal_null.
    + apply is_type_success. now apply Hnan.
Qed.

Lemma card_agrees_with_analysis_on_numbers_witness :
  exists a,
    Parametres.analyserParametresPlante
      (mesure_tomate (Finite 6.0) NegInfinity (Finite 30)) = Some a
    /\ parametresOptimaux
         (enregistrement (lit "1730540000000") (lit "2026-11-02T09:00:00.000Z")
            (lit "2026-11-02T09:00:00.001Z")
            (mesure_tomate (Finite 6.0) NegInfinity (Finite 30)) a)
       = map (Parametres.is_type Parametres.success) (Parametres.alertes a).
Proof.
  destruct (Parametres.analyserParametresPlante
              (mesure_tomate (Finite 6.0) NegInfinity (Finite 30)))
    as [a|] eqn:E; [|vm_compute in E; discriminate E].
  exists a. split; [reflexivity|].
  apply (card_agrees_with_analysis_on_numbers (lit "1730540000000")
           (lit "2026-11-02T09:00:00.000Z") (lit "2026-11-02T09:00:00.001Z")
           (mesure_tomate (Finite 6.0) NegInfinity (Finite 30)) a E);
    discriminate.
Defined.

End SuiviProperties.
